(** * STSServoDriver: the protocol engine of the Feetech STS serial-bus servo driver

    A shallow embedding of [src/STSServoDriver.cpp].  Bytes and C integers are
    integers of [Z] with every truncation written out; C arrays are lists
    read and updated by index; the driver object (direction pin, serial port)
    is an explicit state threaded through a small state monad. *)

From stdpp Require Import base numbers list.
From Stdlib Require Import ZArith Lia.
From Stdlib Require Import Floats.SpecFloat.

Open Scope Z_scope.

(** ** Machine integers *)

(** Conversion to [byte] (unsigned char): reduction modulo 256. *)
Definition to_byte (z : Z) : Z := z `mod` 256.

(** Conversion to [int16_t]: two's-complement wrap-around on 16 bits. *)
Definition to_int16 (z : Z) : Z := (z + 32768) `mod` 65536 - 32768.

Definition is_byte (z : Z) : Prop := 0 <= z < 256.

(** ** Floating point

    [double] is taken to be IEEE 754 binary64 with the default rounding, to
    nearest with ties to even, as [SFmul] of the Standard Library computes
    it. *)

(** Conversion of a C [int] to [double]; exact for every 16-bit value. *)
Definition int_to_double (z : Z) : spec_float := binary_normalize 53 1024 z 0 false.

(** The literal [0.0065]: the binary64 number nearest to it,
    0x1.A9FBE76C8B439p-8. *)
Definition double_0_0065 : spec_float := S754_finite false 0x1A9FBE76C8B439 (-60).

Definition double_mul (x y : spec_float) : spec_float := SFmul 53 1024 x y.

(** Conversion of a [double] to [int]: the fractional part is discarded.  It
    is undefined in C for infinities and NaN, which yield 0 here. *)
Definition double_to_int (x : spec_float) : Z :=
  match x with
  | S754_finite sign m e =>
      let magnitude := if 0 <=? e then Z.pos m * 2 ^ e else Z.pos m / 2 ^ (- e) in
      if sign then - magnitude else magnitude
  | _ => 0
  end.

(** ** C arrays *)

(** [a[i]]; a read past the end is undefined in C and yields 0 here. *)
Definition get (a : list Z) (i : Z) : Z := default 0 (a !! Z.to_nat i).

(** [a[i] = v]; a write past the end is undefined in C and is dropped here. *)
Definition set (a : list Z) (i v : Z) : list Z := <[Z.to_nat i := v]> a.

(** A local array [byte a[n]] before any cell is assigned. *)
Definition array (n : Z) : list Z := replicate (Z.to_nat n) 0.

(** [for (int i = lo; i < hi; i++) body] over a loop state of type [A]. *)
Fixpoint for_iter {A : Type} (n : nat) (i : Z) (body : Z -> A -> A) (a : A) : A :=
  match n with
  | O => a
  | S k => for_iter k (i + 1) body (body i a)
  end.

Definition for_loop {A : Type} (lo hi : Z) (body : Z -> A -> A) (a : A) : A :=
  for_iter (Z.to_nat (hi - lo)) lo body a.

(** ** Instruction codes (namespace [instruction]) *)

Module instruction.
Definition PING : Z := 0x01.
Definition READ : Z := 0x02.
Definition WRITE : Z := 0x03.
Definition REGWRITE : Z := 0x04.
Definition ACTION : Z := 0x05.
Definition SYNCWRITE : Z := 0x83.
Definition RESET : Z := 0x06.
End instruction.

(** ** Register table

    [STSRegisters] is declared in [STSServoDriver.h], which is not part of the
    sources at hand; the offsets the driver uses are taken as parameters. *)
Record STSRegisters : Type := {
  ID : Z;
  POSITION_CORRECTION : Z;
  OPERATION_MODE : Z;
  TARGET_ACCELERATION : Z;
  TARGET_POSITION : Z;
  RUNNING_SPEED : Z;
  WRITE_LOCK : Z;
  CURRENT_POSITION : Z;
  CURRENT_SPEED : Z;
  CURRENT_TEMPERATURE : Z;
  MOVING_STATUS : Z;
  CURRENT_CURRENT : Z
}.

(** ** The driver object and its serial link

    [setMode] (no return statement) is not modelled.

    The half-duplex bus is a deterministic environment of type [E]: handed a
    buffer by [port_->write], it reports a byte count and may deliver bytes to
    the receive buffer (the answer of a servo), which are all there before the
    read timeout expires. *)
Record Driver (E : Type) : Type := mkDriver {
  dirPin_level : bool;          (* level of the direction pin dirPin_ *)
  rxbuf : list Z;               (* bytes waiting in the port's receive buffer *)
  txlog : list (list Z);        (* buffers handed to port_->write, oldest first *)
  bus : E                       (* state of the environment *)
}.
Arguments mkDriver {E}.
Arguments dirPin_level {E}.
Arguments rxbuf {E}.
Arguments txlog {E}.
Arguments bus {E}.

(** Every byte put on the wire so far. *)
Definition wire {E : Type} (s : Driver E) : list Z := concat (txlog s).

Definition Link (E : Type) : Type := E -> list Z -> Z * list Z * E.

Definition HIGH : bool := true.
Definition LOW : bool := false.

Section Driver.
Context {E : Type}.
Variable link : Link E.
Variable R : STSRegisters.
(** Default value of the trailing [asynchronous] argument, also declared in
    the header. *)
Variable asynchronous_default : bool.

Definition M (A : Type) : Type := Driver E -> A * Driver E.

#[global] Instance M_ret : MRet M := fun A a s => (a, s).

#[global] Instance M_bind : MBind M :=
  fun A B k m s => let (a, s') := m s in k a s'.

Definition digitalWrite (level : bool) : M unit :=
  fun s => (tt, mkDriver level (rxbuf s) (txlog s) (bus s)).

Definition delayMicroseconds (us : Z) : M unit := mret tt.

(** [port_->write(buf, len)] and [port_->write(b)]. *)
Definition port_write (buf : list Z) : M Z :=
  fun s => let '(n, answer, e) := link (bus s) buf in
           (n, mkDriver (dirPin_level s) (rxbuf s ++ answer) (txlog s ++ [buf]) e).

(** [port_->read()]: one byte, or -1 when the receive buffer is empty. *)
Definition port_read : M Z :=
  fun s => match rxbuf s with
           | [] => (-1, s)
           | b :: rest => (b, mkDriver (dirPin_level s) rest (txlog s) (bus s))
           end.

(** [port_->readBytes(buf, n)]: the bytes obtained before the timeout. *)
Definition port_readBytes (n : Z) : M (list Z) :=
  fun s => (take (Z.to_nat n) (rxbuf s),
            mkDriver (dirPin_level s) (drop (Z.to_nat n) (rxbuf s)) (txlog s) (bus s)).

Definition sendMessage (servoId commandID paramLength : Z) (parameters : list Z) : M Z :=
  let message := array (6 + paramLength) in
  let checksum := to_byte (servoId + paramLength + 2 + commandID) in
  let message := set message 0 0xFF in
  let message := set message 1 0xFF in
  let message := set message 2 servoId in
  let message := set message 3 (to_byte (paramLength + 2)) in
  let message := set message 4 commandID in
  let st := for_loop 0 paramLength
              (fun i st => (set (fst st) (5 + i) (get parameters i),
                            to_byte (snd st + get parameters i)))
              (message, checksum) in
  let message := set (fst st) (5 + paramLength) (to_byte (Z.lnot (snd st))) in
  digitalWrite HIGH;;
  r ← port_write (take (Z.to_nat (6 + paramLength)) message);
  digitalWrite LOW;;
  (* Give time for the message to be processed. *)
  delayMicroseconds 200;;
  mret r.

(** A [for] loop whose body uses the port. *)
Fixpoint for_iterM {A : Type} (n : nat) (i : Z) (body : Z -> A -> M A) (a : A) : M A :=
  match n with
  | O => mret a
  | S k => a' ← body i a; for_iterM k (i + 1) body a'
  end.

Definition for_loopM {A : Type} (lo hi : Z) (body : Z -> A -> M A) (a : A) : M A :=
  for_iterM (Z.to_nat (hi - lo)) lo body a.

(** Returns the status code and the caller's [outputBuffer] after the call. *)
Definition receiveMessage (servoId readLength : Z) (outputBuffer : list Z)
  : M (Z * list Z) :=
  digitalWrite LOW;;
  got ← port_readBytes (readLength + 5);
  let result := got ++ array (readLength + 5 - Z.of_nat (length got)) in
  let rd := Z.of_nat (length got) in
  if negb (rd =? readLength + 5) then mret (-1, outputBuffer) else
  (* Check message integrity *)
  if negb (get result 0 =? 0xFF) || negb (get result 1 =? 0xFF)
     || negb (get result 2 =? servoId) || negb (get result 3 =? readLength + 1)
  then mret (-2, outputBuffer) else
  let checksum := 0 in
  let checksum := for_loop 2 (readLength + 4)
                    (fun i checksum => to_byte (checksum + get result i)) checksum in
  let checksum := to_byte (Z.lnot checksum) in
  if negb (get result (readLength + 4) =? checksum) then mret (-3, outputBuffer) else
  (* Copy result to output buffer *)
  let outputBuffer := for_loop 0 readLength
                        (fun i out => set out i (get result (i + 4))) outputBuffer in
  mret (0, outputBuffer).

Definition ping (servoId : Z) : M bool :=
  let response := [0xFF] in
  send ← sendMessage servoId instruction.PING 0 response;
  (* Failed to send *)
  if negb (send =? 6) then mret false else
  (* Read response *)
  '(rd, response) ← receiveMessage servoId 1 response;
  if rd <? 0 then mret false else
  mret (get response 0 =? 0x00).

Definition writeRegisters (servoId startRegister writeLength : Z)
    (parameters : list Z) (asynchronous : bool) : M bool :=
  let param := array (writeLength + 1) in
  let param := set param 0 startRegister in
  let param := for_loop 0 writeLength
                 (fun i param => set param (i + 1) (get parameters i)) param in
  rc ← sendMessage servoId
         (if asynchronous then instruction.REGWRITE else instruction.WRITE)
         (to_byte (writeLength + 1))
         param;
  mret (rc =? writeLength + 7).

Definition writeRegister (servoId registerId value : Z) (asynchronous : bool) : M bool :=
  writeRegisters servoId registerId 1 [value] asynchronous.

(** [value] is an [int16_t]; callers convert with [to_int16]. *)
Definition writeTwoBytesRegister (servoId registerId value : Z) (asynchronous : bool)
  : M bool :=
  let params := [to_byte (Z.land value 0xFF);
                 to_byte (Z.land (Z.shiftr value 8) 0xFF)] in
  writeRegisters servoId registerId 2 params asynchronous.

(** [while (port_->read() != -1);] It ends within one more read than there
    are bytes in the receive buffer. *)
Fixpoint flush_loop (fuel : nat) : M unit :=
  match fuel with
  | O => mret tt
  | S k => b ← port_read; if b =? -1 then mret tt else flush_loop k
  end.

Definition flush : M unit := fun s : Driver E => flush_loop (S (length (rxbuf s))) s.

(** Returns the status code and the caller's [outputBuffer] after the call. *)
Definition readRegisters (servoId startRegister readLength : Z) (outputBuffer : list Z)
  : M (Z * list Z) :=
  let readParam := [startRegister; readLength] in
  (* Flush *)
  flush;;
  send ← sendMessage servoId instruction.READ 2 readParam;
  (* Failed to send *)
  if negb (send =? 8) then mret (-1, outputBuffer) else
  (* Read *)
  let result := array (readLength + 1) in
  '(rd, result) ← receiveMessage servoId (to_byte (readLength + 1)) result;
  if rd <? 0 then mret (rd, outputBuffer) else
  let outputBuffer := for_loop 0 readLength
                        (fun i out => set out i (get result (i + 1))) outputBuffer in
  mret (0, outputBuffer).

Definition readRegister (servoId registerId : Z) : M Z :=
  let result := [0] in
  '(rc, result) ← readRegisters servoId registerId 1 result;
  if rc <? 0 then mret 0 else
  mret (get result 0).

Definition readTwoBytesRegister (servoId registerId : Z) : M Z :=
  let result := [0; 0] in
  '(rc, result) ← readRegisters servoId registerId 2 result;
  if rc <? 0 then mret 0 else
  mret (to_int16 (get result 0 + Z.shiftl (get result 1) 8)).

(** [for (byte i = 0; i < 0xFE; i++) if (ping(i)) return true; return false;]
    with [n] candidates left. *)
Fixpoint init_loop (n : nat) (i : Z) : M bool :=
  match n with
  | O => mret false
  | S k => alive ← ping i; if (alive : bool) then mret true else init_loop k (i + 1)
  end.

(** Opening the port, setting its timeout and the pin mode leave the model
    state as it is. *)
Definition init : M bool :=
  (* Test that a servo is present. *)
  init_loop (Z.to_nat (0xFE - 0)) 0.

Definition setId (oldServoId newServoId : Z) : M bool :=
  if (oldServoId >=? 0xFE) || (newServoId >=? 0xFE) then mret false else
  taken ← ping newServoId;
  if (taken : bool) then mret false (* address taken *) else
  (* Unlock EEPROM *)
  ok ← writeRegister oldServoId (WRITE_LOCK R) 0 asynchronous_default;
  if negb ok then mret false else
  (* Write new ID *)
  ok ← writeRegister oldServoId (ID R) newServoId asynchronous_default;
  if negb ok then mret false else
  (* Lock EEPROM *)
  ok ← writeRegister newServoId (WRITE_LOCK R) 1 asynchronous_default;
  if negb ok then mret false else
  ping newServoId.

Definition setPositionOffset (servoId positionOffset : Z) : M bool :=
  ok ← writeRegister servoId (WRITE_LOCK R) 0 asynchronous_default;
  if negb ok then mret false else
  (* Write new position offset *)
  ok ← writeTwoBytesRegister servoId (POSITION_CORRECTION R) (to_int16 positionOffset)
         asynchronous_default;
  if negb ok then mret false else
  (* Lock EEPROM *)
  ok ← writeRegister servoId (WRITE_LOCK R) 1 asynchronous_default;
  if negb ok then mret false else
  mret true.

Definition getCurrentPosition (servoId : Z) : M Z :=
  pos ← readTwoBytesRegister servoId (CURRENT_POSITION R);
  mret pos.

Definition getCurrentSpeed (servoId : Z) : M Z :=
  vel ← readTwoBytesRegister servoId (CURRENT_SPEED R);
  (* Feetech uses bit 15 as a sign bit, instead of the standard format. *)
  let signedVel := to_int16 (Z.land vel (Z.lnot 0x8000)) in
  let signedVel := if negb (Z.land vel 0x8000 =? 0) then to_int16 (- signedVel)
                   else signedVel in
  mret signedVel.

Definition getCurrentTemperature (servoId : Z) : M Z :=
  readTwoBytesRegister servoId (CURRENT_TEMPERATURE R).

(** [int16_t current = ...; return current * 0.0065;] the product is a
    [double], converted to the [int] returned. *)
Definition getCurrentCurrent (servoId : Z) : M Z :=
  current ← readTwoBytesRegister servoId (CURRENT_CURRENT R);
  let current := to_int16 current in
  mret (double_to_int (double_mul (int_to_double current) double_0_0065)).

Definition isMoving (servoId : Z) : M bool :=
  result ← readRegister servoId (MOVING_STATUS R);
  mret (result >? 0).

Definition setTargetPosition (servoId position speed : Z) (asynchronous : bool)
  : M bool :=
  let params := [to_byte (Z.land position 0xFF);
                 to_byte (Z.land (Z.shiftr position 8) 0xFF);
                 0;
                 0;
                 to_byte (Z.land speed 0xFF);
                 to_byte (Z.land (Z.shiftr speed 8) 0xFF)] in
  writeRegisters servoId (TARGET_POSITION R) 6 params asynchronous.

(** [abs(INT_MIN)] is undefined in C; elsewhere [abs] is [Z.abs]. *)
Definition setTargetVelocity (servoId velocity : Z) (asynchronous : bool) : M bool :=
  let feetechVelocity := Z.abs velocity in
  let feetechVelocity := if velocity <? 0 then Z.lor feetechVelocity 0x8000
                         else feetechVelocity in
  writeTwoBytesRegister servoId (RUNNING_SPEED R) (to_int16 feetechVelocity)
    asynchronous.

Definition setTargetAcceleration (servoId acceleration : Z) (asynchronous : bool)
  : M bool :=
  writeRegister servoId (TARGET_ACCELERATION R) acceleration asynchronous.

Definition trigerAction : M bool :=
  let noParam := [0] in
  send ← sendMessage 0xFE instruction.ACTION 0 noParam;
  mret (send =? 6).

Definition convertIntToBytes (value : Z) (result : list Z) : list Z :=
  let result := set result 0 (to_byte (Z.land value 0xFF)) in
  let result := set result 1 (to_byte (Z.land (Z.shiftr value 8) 0xFF)) in
  result.

(** Returns the updated [checksum]. *)
Definition sendAndUpdateChecksum (convertedValue : list Z) (checksum : Z) : M Z :=
  port_write (take 2 convertedValue);;
  mret (to_byte (checksum + (get convertedValue 0 + get convertedValue 1))).

Definition setTargetPositions (numberOfServos : Z) (servoIds positions speeds : list Z)
  : M unit :=
  port_write [0xFF];;
  port_write [0xFF];;
  port_write [0xFE];;
  port_write [to_byte (numberOfServos * 7 + 4)];;
  port_write [instruction.SYNCWRITE];;
  port_write [TARGET_POSITION R];;
  port_write [6];;
  let checksum := to_byte (0xFE + numberOfServos * 7 + 4 + instruction.SYNCWRITE
                           + TARGET_POSITION R + 6) in
  checksum ← for_loopM 0 numberOfServos
    (fun index checksum =>
       let checksum := to_byte (checksum + get servoIds index) in
       port_write [get servoIds index];;
       let intAsByte := array 2 in
       let intAsByte := convertIntToBytes (get positions index) intAsByte in
       checksum ← sendAndUpdateChecksum intAsByte checksum;
       port_write [0];;
       port_write [0];;
       let intAsByte := convertIntToBytes (get speeds index) intAsByte in
       checksum ← sendAndUpdateChecksum intAsByte checksum;
       mret checksum)
    checksum;
  port_write [to_byte (Z.lnot checksum)];;
  mret tt.

End Driver.

Arguments M E A : clear implicits.

(** * Vocabulary of the statements *)

(** The sum of a block of bytes. *)
Definition sum_bytes (l : list Z) : Z := foldr Z.add 0 l.

(** ** The frame formats

    [frame] is the byte sequence [sendMessage] assembles (closed form, proved
    below); [spec_frame] is the single-device frame in the words of the
    specification, its length field computed without truncation. *)
Definition frame (servoId commandID : Z) (params : list Z) : list Z :=
  let len := to_byte (Z.of_nat (length params) + 2) in
  [0xFF; 0xFF; servoId; len; commandID] ++ params
  ++ [to_byte (Z.lnot (to_byte (servoId + Z.of_nat (length params) + 2 + commandID
                                + sum_bytes params)))].

Definition spec_frame (id cmd : Z) (params : list Z) : list Z :=
  let len := Z.of_nat (length params) + 2 in
  [0xFF; 0xFF; id; len; cmd] ++ params
  ++ [to_byte (Z.lnot (to_byte (id + len + cmd + sum_bytes params)))].

(** What one call of [port_->write] on buffer [buf] followed by lowering the
    direction pin does to the driver. *)
Definition transmit {E : Type} (link : Link E) (buf : list Z) (s : Driver E)
  : Z * Driver E :=
  let '(n, answer, e) := link (bus s) buf in
  (n, mkDriver LOW (rxbuf s ++ answer) (txlog s ++ [buf]) e).

(** The header test of [receiveMessage] on the received bytes [r]. *)
Definition header_ok (servoId readLength : Z) (r : list Z) : bool :=
  (get r 0 =? 0xFF) && (get r 1 =? 0xFF) && (get r 2 =? servoId)
  && (get r 3 =? readLength + 1).

(** A frame whose command byte is WRITE or REGWRITE. *)
Definition is_write_frame (buf : list Z) : bool :=
  (get buf 4 =? instruction.WRITE) || (get buf 4 =? instruction.REGWRITE).

(** The buffers handed to the transport between driver states [s] and [s']. *)
Definition sent_since {E : Type} (s s' : Driver E) : list (list Z) :=
  drop (length (txlog s)) (txlog s').

(** The two bytes of a C [int], low byte first. *)
Definition low_byte (v : Z) : Z := v `mod` 256.
Definition high_byte (v : Z) : Z := (v `div` 256) `mod` 256.

(** The per-device blocks of a sync-write frame, in input order. *)
Fixpoint blocks (ids positions speeds : list Z) : list Z :=
  match ids, positions, speeds with
  | id :: ids', pos :: positions', spd :: speeds' =>
      [id; low_byte pos; high_byte pos; 0x00; 0x00; low_byte spd; high_byte spd]
      ++ blocks ids' positions' speeds'
  | _, _, _ => []
  end.

(** The broadcast sync-write frame in the words of the specification, for a
    target-position register at offset [startReg]. *)
Definition spec_sync_frame (startReg : Z) (ids positions speeds : list Z) : list Z :=
  let body := [0xFE; Z.of_nat (length ids) * 7 + 4; 0x83; startReg; 6]
              ++ blocks ids positions speeds in
  [0xFF; 0xFF] ++ body ++ [to_byte (Z.lnot (to_byte (sum_bytes body)))].

(** The body of the loop of [setTargetPositions]. *)
Definition sync_body {E : Type} (link : Link E) (servoIds positions speeds : list Z)
    (index checksum : Z) : M E Z :=
  let checksum := to_byte (checksum + get servoIds index) in
  port_write link [get servoIds index];;
  let intAsByte := array 2 in
  let intAsByte := convertIntToBytes (get positions index) intAsByte in
  checksum ← sendAndUpdateChecksum link intAsByte checksum;
  port_write link [0];;
  port_write link [0];;
  let intAsByte := convertIntToBytes (get speeds index) intAsByte in
  checksum ← sendAndUpdateChecksum link intAsByte checksum;
  mret checksum.

(** The driver after pinging the candidates 0, 1, ..., k-1 in this order. *)
Fixpoint sweep {E : Type} (link : Link E) (k : nat) (s : Driver E) : Driver E :=
  match k with
  | O => s
  | S k' => snd (ping link (Z.of_nat k') (sweep link k' s))
  end.

Definition ping_frames (k : nat) : list (list Z) :=
  map (fun j => frame (Z.of_nat j) instruction.PING []) (seq 0 k).

(** The value [setTargetVelocity] computes in [feetechVelocity], and the
    decoding [getCurrentSpeed] applies to the register value [vel]. *)
Definition sign_bit_encode (velocity : Z) : Z :=
  let feetechVelocity := Z.abs velocity in
  if velocity <? 0 then Z.lor feetechVelocity 0x8000 else feetechVelocity.

Definition sign_bit_decode (vel : Z) : Z :=
  let signedVel := to_int16 (Z.land vel (Z.lnot 0x8000)) in
  if negb (Z.land vel 0x8000 =? 0) then to_int16 (- signedVel) else signedVel.

(** ** A simulated bus

    Servos with the IDs in [present] sit on the bus, all holding [mem] in
    their register table.  The transport reports every byte as sent; a servo
    answers a well-formed PING or READ frame addressed to it with a status
    packet (status byte 0) and stays silent otherwise. *)
Definition status_packet (id : Z) (data : list Z) : list Z :=
  [0xFF; 0xFF; id; Z.of_nat (length data) + 2; 0] ++ data
  ++ [to_byte (Z.lnot (to_byte (id + (Z.of_nat (length data) + 2) + 0 + sum_bytes data)))].

Definition servo_answer (present : list Z) (mem : Z -> Z) (buf : list Z) : list Z :=
  match buf with
  | [0xFF; 0xFF; id; 2; 1; chk] =>
      if bool_decide (id ∈ present) && (chk =? to_byte (Z.lnot (to_byte (id + 2 + 1))))
      then status_packet id [] else []
  | [0xFF; 0xFF; id; 4; 2; reg; n; chk] =>
      if bool_decide (id ∈ present)
         && (chk =? to_byte (Z.lnot (to_byte (id + 4 + 2 + reg + n))))
      then status_packet id (map (fun k => mem (reg + Z.of_nat k)) (seq 0 (Z.to_nat n)))
      else []
  | _ => []
  end.

Definition servo_bus (present : list Z) (mem : Z -> Z) : Link unit :=
  fun e buf => (Z.of_nat (length buf), servo_answer present mem buf, e).

(** A link on which nothing can be sent. *)
Definition dead_link : Link unit := fun e buf => (0, [], e).

(** A freshly constructed driver: pin low, nothing received or sent. *)
Definition fresh {E : Type} (e : E) : Driver E := mkDriver LOW [] [] e.

(** A link that takes every byte and answers each buffer with the same bytes. *)
Definition canned_link (answer : list Z) : Link unit :=
  fun e buf => (Z.of_nat (length buf), answer, e).

(** A single-wire link that hands every byte written back to the receiver. *)
Definition loopback : Link unit := fun e buf => (Z.of_nat (length buf), buf, e).

(** A servo [id] that runs at the speed it was last told: it keeps the two
    bytes of a well-formed WRITE to its running-speed register and reports
    them when its current-speed register is read. *)
Definition speed_servo (R : STSRegisters) (id : Z) : Link (Z * Z) :=
  fun mem buf =>
    let n := Z.of_nat (length buf) in
    match buf with
    | [_; _; _; _; _; reg; lo; hi; _] =>
        if bool_decide (buf = frame id instruction.WRITE [reg; lo; hi])
           && (reg =? RUNNING_SPEED R)
        then (n, [], (lo, hi)) else (n, [], mem)
    | [_; _; _; _; _; reg; len; _] =>
        if bool_decide (buf = frame id instruction.READ [reg; len])
           && (reg =? CURRENT_SPEED R) && (len =? 2)
        then (n, status_packet id [fst mem; snd mem], mem) else (n, [], mem)
    | _ => (n, [], mem)
    end.

(** A register table for the examples: the offsets of the STS memory table. *)
Definition sts_registers : STSRegisters := {|
  ID := 0x05;
  POSITION_CORRECTION := 0x1F;
  OPERATION_MODE := 0x21;
  TARGET_ACCELERATION := 0x29;
  TARGET_POSITION := 0x2A;
  RUNNING_SPEED := 0x2E;
  WRITE_LOCK := 0x37;
  CURRENT_POSITION := 0x38;
  CURRENT_SPEED := 0x3A;
  CURRENT_TEMPERATURE := 0x3F;
  MOVING_STATUS := 0x42;
  CURRENT_CURRENT := 0x45
|}.

(** ** Vocabulary of the further properties *)

(** The checksum byte of a status packet from [servoId] carrying [data]. *)
Definition packet_checksum (servoId : Z) (data : list Z) : Z :=
  to_byte (Z.lnot (to_byte (servoId + (Z.of_nat (length data) + 1) + sum_bytes data))).

(** The driver state [s'] comes from [s] by [k] calls of [port_->write] and
    nothing else: the pin is where it was, nothing was read. *)
Definition only_writes {E : Type} (k : nat) (s s' : Driver E) : Prop :=
  dirPin_level s' = dirPin_level s
  /\ length (txlog s') = (length (txlog s) + k)%nat
  /\ exists answers, rxbuf s' = rxbuf s ++ answers.

(** The answer of servo [id] to a READ: a packet with a status byte and the
    register bytes [data]. *)
Definition answer_packet (id status : Z) (data : list Z) : list Z :=
  [0xFF; 0xFF; id; Z.of_nat (length data) + 2; status] ++ data
  ++ [to_byte (Z.lnot (to_byte (id + (Z.of_nat (length data) + 2) + status
                               + sum_bytes data)))].

(** A register table after [bytes] have been stored from offset [reg] on, and
    the [n] bytes of a table from offset [reg] on. *)
Definition store (mem : Z -> Z) (reg : Z) (bytes : list Z) : Z -> Z :=
  fun a => if (reg <=? a) && (a <? reg + Z.of_nat (length bytes))
           then get bytes (a - reg) else mem a.

Definition load (mem : Z -> Z) (reg : Z) (n : nat) : list Z :=
  map (fun k => mem (reg + Z.of_nat k)) (seq 0 n).

(** A servo [id] with a register table: it stores the bytes of a well-formed
    WRITE frame addressed to it from the start register on, answers a
    well-formed READ frame with a status packet holding the registers asked
    for, and ignores everything else.  The transport sends every byte. *)
Definition register_servo (id : Z) : Link (Z -> Z) :=
  fun mem buf =>
    let n := Z.of_nat (length buf) in
    match buf with
    | _ :: _ :: _ :: _ :: _ :: reg :: rest =>
        if bool_decide (buf = frame id instruction.WRITE (reg :: removelast rest))
        then (n, [], store mem reg (removelast rest))
        else if bool_decide (buf = frame id instruction.READ [reg; get rest 0])
        then (n, status_packet id (load mem reg (Z.to_nat (get rest 0))), mem)
        else (n, [], mem)
    | _ => (n, [], mem)
    end.

(** A servo that can be renamed, as a pair of its ID and its lock register:
    it answers a PING to its ID, takes a well-formed one-byte WRITE to its
    lock register, and adopts a one-byte WRITE to its ID register as its new
    ID when the lock register is 0. *)
Definition id_servo (R : STSRegisters) : Link (Z * Z) :=
  fun st buf =>
    let n := Z.of_nat (length buf) in
    if bool_decide (buf = frame (fst st) instruction.PING [])
    then (n, status_packet (fst st) [], st)
    else match buf with
         | [_; _; _; _; _; reg; v; _] =>
             if bool_decide (buf = frame (fst st) instruction.WRITE [reg; v])
             then if reg =? WRITE_LOCK R then (n, [], (fst st, v))
                  else if (reg =? ID R) && (snd st =? 0) then (n, [], (v, snd st))
                  else (n, [], st)
             else (n, [], st)
         | _ => (n, [], st)
         end.

(** * Properties *)

(** ** Arrays and loops *)

Lemma get_middle (l1 l2 : list Z) (x i : Z) :
  i = Z.of_nat (length l1) -> get (l1 ++ x :: l2) i = x.
Proof.
  intros ->. unfold get. rewrite Nat2Z.id.
  by rewrite list_lookup_middle.
Qed.

Lemma set_middle (l1 l2 : list Z) (x v i : Z) :
  i = Z.of_nat (length l1) -> set (l1 ++ x :: l2) i v = l1 ++ v :: l2.
Proof.
  intros ->. unfold set. rewrite Nat2Z.id.
  rewrite insert_app_r_alt by lia.
  by rewrite Nat.sub_diag.
Qed.

Lemma for_iter_ext {A : Type} (f g : Z -> A -> A) :
  (forall i a, f i a = g i a) ->
  forall n i a, for_iter n i f a = for_iter n i g a.
Proof.
  intros Hfg n. induction n as [|n IH]; intros i a; simpl; [done|].
  by rewrite Hfg, IH.
Qed.

(** A loop over a pair whose components evolve independently. *)
Lemma for_iter_pair {A B : Type} (f : Z -> A -> A) (g : Z -> B -> B) :
  forall n i a b,
    for_iter n i (fun i st => (f i (fst st), g i (snd st))) (a, b)
    = (for_iter n i f a, for_iter n i g b).
Proof.
  intros n. induction n as [|n IH]; intros i a b; simpl; [done|].
  by rewrite IH.
Qed.

(** The copying loop [for (i...) dst[i + a] = src[i + b];] over a block [mid]
    of the source. *)
Lemma copy_loop (a b : Z) (src mid spost : list Z) :
  forall (spre dpre dold dpost : list Z) (i : Z),
    src = spre ++ mid ++ spost ->
    length dold = length mid ->
    i + a = Z.of_nat (length dpre) ->
    i + b = Z.of_nat (length spre) ->
    for_iter (length mid) i (fun i dst => set dst (i + a) (get src (i + b)))
      (dpre ++ dold ++ dpost)
    = dpre ++ mid ++ dpost.
Proof.
  induction mid as [|x mid IH]; intros spre dpre dold dpost i Hsrc Hlen Ha Hb.
  - destruct dold; [done | discriminate].
  - destruct dold as [|y dold]; [discriminate|]. simpl in Hlen.
    cbn [length for_iter app].
    rewrite (set_middle dpre _ y) by done.
    assert (get src (i + b) = x) as ->.
    { rewrite Hsrc. by apply get_middle. }
    specialize (IH (spre ++ [x]) (dpre ++ [x]) dold dpost (i + 1)).
    rewrite <- !(assoc_L (++)) in IH. simpl in IH.
    apply IH.
    + done.
    + lia.
    + rewrite length_app. simpl. lia.
    + rewrite length_app. simpl. lia.
Qed.

Lemma to_byte_idemp (z : Z) : to_byte (to_byte z) = to_byte z.
Proof. unfold to_byte. apply Z.mod_mod. lia. Qed.

Lemma to_byte_add_l (a b : Z) : to_byte (to_byte a + b) = to_byte (a + b).
Proof. unfold to_byte. apply Zplus_mod_idemp_l. Qed.

Lemma to_byte_lnot_congr (a b : Z) :
  to_byte a = to_byte b -> to_byte (Z.lnot a) = to_byte (Z.lnot b).
Proof.
  intros Hab. unfold Z.lnot, Z.pred.
  rewrite <- (to_byte_add_l (- a)), <- (to_byte_add_l (- b)).
  unfold to_byte in *.
  rewrite <- (Z.sub_0_l a), <- (Z.sub_0_l b).
  rewrite (Zminus_mod 0 a), (Zminus_mod 0 b), Hab. done.
Qed.

Lemma to_byte_range (z : Z) : is_byte (to_byte z).
Proof. unfold is_byte, to_byte. apply Z.mod_pos_bound. lia. Qed.

Lemma to_byte_small (z : Z) : is_byte z -> to_byte z = z.
Proof. unfold is_byte, to_byte. intros H. by apply Z.mod_small. Qed.

(** The summing loop [for (i...) checksum += src[i + b];] over a block [mid]. *)
Lemma sum_loop (b : Z) (src mid spost : list Z) :
  forall (spre : list Z) (i c : Z),
    src = spre ++ mid ++ spost ->
    i + b = Z.of_nat (length spre) ->
    to_byte (for_iter (length mid) i (fun i c => to_byte (c + get src (i + b))) c)
    = to_byte (c + sum_bytes mid).
Proof.
  induction mid as [|x mid IH]; intros spre i c Hsrc Hb.
  - simpl. by rewrite Z.add_0_r.
  - cbn [length for_iter].
    assert (get src (i + b) = x) as ->.
    { rewrite Hsrc. by apply get_middle. }
    rewrite (IH (spre ++ [x])).
    + rewrite to_byte_add_l. simpl. f_equal. lia.
    + by rewrite <- (assoc_L (++)).
    + rewrite length_app. simpl. lia.
Qed.

Lemma sum_iter_byte (g : Z -> Z) :
  forall (n : nat) (i c : Z),
    to_byte c = c ->
    to_byte (for_iter n i (fun i c => to_byte (c + g i)) c)
    = for_iter n i (fun i c => to_byte (c + g i)) c.
Proof.
  intros n. induction n as [|n IH]; intros i c Hc; simpl; [done|].
  apply IH, to_byte_idemp.
Qed.

Lemma sum_loop_byte (b : Z) (src mid spost spre : list Z) (i c : Z) :
  src = spre ++ mid ++ spost ->
  i + b = Z.of_nat (length spre) ->
  to_byte c = c ->
  for_iter (length mid) i (fun i c => to_byte (c + get src (i + b))) c
  = to_byte (c + sum_bytes mid).
Proof.
  intros Hsrc Hb Hc.
  rewrite <- (sum_loop b src mid spost spre i c Hsrc Hb).
  symmetry. by apply (sum_iter_byte (fun i => get src (i + b))).
Qed.

(** ** The frame encoder *)

Lemma array_succ (n : nat) : array (Z.of_nat (S n)) = 0 :: array (Z.of_nat n).
Proof. unfold array. by rewrite !Nat2Z.id. Qed.

Lemma array_nat (n : nat) : array (Z.of_nat n) = replicate n 0.
Proof. unfold array. by rewrite Nat2Z.id. Qed.

Lemma frame_length (id cmd : Z) (params : list Z) :
  length (frame id cmd params) = (6 + length params)%nat.
Proof. unfold frame. simpl. rewrite length_app. simpl. lia. Qed.

Ltac run_monad :=
  unfold mbind, mret, M_bind, M_ret, digitalWrite, delayMicroseconds, port_write,
    port_readBytes; cbn [rxbuf txlog bus dirPin_level].

Section Encoder.
Context {E : Type}.
Variable link : Link E.

(** [sendMessage] hands the transport exactly [frame], built from the first
    [paramLength] cells of [parameters]. *)
Lemma sendMessage_run (servoId commandID : Z) (params extra : list Z) (s : Driver E) :
  sendMessage link servoId commandID (Z.of_nat (length params)) (params ++ extra) s
  = transmit link (frame servoId commandID params) s.
Proof.
  unfold sendMessage. cbv zeta.
  set (n := length params).
  replace (6 + Z.of_nat n) with (Z.of_nat (6 + n)) by lia.
  assert (Hmsg :
    set (fst (for_loop 0 (Z.of_nat n)
      (fun i st => (set (fst st) (5 + i) (get (params ++ extra) i),
                    to_byte (snd st + get (params ++ extra) i)))
      (set (set (set (set (set (array (Z.of_nat (6 + n))) 0 255) 1 255) 2 servoId) 3
              (to_byte (Z.of_nat n + 2))) 4 commandID,
       to_byte (servoId + Z.of_nat n + 2 + commandID))))
      (5 + Z.of_nat n)
      (to_byte (Z.lnot (snd (for_loop 0 (Z.of_nat n)
      (fun i st => (set (fst st) (5 + i) (get (params ++ extra) i),
                    to_byte (snd st + get (params ++ extra) i)))
      (set (set (set (set (set (array (Z.of_nat (6 + n))) 0 255) 1 255) 2 servoId) 3
              (to_byte (Z.of_nat n + 2))) 4 commandID,
       to_byte (servoId + Z.of_nat n + 2 + commandID))))))
    = frame servoId commandID params).
  { unfold for_loop. rewrite Z.sub_0_r, Nat2Z.id.
    rewrite (for_iter_pair
               (fun i m => set m (5 + i) (get (params ++ extra) i))
               (fun i c => to_byte (c + get (params ++ extra) i))).
    cbn [fst snd].
    rewrite (for_iter_ext _ (fun i m => set m (i + 5) (get (params ++ extra) (i + 0))))
      by (intros j m; rewrite Z.add_0_r, (Z.add_comm 5 j); reflexivity).
    rewrite (for_iter_ext (fun i c => to_byte (c + get (params ++ extra) i))
               (fun i c => to_byte (c + get (params ++ extra) (i + 0))))
      by (intros j c; rewrite Z.add_0_r; reflexivity).
    rewrite array_nat. change (replicate (6 + n) 0) with
      (0 :: 0 :: 0 :: 0 :: 0 :: replicate (S n) 0).
    change (set (set (set (set (set (0 :: 0 :: 0 :: 0 :: 0 :: replicate (S n) 0) 0 255)
              1 255) 2 servoId) 3 (to_byte (Z.of_nat n + 2))) 4 commandID)
      with ([255; 255; servoId; to_byte (Z.of_nat n + 2); commandID]
              ++ replicate (S n) 0).
    replace (replicate (S n) 0) with (replicate n 0 ++ [0])
      by (by rewrite <- replicate_S_end).
    unfold n.
    rewrite (copy_loop 5 0 (params ++ extra) params extra []
               [255; 255; servoId; to_byte (Z.of_nat (length params) + 2); commandID]
               (replicate (length params) 0) [0] 0);
      [| done | by rewrite length_replicate | done | done].
    rewrite (sum_loop_byte 0 (params ++ extra) params extra [] 0);
      [| done | done | apply to_byte_idemp].
    rewrite to_byte_add_l.
    rewrite (assoc_L (++) _ params [0]).
    rewrite (set_middle _ [] 0); [| rewrite length_app; simpl; lia].
    unfold frame. by rewrite <- (assoc_L (++)). }
  rewrite Hmsg. clear Hmsg.
  rewrite firstn_all2 by (rewrite frame_length, Nat2Z.id; lia).
  run_monad. unfold transmit.
  by destruct (link (bus s) (frame servoId commandID params)) as [[r answer] e].
Qed.

End Encoder.

(** ** The frame decoder *)

Lemma get_0 (x : Z) (l : list Z) : get (x :: l) 0 = x.
Proof. reflexivity. Qed.

Lemma get_1 (x y : Z) (l : list Z) : get (x :: y :: l) 1 = y.
Proof. reflexivity. Qed.

Lemma get_take (l : list Z) (k : nat) (i : Z) :
  0 <= i < Z.of_nat k -> get (take k l) i = get l i.
Proof.
  intros Hi. unfold get. rewrite lookup_take_lt by lia. done.
Qed.

Section Decoder.
Context {E : Type}.

(** The driver after [receiveMessage]: the pin is low and [readLength + 5]
    bytes (or all there were) have left the receive buffer. *)
Lemma receiveMessage_state (servoId readLength : Z) (out : list Z) (s : Driver E) :
  snd (receiveMessage servoId readLength out s)
  = mkDriver LOW (drop (Z.to_nat (readLength + 5)) (rxbuf s)) (txlog s) (bus s).
Proof.
  unfold receiveMessage. run_monad.
  repeat match goal with |- context [if ?b then _ else _] => destruct b end; done.
Qed.

(** Fewer bytes than asked for: code -1. *)
Lemma receiveMessage_short (servoId readLength : Z) (out : list Z) (s : Driver E) :
  0 <= readLength ->
  Z.of_nat (length (rxbuf s)) < readLength + 5 ->
  fst (receiveMessage servoId readLength out s) = (-1, out).
Proof.
  intros Hn Hlen. unfold receiveMessage. run_monad.
  rewrite length_take.
  destruct (Z.eqb_spec (Z.of_nat (Z.to_nat (readLength + 5) `min` length (rxbuf s)))
              (readLength + 5)) as [Heq|Hne]; [lia | done].
Qed.

(** With all the bytes there, the header test decides between code -2 and
    the checksum test. *)
Lemma receiveMessage_full (servoId readLength : Z) (out : list Z) (s : Driver E) :
  0 <= readLength ->
  readLength + 5 <= Z.of_nat (length (rxbuf s)) ->
  fst (receiveMessage servoId readLength out s)
  = if negb (header_ok servoId readLength (rxbuf s)) then (-2, out)
    else
      let result := take (Z.to_nat (readLength + 5)) (rxbuf s) in
      let checksum :=
        to_byte (Z.lnot (for_loop 2 (readLength + 4)
                           (fun i c => to_byte (c + get result i)) 0)) in
      if negb (get result (readLength + 4) =? checksum) then (-3, out)
      else (0, for_loop 0 readLength (fun i o => set o i (get result (i + 4))) out).
Proof.
  intros Hn Hlen. unfold receiveMessage. run_monad.
  rewrite length_take.
  replace (Z.of_nat (Z.to_nat (readLength + 5) `min` length (rxbuf s)))
    with (readLength + 5) by lia.
  rewrite Z.eqb_refl, Z.sub_diag. cbn [negb].
  change (array 0) with (@nil Z). rewrite app_nil_r.
  unfold header_ok.
  rewrite !get_take by lia.
  rewrite !negb_andb.
  destruct (negb (get (rxbuf s) 0 =? 255) || negb (get (rxbuf s) 1 =? 255)
            || negb (get (rxbuf s) 2 =? servoId)
            || negb (get (rxbuf s) 3 =? readLength + 1)); [done|].
  cbv zeta.
  by destruct (negb _).
Qed.

(** A well-formed status packet for [servoId] carrying [data] is accepted
    and [data] lands at the start of the output buffer. *)
Lemma receiveMessage_ok (servoId : Z) (data rest oold otail : list Z) (s : Driver E) :
  rxbuf s = [0xFF; 0xFF; servoId; Z.of_nat (length data) + 1] ++ data
            ++ [to_byte (Z.lnot (to_byte (servoId + (Z.of_nat (length data) + 1)
                                           + sum_bytes data)))] ++ rest ->
  length oold = length data ->
  receiveMessage servoId (Z.of_nat (length data)) (oold ++ otail) s
  = ((0, data ++ otail), mkDriver LOW rest (txlog s) (bus s)).
Proof.
  intros Hrx Hout.
  rewrite (surjective_pairing (receiveMessage _ _ _ _)).
  rewrite receiveMessage_state.
  set (n := length data) in *.
  assert (Hlen : length (rxbuf s) = (n + 5 + length rest)%nat).
  { rewrite Hrx. simpl. rewrite length_app. simpl. unfold n. lia. }
  assert (Htake : take (Z.to_nat (Z.of_nat n + 5)) (rxbuf s)
                  = [255; 255; servoId; Z.of_nat n + 1] ++ data
                    ++ [to_byte (Z.lnot (to_byte (servoId + (Z.of_nat n + 1)
                                                  + sum_bytes data)))]).
  { rewrite Hrx.
    replace (Z.to_nat (Z.of_nat n + 5)) with (4 + (n + 1))%nat by lia.
    cbn [take app Nat.add]. do 4 f_equal.
    rewrite cons_middle, (assoc_L (++) data). rewrite take_app_length'; [done|].
    rewrite length_app. simpl. unfold n. lia. }
  assert (Hdrop : drop (Z.to_nat (Z.of_nat n + 5)) (rxbuf s) = rest).
  { rewrite Hrx.
    replace (Z.to_nat (Z.of_nat n + 5)) with (4 + (n + 1))%nat by lia.
    cbn [drop app Nat.add].
    rewrite cons_middle, (assoc_L (++) data). rewrite drop_app_length'; [done|].
    rewrite length_app. simpl. unfold n. lia. }
  rewrite Hdrop. f_equal.
  rewrite receiveMessage_full by lia.
  assert (Hhdr : header_ok servoId (Z.of_nat n) (rxbuf s) = true).
  { unfold header_ok. rewrite Hrx. unfold get. simpl.
    by rewrite !Z.eqb_refl. }
  rewrite Hhdr. cbn [negb]. cbv zeta. rewrite Htake.
  unfold for_loop.
  replace (Z.to_nat (Z.of_nat n + 4 - 2)) with (length (servoId :: Z.of_nat n + 1 :: data))
    by (simpl; unfold n; lia).
  rewrite (for_iter_ext _ (fun i c => to_byte (c + get ([255; 255; servoId; Z.of_nat n + 1]
              ++ data ++ [to_byte (Z.lnot (to_byte (servoId + (Z.of_nat n + 1)
                                                  + sum_bytes data)))]) (i + 0))))
    by (intros j c; rewrite Z.add_0_r; reflexivity).
  rewrite (sum_loop_byte 0 _ (servoId :: Z.of_nat n + 1 :: data)
             [to_byte (Z.lnot (to_byte (servoId + (Z.of_nat n + 1) + sum_bytes data)))]
             [255; 255] 2 0); [| done | done | done].
  assert (Hsum : 0 + sum_bytes (servoId :: Z.of_nat n + 1 :: data)
                 = servoId + (Z.of_nat n + 1) + sum_bytes data)
    by (simpl; lia).
  rewrite Hsum.
  rewrite (assoc_L (++) _ data).
  rewrite (get_middle _ []); [| rewrite length_app; simpl; unfold n; lia].
  rewrite Z.eqb_refl. cbn [negb]. f_equal.
  rewrite Z.sub_0_r, Nat2Z.id.
  rewrite <- (assoc_L (++) _ data).
  rewrite (for_iter_ext _ (fun i o => set o (i + 0)
             (get ([255; 255; servoId; Z.of_nat n + 1] ++ data
                   ++ [to_byte (Z.lnot (to_byte (servoId + (Z.of_nat n + 1)
                                                 + sum_bytes data)))]) (i + 4))))
    by (intros j o; rewrite Z.add_0_r; reflexivity).
  apply (copy_loop 0 4 _ data
           [to_byte (Z.lnot (to_byte (servoId + (Z.of_nat n + 1) + sum_bytes data)))]
           [255; 255; servoId; Z.of_nat n + 1] [] oold otail 0); done.
Qed.

End Decoder.

(** The bitwise NOT of a byte, as [~checksum] stored back into a [byte]. *)
Lemma bitwise_not_byte (c : Z) : is_byte c -> to_byte (Z.lnot c) = 255 - c.
Proof.
  unfold is_byte, to_byte, Z.lnot. intros Hc.
  replace (Z.pred (- c)) with ((255 - c) + (-1) * 256) by lia.
  rewrite Z.mod_add by lia. apply Z.mod_small. lia.
Qed.

Lemma frame_is_spec_frame (id cmd : Z) (params : list Z) :
  (length params <= 253)%nat -> frame id cmd params = spec_frame id cmd params.
Proof.
  intros Hlen. unfold frame, spec_frame. cbv zeta.
  rewrite (to_byte_small (Z.of_nat (length params) + 2)) by (unfold is_byte; lia).
  replace (id + Z.of_nat (length params) + 2 + cmd + sum_bytes params)
    with (id + (Z.of_nat (length params) + 2) + cmd + sum_bytes params) by lia.
  reflexivity.
Qed.

(** ** Ping *)

Section Ping.
Context {E : Type}.
Variable link : Link E.

Lemma ping_run (servoId : Z) (s : Driver E) :
  ping link servoId s
  = let '(send, s1) := transmit link (frame servoId instruction.PING []) s in
    if negb (send =? 6) then (false, s1)
    else let '(rd, response, s2) := receiveMessage servoId 1 [0xFF] s1 in
         if rd <? 0 then (false, s2) else (get response 0 =? 0, s2).
Proof.
  unfold ping. cbv zeta. unfold mbind at 1. unfold M_bind at 1.
  pose proof (sendMessage_run link servoId instruction.PING [] [0xFF] s) as Hsend.
  change (Z.of_nat (length (@nil Z))) with 0 in Hsend.
  change ([] ++ [255]) with [255] in Hsend.
  rewrite Hsend. clear Hsend.
  destruct (transmit link (frame servoId instruction.PING []) s) as [send s1].
  destruct (negb (send =? 6)); [done|].
  unfold mbind, M_bind.
  destruct (receiveMessage servoId 1 [255] s1) as [[rd response] s2].
  by destruct (rd <? 0).
Qed.

(** A ping puts exactly one frame on the wire, whatever the outcome. *)
Lemma ping_txlog (servoId : Z) (s : Driver E) :
  txlog (snd (ping link servoId s))
  = txlog s ++ [frame servoId instruction.PING []].
Proof.
  rewrite ping_run. unfold transmit.
  destruct (link (bus s) (frame servoId instruction.PING [])) as [[send answer] e].
  destruct (negb (send =? 6)); [done|].
  match goal with |- context [receiveMessage ?i ?n ?o ?s1] =>
    pose proof (receiveMessage_state i n o s1) as Hst;
    destruct (receiveMessage i n o s1) as [[rd response] s2] end.
  simpl in Hst. subst s2.
  by destruct (rd <? 0).
Qed.

(** A servo answers a ping with a status packet of one byte: the ping
    succeeds exactly when that byte is 0x00. *)
Lemma ping_answered (servoId status : Z) (e : E) (s : Driver E) :
  rxbuf s = [] ->
  link (bus s) (frame servoId instruction.PING [])
  = (6, [0xFF; 0xFF; servoId; 2; status;
         to_byte (Z.lnot (to_byte (servoId + 2 + status)))], e) ->
  ping link servoId s
  = (status =? 0, mkDriver LOW [] (txlog s ++ [frame servoId instruction.PING []]) e).
Proof.
  intros Hrx Hlink. rewrite ping_run. unfold transmit. rewrite Hlink, Hrx.
  cbn [Z.eqb Pos.eqb negb app].
  match goal with |- context [receiveMessage _ _ _ ?s0] => set (s1 := s0) end.
  pose proof (receiveMessage_ok servoId [status] [] [255] [] s1) as Hok.
  cbn [length app] in Hok. change (Z.of_nat 1) with 1 in Hok.
  change (1 + 1) with 2 in Hok. change (sum_bytes [status]) with (status + 0) in Hok.
  rewrite Z.add_0_r in Hok. rewrite Hok by done. reflexivity.
Qed.

(** No answer: the ping fails on the short read. *)
Lemma ping_unanswered (servoId : Z) (e : E) (s : Driver E) :
  rxbuf s = [] ->
  link (bus s) (frame servoId instruction.PING []) = (6, [], e) ->
  ping link servoId s
  = (false, mkDriver LOW [] (txlog s ++ [frame servoId instruction.PING []]) e).
Proof.
  intros Hrx Hlink. rewrite ping_run. unfold transmit. rewrite Hlink, Hrx.
  cbn [Z.eqb Pos.eqb negb app].
  match goal with |- context [receiveMessage ?i ?n ?o ?s1] =>
    pose proof (receiveMessage_state i n o s1) as Hst;
    pose proof (receiveMessage_short i n o s1) as Hshort;
    destruct (receiveMessage i n o s1) as [[rd response] s2] end.
  cbn [snd fst rxbuf txlog bus length] in Hst, Hshort.
  rewrite Hst. injection (Hshort ltac:(lia) ltac:(lia)) as -> _. done.
Qed.

End Ping.

(** ** Register writes *)

Section Writes.
Context {E : Type}.
Variable link : Link E.

(** [writeRegisters] with at most 254 bytes: one [frame] goes out, carrying
    the start register and then the bytes, and the result compares the
    transport's count with [writeLength + 7]. *)
Lemma writeRegisters_run (servoId startRegister : Z) (bytes extra : list Z)
    (asynchronous : bool) (s : Driver E) :
  (length bytes <= 254)%nat ->
  writeRegisters link servoId startRegister (Z.of_nat (length bytes)) (bytes ++ extra)
    asynchronous s
  = let '(rc, s1) :=
      transmit link
        (frame servoId (if asynchronous then instruction.REGWRITE else instruction.WRITE)
           (startRegister :: bytes)) s in
    (rc =? Z.of_nat (length bytes) + 7, s1).
Proof.
  intros Hlen. unfold writeRegisters. cbv zeta.
  set (n := length bytes) in *.
  replace (Z.of_nat n + 1) with (Z.of_nat (S n)) by lia.
  rewrite array_succ, array_nat.
  change (set (0 :: replicate n 0) 0 startRegister)
    with ([startRegister] ++ replicate n 0).
  rewrite <- (app_nil_r (replicate n 0)).
  unfold for_loop. rewrite Z.sub_0_r, Nat2Z.id.
  rewrite (for_iter_ext _ (fun i param => set param (i + 1)
                                            (get (bytes ++ extra) (i + 0))))
    by (intros j m; rewrite Z.add_0_r; reflexivity).
  unfold n.
  rewrite (copy_loop 1 0 (bytes ++ extra) bytes extra [] [startRegister]
             (replicate (length bytes) 0) [] 0);
    [| done | by rewrite length_replicate | done | done].
  rewrite to_byte_small by (unfold is_byte; lia).
  rewrite app_nil_r. change ([startRegister] ++ bytes) with (startRegister :: bytes).
  unfold mbind, M_bind, mret, M_ret.
  pose proof (sendMessage_run link servoId
                (if asynchronous then instruction.REGWRITE else instruction.WRITE)
                (startRegister :: bytes) [] s) as Hsend.
  rewrite app_nil_r in Hsend. cbn [length] in Hsend.
  rewrite Hsend.
  by destruct (transmit link _ s) as [rc s1].
Qed.

End Writes.

(** ** The broadcast synchronised write *)

Lemma land_255 (v : Z) : Z.land v 0xFF = low_byte v.
Proof. change 0xFF with (Z.ones 8). rewrite Z.land_ones by lia. done. Qed.

Lemma shiftr_8_land_255 (v : Z) : Z.land (Z.shiftr v 8) 0xFF = high_byte v.
Proof.
  change 0xFF with (Z.ones 8). rewrite Z.land_ones by lia.
  rewrite Z.shiftr_div_pow2 by lia. done.
Qed.

Lemma low_byte_range (v : Z) : is_byte (low_byte v).
Proof. apply to_byte_range. Qed.

Lemma high_byte_range (v : Z) : is_byte (high_byte v).
Proof. apply to_byte_range. Qed.

Lemma convertIntToBytes_2 (v a b : Z) :
  convertIntToBytes v [a; b] = [low_byte v; high_byte v].
Proof.
  unfold convertIntToBytes. cbv zeta.
  rewrite land_255, shiftr_8_land_255.
  rewrite (to_byte_small _ (low_byte_range v)), (to_byte_small _ (high_byte_range v)).
  reflexivity.
Qed.

Lemma sum_bytes_app (l1 l2 : list Z) : sum_bytes (l1 ++ l2) = sum_bytes l1 + sum_bytes l2.
Proof.
  induction l1 as [|x l1 IH]; simpl; [done|].
  fold (sum_bytes (l1 ++ l2)). fold (sum_bytes l1). rewrite IH. lia.
Qed.

Section SyncWrite.
Context {E : Type}.
Variable link : Link E.
Variable R : STSRegisters.

Lemma bind_run {A B : Type} (m : M E A) (k : A -> M E B) (s : Driver E) :
  (m ≫= k) s = k (fst (m s)) (snd (m s)).
Proof. unfold mbind, M_bind. by destruct (m s). Qed.

Lemma wire_port_write (buf : list Z) (s : Driver E) :
  wire (snd (port_write link buf s)) = wire s ++ buf.
Proof.
  unfold port_write, wire.
  destruct (link (bus s) buf) as [[n answer] e]. cbn [snd txlog].
  rewrite concat_app. simpl. by rewrite app_nil_r.
Qed.

Lemma sync_body_run (servoIds positions speeds : list Z) (index checksum : Z)
    (s : Driver E) :
  let id := get servoIds index in
  let pos := get positions index in
  let spd := get speeds index in
  fst (sync_body link servoIds positions speeds index checksum s)
  = to_byte (checksum + sum_bytes [id; low_byte pos; high_byte pos; 0; 0;
                                   low_byte spd; high_byte spd])
  /\ wire (snd (sync_body link servoIds positions speeds index checksum s))
     = wire s ++ [id; low_byte pos; high_byte pos; 0; 0; low_byte spd; high_byte spd].
Proof.
  cbv zeta. unfold sync_body. cbv zeta.
  change (array 2) with [0; 0].
  rewrite !convertIntToBytes_2.
  unfold sendAndUpdateChecksum.
  rewrite !bind_run. unfold mret, M_ret. cbn [fst snd].
  change (take 2 [low_byte (get positions index); high_byte (get positions index)])
    with [low_byte (get positions index); high_byte (get positions index)].
  change (take 2 [low_byte (get speeds index); high_byte (get speeds index)])
    with [low_byte (get speeds index); high_byte (get speeds index)].
  split.
  - rewrite !get_0, !get_1, to_byte_add_l, <- Z.add_assoc, to_byte_add_l. f_equal.
    unfold sum_bytes. cbn [foldr]. lia.
  - rewrite !wire_port_write. rewrite <- !(assoc_L (++)). reflexivity.
Qed.

End SyncWrite.

Section SyncWriteFrame.
Context {E : Type}.
Variable link : Link E.
Variable R : STSRegisters.

Lemma sync_loop (irest : list Z) :
  forall (prest vrest idone pdone vdone : list Z) (c : Z) (s : Driver E),
    length prest = length irest ->
    length vrest = length irest ->
    length pdone = length idone ->
    length vdone = length idone ->
    let run := for_iterM (length irest) (Z.of_nat (length idone))
                 (sync_body link (idone ++ irest) (pdone ++ prest) (vdone ++ vrest))
                 c s in
    to_byte (fst run) = to_byte (c + sum_bytes (blocks irest prest vrest))
    /\ (irest <> [] -> to_byte (fst run) = fst run)
    /\ wire (snd run) = wire s ++ blocks irest prest vrest.
Proof.
  induction irest as [|i irest IH];
    intros prest vrest idone pdone vdone c s Hp Hv Hpd Hvd.
  - cbv zeta. cbn [length for_iterM blocks]. unfold mret, M_ret. cbn [fst snd].
    unfold sum_bytes. cbn [foldr]. rewrite Z.add_0_r, app_nil_r. done.
  - destruct prest as [|p prest]; [discriminate|].
    destruct vrest as [|v vrest]; [discriminate|].
    cbv zeta. cbn [length for_iterM]. rewrite bind_run.
    pose proof (sync_body_run link (idone ++ i :: irest) (pdone ++ p :: prest)
                  (vdone ++ v :: vrest) (Z.of_nat (length idone)) c s) as Hbody.
    cbv zeta in Hbody.
    rewrite (get_middle idone irest i) in Hbody by done.
    rewrite (get_middle pdone prest p) in Hbody by lia.
    rewrite (get_middle vdone vrest v) in Hbody by lia.
    destruct Hbody as [Hc Hw].
    specialize (IH prest vrest (idone ++ [i]) (pdone ++ [p]) (vdone ++ [v])
                  (fst (sync_body link (idone ++ i :: irest) (pdone ++ p :: prest)
                          (vdone ++ v :: vrest) (Z.of_nat (length idone)) c s))
                  (snd (sync_body link (idone ++ i :: irest) (pdone ++ p :: prest)
                          (vdone ++ v :: vrest) (Z.of_nat (length idone)) c s))).
    rewrite <- !(assoc_L (++)) in IH. cbn [app] in IH.
    replace (Z.of_nat (length (idone ++ [i]))) with (Z.of_nat (length idone) + 1) in IH
      by (rewrite length_app; simpl; lia).
    cbv zeta in IH.
    destruct IH as (IHc & IHb & IHw).
    { simpl in Hp. lia. }
    { simpl in Hv. lia. }
    { rewrite !length_app. simpl. lia. }
    { rewrite !length_app. simpl. lia. }
    split; [| split].
    + rewrite IHc, Hc, to_byte_add_l. f_equal.
      cbn [blocks]. rewrite sum_bytes_app. lia.
    + intros _. destruct irest as [|i' irest].
      * cbn [length for_iterM]. unfold mret, M_ret. cbn [fst].
        rewrite Hc. apply to_byte_idemp.
      * apply IHb. discriminate.
    + rewrite IHw, Hw. cbn [blocks]. by rewrite <- !(assoc_L (++)).
Qed.

Lemma setTargetPositions_wire (ids positions speeds : list Z) (s : Driver E) :
  length positions = length ids ->
  length speeds = length ids ->
  wire (snd (setTargetPositions link R (Z.of_nat (length ids)) ids positions speeds s))
  = wire s
    ++ [0xFF; 0xFF; 0xFE; to_byte (Z.of_nat (length ids) * 7 + 4); 0x83;
        TARGET_POSITION R; 6]
    ++ blocks ids positions speeds
    ++ [to_byte (Z.lnot (to_byte (sum_bytes
          ([0xFE; Z.of_nat (length ids) * 7 + 4; 0x83; TARGET_POSITION R; 6]
           ++ blocks ids positions speeds))))].
Proof.
  intros Hp Hv. unfold setTargetPositions. cbv zeta.
  change (fun index checksum : Z => _)
    with (sync_body link ids positions speeds).
  rewrite !bind_run. unfold mret at 1, M_ret at 1. cbn [snd].
  rewrite wire_port_write.
  unfold for_loopM. rewrite Z.sub_0_r, Nat2Z.id.
  match goal with |- context [for_iterM _ 0 _ ?c ?s0] =>
    pose proof (sync_loop ids positions speeds [] [] [] c s0 Hp Hv eq_refl eq_refl)
      as (Hc & Hb & Hw) end.
  cbn [app length] in Hc, Hb, Hw. change (Z.of_nat 0) with 0 in Hc, Hb, Hw.
  rewrite Hw. rewrite !wire_port_write.
  rewrite <- !(assoc_L (++)). cbn [app]. do 10 f_equal.
  apply to_byte_lnot_congr. rewrite Hc, to_byte_add_l, to_byte_idemp. f_equal.
  unfold instruction.SYNCWRITE, sum_bytes. cbn [foldr]. lia.
Qed.

End SyncWriteFrame.

(** ** The transmit log *)

Lemma sent_since_refl {E : Type} (s : Driver E) : sent_since s s = [].
Proof. unfold sent_since. by rewrite drop_all. Qed.

Lemma sent_since_app {E : Type} (s s' : Driver E) (l : list (list Z)) :
  txlog s' = txlog s ++ l -> sent_since s s' = l.
Proof. unfold sent_since. intros ->. by rewrite drop_app_length. Qed.

(** ** Discovery *)

Section Discovery.
Context {E : Type}.
Variable link : Link E.

Lemma sweep_txlog (k : nat) (s : Driver E) :
  txlog (sweep link k s) = txlog s ++ ping_frames k.
Proof.
  unfold ping_frames. induction k as [|k IH].
  - simpl. by rewrite app_nil_r.
  - cbn [sweep]. rewrite ping_txlog, IH, seq_S, map_app, <- (assoc_L (++)). done.
Qed.

(** The sweep from candidate [i] with [n] candidates left. *)
Lemma init_loop_run (n : nat) :
  forall (i : nat) (s : Driver E),
    (exists k, (i <= k < i + n)%nat
       /\ (forall j, (i <= j < k)%nat ->
                     fst (ping link (Z.of_nat j) (sweep link j s)) = false)
       /\ fst (ping link (Z.of_nat k) (sweep link k s)) = true
       /\ init_loop link n (Z.of_nat i) (sweep link i s) = (true, sweep link (S k) s))
    \/ ((forall j, (i <= j < i + n)%nat ->
                   fst (ping link (Z.of_nat j) (sweep link j s)) = false)
        /\ init_loop link n (Z.of_nat i) (sweep link i s) = (false, sweep link (i + n) s)).
Proof.
  induction n as [|n IH]; intros i s.
  - right. split; [intros j Hj; lia|]. simpl. by rewrite Nat.add_0_r.
  - cbn [init_loop]. rewrite bind_run.
    destruct (fst (ping link (Z.of_nat i) (sweep link i s))) eqn:Hi.
    + left. exists i. split; [lia|]. split; [intros j Hj; lia|]. done.
    + change (snd (ping link (Z.of_nat i) (sweep link i s))) with (sweep link (S i) s).
      replace (Z.of_nat i + 1) with (Z.of_nat (S i)) by lia.
      destruct (IH (S i) s) as [(k & Hk & Hbefore & Hat & Hrun)|[Hall Hrun]].
      * left. exists k. split; [lia|]. split; [|done].
        intros j Hj. destruct (decide (j = i)) as [->|Hne]; [done|].
        apply Hbefore. lia.
      * right. split.
        -- intros j Hj. destruct (decide (j = i)) as [->|Hne]; [done|].
           apply Hall. lia.
        -- rewrite Hrun. do 2 f_equal. lia.
Qed.

End Discovery.

(** ** Register reads *)

Section Reads.
Context {E : Type}.
Variable link : Link E.

Lemma flush_loop_keeps (fuel : nat) :
  forall s : Driver E,
    txlog (snd (flush_loop fuel s)) = txlog s
    /\ bus (snd (flush_loop fuel s)) = bus s
    /\ dirPin_level (snd (flush_loop fuel s)) = dirPin_level s.
Proof.
  induction fuel as [|fuel IH]; intros s; [done|].
  cbn [flush_loop]. rewrite bind_run. unfold port_read.
  destruct (rxbuf s) as [|b rest] eqn:Hrx; cbn [fst snd].
  - done.
  - destruct (b =? -1); [done|].
    destruct (IH (mkDriver (dirPin_level s) rest (txlog s) (bus s))) as (H1 & H2 & H3).
    by rewrite H1, H2, H3.
Qed.

(** Flushing empties a receive buffer that holds bytes. *)
Lemma flush_loop_empties (rx : list Z) :
  forall (fuel : nat) (s : Driver E),
    rxbuf s = rx ->
    Forall is_byte rx ->
    (length rx < fuel)%nat ->
    rxbuf (snd (flush_loop fuel s)) = [].
Proof.
  induction rx as [|b rx IH]; intros fuel s Hrx Hbytes Hfuel.
  - destruct fuel as [|fuel]; [simpl in Hfuel; lia|].
    cbn [flush_loop]. rewrite bind_run. unfold port_read. by rewrite Hrx.
  - destruct fuel as [|fuel]; [simpl in Hfuel; lia|].
    cbn [flush_loop]. rewrite bind_run. unfold port_read. rewrite Hrx. cbn [fst snd].
    inversion Hbytes as [|? ? Hb Hrest]; subst.
    destruct (Z.eqb_spec b (-1)) as [->|_]; [unfold is_byte in Hb; lia|].
    apply IH; [done | done | simpl in Hfuel; lia].
Qed.

Lemma flush_empties (s : Driver E) :
  Forall is_byte (rxbuf s) -> rxbuf (snd (flush s)) = [].
Proof. intros Hb. unfold flush. by apply (flush_loop_empties (rxbuf s)); [| |lia]. Qed.

Lemma readRegisters_run (servoId startRegister readLength : Z) (out : list Z)
    (s : Driver E) :
  readRegisters link servoId startRegister readLength out s
  = let '(send, s1) := transmit link (frame servoId instruction.READ
                                        [startRegister; readLength]) (snd (flush s)) in
    if negb (send =? 8) then ((-1, out), s1)
    else let '(rd, result, s2) :=
           receiveMessage servoId (to_byte (readLength + 1)) (array (readLength + 1)) s1 in
         if rd <? 0 then ((rd, out), s2)
         else ((0, for_loop 0 readLength (fun i o => set o i (get result (i + 1))) out),
               s2).
Proof.
  unfold readRegisters. cbv zeta. rewrite bind_run, bind_run.
  pose proof (sendMessage_run link servoId instruction.READ [startRegister; readLength]
                [] (snd (flush s))) as Hsend.
  change (Z.of_nat (length [startRegister; readLength])) with 2 in Hsend.
  change ([startRegister; readLength] ++ []) with [startRegister; readLength] in Hsend.
  rewrite Hsend. clear Hsend.
  destruct (transmit link _ (snd (flush s))) as [send s1]. cbn [fst snd].
  destruct (negb (send =? 8)); [done|].
  rewrite bind_run.
  destruct (receiveMessage servoId (to_byte (readLength + 1)) (array (readLength + 1)) s1)
    as [[rd result] s2]. cbn [fst snd].
  by destruct (rd <? 0).
Qed.

(** A register read puts exactly one READ frame on the wire. *)
Lemma readRegisters_txlog (servoId startRegister readLength : Z) (out : list Z)
    (s : Driver E) :
  txlog (snd (readRegisters link servoId startRegister readLength out s))
  = txlog s ++ [frame servoId instruction.READ [startRegister; readLength]].
Proof.
  rewrite readRegisters_run. unfold transmit.
  destruct (flush_loop_keeps (S (length (rxbuf s))) s) as (Htx & _ & _).
  fold (flush s) in Htx.
  destruct (link (bus (snd (flush s))) _) as [[send answer] e].
  destruct (negb (send =? 8)); [cbn [snd txlog]; by rewrite Htx|].
  match goal with |- context [receiveMessage ?i ?n ?o ?s1] =>
    pose proof (receiveMessage_state i n o s1) as Hst;
    destruct (receiveMessage i n o s1) as [[rd result] s2] end.
  simpl in Hst. subst s2.
  destruct (rd <? 0); cbn [snd txlog]; by rewrite Htx.
Qed.

(** The status code of a register read is 0, -1, -2 or -3. *)
Lemma receiveMessage_codes (servoId readLength : Z) (out : list Z) (s : Driver E) :
  fst (fst (receiveMessage servoId readLength out s)) ∈ [0; -1; -2; -3].
Proof.
  unfold receiveMessage. run_monad.
  repeat match goal with |- context [if ?b then _ else _] => destruct b end;
    cbn [fst]; rewrite !elem_of_cons; auto.
Qed.

Lemma readRegisters_codes (servoId startRegister readLength : Z) (out : list Z)
    (s : Driver E) :
  fst (fst (readRegisters link servoId startRegister readLength out s))
  ∈ [0; -1; -2; -3].
Proof.
  rewrite readRegisters_run.
  destruct (transmit link _ (snd (flush s))) as [send s1].
  destruct (negb (send =? 8)); [cbn [fst]; rewrite !elem_of_cons; auto|].
  pose proof (receiveMessage_codes servoId (to_byte (readLength + 1))
                (array (readLength + 1)) s1) as Hrd.
  destruct (receiveMessage servoId (to_byte (readLength + 1)) (array (readLength + 1)) s1)
    as [[rd result] s2]. cbn [fst] in Hrd.
  destruct (rd <? 0); cbn [fst]; [done | rewrite !elem_of_cons; auto].
Qed.

(** Each cause of failure gives a negative status code: the transport
    reporting another count than 8, and any failure of [receiveMessage]
    (short read -1, header, ID or length mismatch -2, checksum mismatch -3). *)
Lemma readRegisters_failure_causes (servoId startRegister readLength : Z)
    (out : list Z) (s : Driver E) :
  let sent := transmit link (frame servoId instruction.READ [startRegister; readLength])
                (snd (flush s)) in
  (fst sent <> 8 ->
   fst (readRegisters link servoId startRegister readLength out s) = (-1, out))
  /\ (fst sent = 8 ->
      forall rd, rd < 0 ->
        fst (fst (receiveMessage servoId (to_byte (readLength + 1))
                    (array (readLength + 1)) (snd sent))) = rd ->
        fst (readRegisters link servoId startRegister readLength out s) = (rd, out)).
Proof.
  cbv zeta. rewrite readRegisters_run.
  destruct (transmit link _ (snd (flush s))) as [send s1]. cbn [fst snd].
  split.
  - intros Hne. destruct (Z.eqb_spec send 8) as [Heq|_]; [done|]. done.
  - intros -> rd Hneg Hrd. cbn [Z.eqb Pos.eqb negb].
    destruct (receiveMessage servoId (to_byte (readLength + 1)) (array (readLength + 1)) s1)
      as [[rd' result] s2]. cbn [fst] in Hrd. subst rd'.
    destruct (Z.ltb_spec rd 0) as [_|Hge]; [done | lia].
Qed.

End Reads.

Section TypedReads.
Context {E : Type}.
Variable link : Link E.

Lemma readRegister_run (servoId registerId : Z) (s : Driver E) :
  readRegister link servoId registerId s
  = let '(rc, result, s1) := readRegisters link servoId registerId 1 [0] s in
    (if rc <? 0 then 0 else get result 0, s1).
Proof.
  unfold readRegister. cbv zeta. rewrite bind_run.
  destruct (readRegisters link servoId registerId 1 [0] s) as [[rc result] s1].
  cbn [fst snd]. by destruct (rc <? 0).
Qed.

Lemma readTwoBytesRegister_run (servoId registerId : Z) (s : Driver E) :
  readTwoBytesRegister link servoId registerId s
  = let '(rc, result, s1) := readRegisters link servoId registerId 2 [0; 0] s in
    (if rc <? 0 then 0 else to_int16 (get result 0 + Z.shiftl (get result 1) 8), s1).
Proof.
  unfold readTwoBytesRegister. cbv zeta. rewrite bind_run.
  destruct (readRegisters link servoId registerId 2 [0; 0] s) as [[rc result] s1].
  cbn [fst snd]. by destruct (rc <? 0).
Qed.

Lemma readRegister_failure (servoId registerId : Z) (s : Driver E) :
  fst (fst (readRegisters link servoId registerId 1 [0] s)) < 0 ->
  fst (readRegister link servoId registerId s) = 0.
Proof.
  rewrite readRegister_run.
  destruct (readRegisters link servoId registerId 1 [0] s) as [[rc result] s1].
  cbn [fst]. intros Hrc. by destruct (Z.ltb_spec rc 0); [|lia].
Qed.

Lemma readTwoBytesRegister_failure (servoId registerId : Z) (s : Driver E) :
  fst (fst (readRegisters link servoId registerId 2 [0; 0] s)) < 0 ->
  fst (readTwoBytesRegister link servoId registerId s) = 0.
Proof.
  rewrite readTwoBytesRegister_run.
  destruct (readRegisters link servoId registerId 2 [0; 0] s) as [[rc result] s1].
  cbn [fst]. intros Hrc. by destruct (Z.ltb_spec rc 0); [|lia].
Qed.

End TypedReads.

(** ** The sign-bit encoding of velocities *)

Lemma to_int16_small (z : Z) : -32768 <= z < 32768 -> to_int16 z = z.
Proof. unfold to_int16. intros H. rewrite Z.mod_small by lia. lia. Qed.

Lemma to_int16_mod (z : Z) : to_int16 (z `mod` 65536) = to_int16 z.
Proof. unfold to_int16. by rewrite Zplus_mod_idemp_l. Qed.

Lemma land_bit (x n : Z) :
  0 <= n -> Z.land x (2 ^ n) = if Z.testbit x n then 2 ^ n else 0.
Proof.
  intros Hn. apply Z.bits_inj'. intros m Hm.
  rewrite Z.land_spec, Z.pow2_bits_eqb by done.
  destruct (Z.eqb_spec n m) as [->|Hne].
  - destruct (Z.testbit x m); [by rewrite Z.pow2_bits_eqb, Z.eqb_refl|].
    by rewrite Z.bits_0.
  - rewrite andb_false_r.
    destruct (Z.testbit x n); [|by rewrite Z.bits_0].
    rewrite Z.pow2_bits_eqb by done. symmetry. by apply Z.eqb_neq.
Qed.

Lemma testbit_15 (x : Z) : Z.testbit x 15 = Z.odd (x `div` 32768).
Proof. rewrite Z.testbit_odd, Z.shiftr_div_pow2 by lia. done. Qed.

(** Clearing bit 15 and truncating to 16 bits keeps the low 15 bits. *)
Lemma clear_bit_15 (x : Z) : to_int16 (Z.land x (Z.lnot 0x8000)) = x `mod` 32768.
Proof.
  rewrite <- to_int16_mod.
  change 65536 with (2 ^ 16). rewrite <- Z.land_ones by lia.
  rewrite <- Z.land_assoc.
  change (Z.land (Z.lnot 32768) (Z.ones 16)) with (Z.ones 15).
  rewrite Z.land_ones by lia. change (2 ^ 15) with 32768.
  apply to_int16_small. pose proof (Z.mod_pos_bound x 32768). lia.
Qed.

(** The two bytes written for an [int16_t] put back together. *)
Lemma bytes_recombine (z : Z) :
  to_int16 (low_byte z + Z.shiftl (high_byte z) 8) = to_int16 z.
Proof.
  rewrite Z.shiftl_mul_pow2 by lia. unfold low_byte, high_byte.
  rewrite <- (to_int16_mod z). f_equal.
  change 65536 with (256 * 256). rewrite Z.rem_mul_r by lia. change (2 ^ 8) with 256. lia.
Qed.

Lemma sign_bit_round_trip (v : Z) :
  -32767 <= v <= 32767 -> sign_bit_decode (to_int16 (sign_bit_encode v)) = v.
Proof.
  intros Hv. unfold sign_bit_encode, sign_bit_decode. cbv zeta.
  rewrite clear_bit_15.
  change 32768 with (2 ^ 15) at 2 4. rewrite !land_bit by lia. rewrite !testbit_15.
  destruct (Z.ltb_spec v 0) as [Hneg|Hpos].
  - assert (Hlor : Z.lor (Z.abs v) (2 ^ 15) = Z.abs v + 2 ^ 15).
    { assert (Hland : Z.land (Z.abs v) (2 ^ 15) = 0).
      { rewrite land_bit, testbit_15 by lia.
        assert (Habs : 0 <= Z.abs v < 32768) by lia.
        by rewrite (Z.div_small _ _ Habs). }
      by rewrite <- (Z.lxor_lor _ _ Hland), <- (Z.add_nocarry_lxor _ _ Hland). }
    change 32768 with (2 ^ 15) at 1 3. rewrite Hlor.
    replace (to_int16 (Z.abs v + 2 ^ 15)) with (- v + (-1) * 32768).
    2:{ unfold to_int16. replace (Z.abs v + 2 ^ 15 + 32768) with (- v + 1 * 65536) by lia.
        rewrite Z.mod_add by lia. rewrite Z.mod_small by lia. lia. }
    rewrite Z.div_add, Z.mod_add by lia. rewrite Z.div_small, Z.mod_small by lia.
    change (negb ((if Z.odd (0 + -1) then 2 ^ 15 else 0) =? 0)) with true. cbv iota.
    rewrite to_int16_small by lia. lia.
  - rewrite Z.abs_eq by lia. rewrite (to_int16_small v) by lia.
    rewrite Z.div_small by lia.
    change (negb ((if Z.odd 0 then 2 ^ 15 else 0) =? 0)) with false. cbv iota.
    apply Z.mod_small. lia.
Qed.

Lemma speed_servo_write (R : STSRegisters) (id lo hi : Z) (mem : Z * Z) :
  speed_servo R id mem (frame id instruction.WRITE [RUNNING_SPEED R; lo; hi])
  = (9, [], (lo, hi)).
Proof.
  unfold speed_servo. cbv zeta.
  change (frame id instruction.WRITE [RUNNING_SPEED R; lo; hi])
    with (255 :: 255 :: id :: to_byte (Z.of_nat 3 + 2) :: instruction.WRITE
          :: RUNNING_SPEED R :: lo :: hi
          :: [to_byte (Z.lnot (to_byte (id + Z.of_nat 3 + 2 + instruction.WRITE
                                        + sum_bytes [RUNNING_SPEED R; lo; hi])))]) at 1.
  cbv iota beta.
  rewrite bool_decide_eq_true_2 by reflexivity.
  rewrite Z.eqb_refl. reflexivity.
Qed.

Lemma speed_servo_read (R : STSRegisters) (id : Z) (mem : Z * Z) :
  speed_servo R id mem (frame id instruction.READ [CURRENT_SPEED R; 2])
  = (8, status_packet id [fst mem; snd mem], mem).
Proof.
  unfold speed_servo. cbv zeta.
  change (frame id instruction.READ [CURRENT_SPEED R; 2])
    with (255 :: 255 :: id :: to_byte (Z.of_nat 2 + 2) :: instruction.READ
          :: CURRENT_SPEED R :: 2
          :: [to_byte (Z.lnot (to_byte (id + Z.of_nat 2 + 2 + instruction.READ
                                        + sum_bytes [CURRENT_SPEED R; 2])))]) at 1.
  cbv iota beta.
  rewrite bool_decide_eq_true_2 by reflexivity.
  rewrite Z.eqb_refl. reflexivity.
Qed.

Lemma status_packet_rx (id : Z) (data : list Z) :
  status_packet id data
  = [0xFF; 0xFF; id; Z.of_nat (length (0 :: data)) + 1] ++ (0 :: data)
    ++ [to_byte (Z.lnot (to_byte (id + (Z.of_nat (length (0 :: data)) + 1)
                                  + sum_bytes (0 :: data))))] ++ [].
Proof.
  unfold status_packet. cbn [length app].
  change (sum_bytes (0 :: data)) with (0 + sum_bytes data).
  replace (Z.of_nat (S (length data)) + 1) with (Z.of_nat (length data) + 2) by lia.
  replace (id + (Z.of_nat (length data) + 2) + (0 + sum_bytes data))
    with (id + (Z.of_nat (length data) + 2) + 0 + sum_bytes data) by lia.
  reflexivity.
Qed.

Section Velocity.
Context {E : Type}.
Variable link : Link E.
Variable R : STSRegisters.

Lemma setTargetVelocity_run (servoId velocity : Z) (asynchronous : bool) (s : Driver E) :
  setTargetVelocity link R servoId velocity asynchronous s
  = let value := to_int16 (sign_bit_encode velocity) in
    let '(rc, s1) :=
      transmit link
        (frame servoId (if asynchronous then instruction.REGWRITE else instruction.WRITE)
           [RUNNING_SPEED R; low_byte value; high_byte value]) s in
    (rc =? 9, s1).
Proof.
  unfold setTargetVelocity, writeTwoBytesRegister. cbv zeta.
  fold (sign_bit_encode velocity).
  rewrite shiftr_8_land_255, land_255.
  rewrite (to_byte_small _ (low_byte_range _)), (to_byte_small _ (high_byte_range _)).
  pose proof (writeRegisters_run link servoId (RUNNING_SPEED R)
                [low_byte (to_int16 (sign_bit_encode velocity));
                 high_byte (to_int16 (sign_bit_encode velocity))] []
                asynchronous s) as Hrun.
  cbn [length app] in Hrun. change (Z.of_nat 2) with 2 in Hrun.
  rewrite Hrun by lia. reflexivity.
Qed.

Lemma getCurrentSpeed_run (servoId : Z) (s : Driver E) :
  getCurrentSpeed link R servoId s
  = let '(vel, s1) := readTwoBytesRegister link servoId (CURRENT_SPEED R) s in
    (sign_bit_decode vel, s1).
Proof.
  unfold getCurrentSpeed. rewrite bind_run.
  by destruct (readTwoBytesRegister link servoId (CURRENT_SPEED R) s) as [vel s1].
Qed.

End Velocity.

Lemma to_int16_shift (z : Z) : exists q, to_int16 z = z + q * 256 * 256.
Proof.
  exists (- ((z + 32768) `div` 65536)). unfold to_int16.
  pose proof (Z.div_mod (z + 32768) 65536). lia.
Qed.

Lemma low_byte_to_int16 (z : Z) : low_byte (to_int16 z) = low_byte z.
Proof.
  destruct (to_int16_shift z) as [q ->]. unfold low_byte.
  apply Z.mod_add. lia.
Qed.

Lemma high_byte_to_int16 (z : Z) : high_byte (to_int16 z) = high_byte z.
Proof.
  destruct (to_int16_shift z) as [q ->]. unfold high_byte.
  rewrite Z.div_add by lia. apply Z.mod_add. lia.
Qed.

Lemma lor_bit_15 (a : Z) : 0 <= a < 32768 -> Z.lor a 0x8000 = a + 0x8000.
Proof.
  intros Ha.
  assert (Hland : Z.land a (2 ^ 15) = 0).
  { rewrite land_bit, testbit_15 by lia. by rewrite (Z.div_small _ _ Ha). }
  change 32768 with (2 ^ 15).
  by rewrite <- (Z.lxor_lor _ _ Hland), <- (Z.add_nocarry_lxor _ _ Hland).
Qed.

Lemma sign_bit_encode_value (v : Z) :
  -32767 <= v <= 32767 ->
  sign_bit_encode v = if v <? 0 then Z.abs v + 0x8000 else v.
Proof.
  intros Hv. unfold sign_bit_encode. cbv zeta.
  destruct (Z.ltb_spec v 0); [apply lor_bit_15; lia | lia].
Qed.

(** ** The frames of the typed operations *)

Section TypedWrites.
Context {E : Type}.
Variable link : Link E.
Variable R : STSRegisters.

Lemma writeRegister_run (servoId registerId value : Z) (asynchronous : bool)
    (s : Driver E) :
  writeRegister link servoId registerId value asynchronous s
  = let '(rc, s1) :=
      transmit link
        (frame servoId (if asynchronous then instruction.REGWRITE else instruction.WRITE)
           [registerId; value]) s in
    (rc =? 8, s1).
Proof.
  unfold writeRegister.
  pose proof (writeRegisters_run link servoId registerId [value] [] asynchronous s) as Hrun.
  cbn [length app] in Hrun. change (Z.of_nat 1) with 1 in Hrun.
  rewrite Hrun by lia. reflexivity.
Qed.

Lemma writeTwoBytesRegister_run (servoId registerId value : Z) (asynchronous : bool)
    (s : Driver E) :
  writeTwoBytesRegister link servoId registerId value asynchronous s
  = let '(rc, s1) :=
      transmit link
        (frame servoId (if asynchronous then instruction.REGWRITE else instruction.WRITE)
           [registerId; low_byte value; high_byte value]) s in
    (rc =? 9, s1).
Proof.
  unfold writeTwoBytesRegister. cbv zeta.
  rewrite shiftr_8_land_255, land_255.
  rewrite (to_byte_small _ (low_byte_range _)), (to_byte_small _ (high_byte_range _)).
  pose proof (writeRegisters_run link servoId registerId
                [low_byte value; high_byte value] [] asynchronous s) as Hrun.
  cbn [length app] in Hrun. change (Z.of_nat 2) with 2 in Hrun.
  rewrite Hrun by lia. reflexivity.
Qed.

Lemma setTargetPosition_run (servoId position speed : Z) (asynchronous : bool)
    (s : Driver E) :
  setTargetPosition link R servoId position speed asynchronous s
  = let '(rc, s1) :=
      transmit link
        (frame servoId (if asynchronous then instruction.REGWRITE else instruction.WRITE)
           [TARGET_POSITION R; low_byte position; high_byte position; 0; 0;
            low_byte speed; high_byte speed]) s in
    (rc =? 13, s1).
Proof.
  unfold setTargetPosition. cbv zeta.
  rewrite !shiftr_8_land_255, !land_255.
  rewrite !(to_byte_small _ (low_byte_range _)), !(to_byte_small _ (high_byte_range _)).
  pose proof (writeRegisters_run link servoId (TARGET_POSITION R)
                [low_byte position; high_byte position; 0; 0;
                 low_byte speed; high_byte speed] [] asynchronous s) as Hrun.
  cbn [length app] in Hrun. change (Z.of_nat 6) with 6 in Hrun.
  rewrite Hrun by lia. reflexivity.
Qed.

End TypedWrites.

Section Traffic.
Context {E : Type}.
Variable link : Link E.

(** The typed reads put the READ frame of their one or two registers on the
    wire, whatever the device ID and whatever comes back. *)
Lemma readRegister_txlog (servoId registerId : Z) (s : Driver E) :
  txlog (snd (readRegister link servoId registerId s))
  = txlog s ++ [frame servoId instruction.READ [registerId; 1]].
Proof.
  rewrite readRegister_run.
  pose proof (readRegisters_txlog link servoId registerId 1 [0] s) as Htx.
  by destruct (readRegisters link servoId registerId 1 [0] s) as [[rc result] s1].
Qed.

Lemma readTwoBytesRegister_txlog (servoId registerId : Z) (s : Driver E) :
  txlog (snd (readTwoBytesRegister link servoId registerId s))
  = txlog s ++ [frame servoId instruction.READ [registerId; 2]].
Proof.
  rewrite readTwoBytesRegister_run.
  pose proof (readRegisters_txlog link servoId registerId 2 [0; 0] s) as Htx.
  by destruct (readRegisters link servoId registerId 2 [0; 0] s) as [[rc result] s1].
Qed.

(** Discovery sends the PING frames of the candidates 0, 1, ..., k-1 for some
    k up to 254, and nothing else. *)
Lemma init_txlog (s : Driver E) :
  exists k, (k <= 254)%nat /\ txlog (snd (init link s)) = txlog s ++ ping_frames k.
Proof.
  unfold init. change (Z.to_nat (0xFE - 0)) with 254%nat.
  destruct (init_loop_run link 254 0 s) as [(k & Hk & _ & _ & Hrun)|[_ Hrun]];
    change (sweep link 0 s) with s in Hrun; change (Z.of_nat 0) with 0 in Hrun;
    rewrite Hrun; cbn [snd].
  - exists (S k). split; [lia | apply sweep_txlog].
  - exists 254%nat. split; [lia | apply sweep_txlog].
Qed.

Lemma ping_frames_ids (k : nat) (buf : list Z) :
  buf ∈ ping_frames k ->
  exists j, (j < k)%nat /\ buf = frame (Z.of_nat j) instruction.PING [].
Proof.
  unfold ping_frames.
  change (map (fun j => frame (Z.of_nat j) instruction.PING []) (seq 0 k))
    with ((fun j => frame (Z.of_nat j) instruction.PING []) <$> seq 0 k).
  rewrite list_elem_of_fmap.
  intros (j & -> & Hj). apply elem_of_seq in Hj. exists j. split; [lia | done].
Qed.

End Traffic.

(** * The claims *)

(** ** C1: the frame encoder *)

(** C1 (as amended).  For every device ID, command code and parameter list of
    at most 253 bytes, [sendMessage] hands the transport exactly the bytes
    0xFF, 0xFF, id, len(params)+2, cmd, the parameters in order, and the
    bitwise NOT of the byte-truncated sum of id, len(params)+2, cmd and the
    parameters; and Ping for id 1 puts FF FF 01 02 01 FB on the wire. *)
Theorem sendMessage_emits_frame {E : Type} (link : Link E) (id cmd : Z)
    (params : list Z) (s : Driver E) :
  (length params <= 253)%nat ->
  txlog (snd (sendMessage link id cmd (Z.of_nat (length params)) params s))
  = txlog s
    ++ [[0xFF; 0xFF; id; Z.of_nat (length params) + 2; cmd] ++ params
        ++ [to_byte (Z.lnot (to_byte (id + (Z.of_nat (length params) + 2) + cmd
                                      + sum_bytes params)))]]
  /\ sendMessage link id cmd (Z.of_nat (length params)) params s
     = transmit link (spec_frame id cmd params) s
  /\ txlog (snd (ping link 1 s)) = txlog s ++ [[0xFF; 0xFF; 0x01; 0x02; 0x01; 0xFB]].
Proof.
  intros Hlen.
  assert (Hrun : sendMessage link id cmd (Z.of_nat (length params)) params s
                 = transmit link (spec_frame id cmd params) s).
  { rewrite <- (app_nil_r params) at 2.
    rewrite sendMessage_run. by rewrite frame_is_spec_frame. }
  split; [| split].
  - rewrite Hrun. unfold transmit.
    by destruct (link (bus s) (spec_frame id cmd params)) as [[n answer] e].
  - exact Hrun.
  - by rewrite ping_txlog.
Qed.

Lemma sendMessage_emits_frame_witness :
  (length [0x2A; 0x10; 0x27] <= 253)%nat
  /\ txlog (snd (sendMessage (servo_bus [1] (fun _ => 0)) 1 instruction.WRITE 3 [0x2A; 0x10; 0x27] (fresh tt)))
     = [[0xFF; 0xFF; 0x01; 0x05; 0x03; 0x2A; 0x10; 0x27; 0x95]].
Proof.
  split; [simpl; lia|].
  apply (sendMessage_emits_frame (servo_bus [1] (fun _ => 0)) 1 instruction.WRITE [0x2A; 0x10; 0x27] (fresh tt)).
  simpl; lia.
Defined.

(** With 254 parameter bytes the length byte of the emitted frame wraps to 0,
    where the claim has len(params)+2 = 256. *)
Lemma sendMessage_length_byte_wraps :
  txlog (snd (sendMessage (servo_bus [1] (fun _ => 0)) 1 instruction.WRITE 254 (replicate 254 0) (fresh tt)))
  <> [spec_frame 1 instruction.WRITE (replicate 254 0)]
  /\ get (wire (snd (sendMessage (servo_bus [1] (fun _ => 0)) 1 instruction.WRITE 254 (replicate 254 0)
                        (fresh tt)))) 3 = 0
  /\ get (spec_frame 1 instruction.WRITE (replicate 254 0)) 3 = 256.
Proof.
  split; [| split].
  - intros H. vm_compute in H. discriminate H.
  - vm_compute. reflexivity.
  - vm_compute. reflexivity.
Qed.

(** ** C2: encoding then decoding *)

(** C2 (as amended).  For every id in [0x00, 0xFD] and every parameter list of
    0 to 250 bytes, the frame [sendMessage] emits, read back by
    [receiveMessage] for the same id with read length len(params)+1, passes
    the sync, ID, length and checksum tests and yields the command byte
    followed by the parameter bytes unchanged. *)
Theorem encode_decode_round_trip (id cmd : Z) (params oold otail : list Z)
    (s : Driver unit) :
  0 <= id <= 0xFD ->
  (length params <= 250)%nat ->
  rxbuf s = [] ->
  length oold = S (length params) ->
  let s1 := snd (sendMessage loopback id cmd (Z.of_nat (length params)) params s) in
  txlog s1 = txlog s ++ [spec_frame id cmd params]
  /\ rxbuf s1 = spec_frame id cmd params
  /\ receiveMessage id (Z.of_nat (length params) + 1) (oold ++ otail) s1
     = ((0, cmd :: params ++ otail), mkDriver LOW [] (txlog s1) tt).
Proof.
  intros Hid Hlen Hrx Hout s1.
  assert (Hs1 : s1 = mkDriver LOW (spec_frame id cmd params)
                       (txlog s ++ [spec_frame id cmd params]) (bus s)).
  { unfold s1. rewrite <- (app_nil_r params) at 2.
    rewrite sendMessage_run, frame_is_spec_frame by lia.
    unfold transmit, loopback. by rewrite Hrx. }
  rewrite Hs1. cbn [txlog rxbuf]. split; [done | split; [done|]].
  replace (Z.of_nat (length params) + 1) with (Z.of_nat (length (cmd :: params)))
    by (simpl; lia).
  rewrite (receiveMessage_ok id (cmd :: params) [] oold otail); [| | done].
  - cbn [txlog bus]. by destruct (bus s).
  - cbn [rxbuf]. unfold spec_frame. cbv zeta. rewrite app_nil_r.
    replace (Z.of_nat (length (cmd :: params)) + 1) with (Z.of_nat (length params) + 2)
      by (simpl; lia).
    replace (sum_bytes (cmd :: params)) with (cmd + sum_bytes params) by done.
    replace (id + (Z.of_nat (length params) + 2) + (cmd + sum_bytes params))
      with (id + (Z.of_nat (length params) + 2) + cmd + sum_bytes params) by lia.
    reflexivity.
Qed.

Lemma encode_decode_round_trip_witness :
  let s1 := snd (sendMessage loopback 1 instruction.WRITE 2 [0x2A; 0x07] (fresh tt)) in
  txlog s1 = [[0xFF; 0xFF; 0x01; 0x04; 0x03; 0x2A; 0x07; 0xC6]]
  /\ rxbuf s1 = [0xFF; 0xFF; 0x01; 0x04; 0x03; 0x2A; 0x07; 0xC6]
  /\ receiveMessage 1 3 [0; 0; 0] s1 = ((0, [0x03; 0x2A; 0x07]), mkDriver LOW [] (txlog s1) tt).
Proof.
  apply (encode_decode_round_trip 1 instruction.WRITE [0x2A; 0x07] [0; 0; 0] [] (fresh tt));
    [lia | simpl; lia | reflexivity | reflexivity].
Defined.

(** Read back with the parameter count as read length, the emitted frame is
    refused (its length field is one more than expected); read back with one
    more, it is accepted and the bytes returned start with the command byte:
    no read length returns the parameter list itself. *)
Lemma decode_prepends_command :
  let s1 := snd (sendMessage loopback 1 instruction.WRITE 1 [0x07] (fresh tt)) in
  fst (receiveMessage 1 1 [0] s1) = (-2, [0])
  /\ fst (receiveMessage 1 2 [0; 0] s1) = (0, [0x03; 0x07])
  /\ forallb (fun n => negb (bool_decide
        (fst (receiveMessage 1 (Z.of_nat n) (replicate n 0) s1) = (0, [0x07]))))
       (seq 0 256) = true.
Proof.
  cbv zeta. split; [| split]; vm_compute; reflexivity.
Qed.

(** ** C3: the error codes of the decoder *)

(** C3 (as amended).  Once the full [readLength + 5] bytes have arrived,
    [receiveMessage] answers a bad sync byte, a device ID other than the one
    requested and a wrong length field all with the one code -2, leaving the
    output buffer alone, and gives -2 for nothing else; so a response from
    another device ID fails with -2 whatever its checksum, and a caller cannot
    tell the three causes apart. *)
Theorem receiveMessage_header_code {E : Type} (servoId readLength : Z) (out : list Z)
    (s : Driver E) :
  0 <= readLength ->
  readLength + 5 <= Z.of_nat (length (rxbuf s)) ->
  (get (rxbuf s) 0 <> 0xFF \/ get (rxbuf s) 1 <> 0xFF
   \/ get (rxbuf s) 2 <> servoId \/ get (rxbuf s) 3 <> readLength + 1)
  <-> fst (receiveMessage servoId readLength out s) = (-2, out).
Proof.
  intros Hn Hlen. rewrite receiveMessage_full by done.
  unfold header_ok.
  destruct (Z.eqb_spec (get (rxbuf s) 0) 255) as [H0|H0];
    destruct (Z.eqb_spec (get (rxbuf s) 1) 255) as [H1|H1];
    destruct (Z.eqb_spec (get (rxbuf s) 2) servoId) as [H2|H2];
    destruct (Z.eqb_spec (get (rxbuf s) 3) (readLength + 1)) as [H3|H3];
    cbn [andb negb]; try (split; [done | tauto]).
  cbv zeta.
  match goal with |- context [if ?b then _ else _] => destruct b end;
    (split; [tauto | discriminate]).
Qed.

Lemma receiveMessage_header_code_witness :
  (get [0xFF; 0xFF; 0x02; 0x02; 0x00; 0xFB] 0 <> 0xFF
   \/ get [0xFF; 0xFF; 0x02; 0x02; 0x00; 0xFB] 1 <> 0xFF
   \/ get [0xFF; 0xFF; 0x02; 0x02; 0x00; 0xFB] 2 <> 1
   \/ get [0xFF; 0xFF; 0x02; 0x02; 0x00; 0xFB] 3 <> 1 + 1)
  <-> fst (receiveMessage 1 1 [0x09]
             (mkDriver LOW [0xFF; 0xFF; 0x02; 0x02; 0x00; 0xFB] [] tt)) = (-2, [0x09]).
Proof.
  apply (receiveMessage_header_code 1 1 [0x09]
           (mkDriver LOW [0xFF; 0xFF; 0x02; 0x02; 0x00; 0xFB] [] tt));
    simpl; lia.
Defined.

(** A response with a bad sync byte, one from another device and one with a
    wrong length field (each with a valid checksum) are refused with the same
    code. *)
Lemma header_errors_share_code :
  let bad_sync := mkDriver LOW [0x00; 0xFF; 0x01; 0x02; 0x00; 0xFC] [] tt in
  let other_id := mkDriver LOW [0xFF; 0xFF; 0x02; 0x02; 0x00; 0xFB] [] tt in
  let bad_length := mkDriver LOW [0xFF; 0xFF; 0x01; 0x03; 0x00; 0xFB] [] tt in
  fst (receiveMessage 1 1 [0x09] bad_sync) = (-2, [0x09])
  /\ fst (receiveMessage 1 1 [0x09] other_id) = (-2, [0x09])
  /\ fst (receiveMessage 1 1 [0x09] bad_length) = (-2, [0x09]).
Proof.
  cbv zeta. repeat split; vm_compute; reflexivity.
Qed.

(** ** C4: register writes *)

(** C4 (as amended).  For at most 254 bytes, [writeRegisters] hands the
    transport a single frame whose parameters are the start register followed
    by the given bytes, with command code WRITE (0x03) when [asynchronous] is
    false (Immediate) and REGWRITE (0x04) when it is true (Deferred); it takes
    nothing from the receive buffer, and returns true exactly when the
    transport reports [bytes.length + 7] bytes sent. *)
Theorem writeRegisters_single_frame {E : Type} (link : Link E)
    (servoId startRegister : Z) (bytes : list Z) (asynchronous : bool) (s : Driver E) :
  (length bytes <= 254)%nat ->
  let cmd := if asynchronous then 0x04 else 0x03 in
  let len := Z.of_nat (length bytes) in
  let buf := [0xFF; 0xFF; servoId; to_byte (len + 3); cmd] ++ (startRegister :: bytes)
             ++ [to_byte (Z.lnot (to_byte (servoId + (len + 3) + cmd
                                           + (startRegister + sum_bytes bytes))))] in
  let '(count, answer, e) := link (bus s) buf in
  writeRegisters link servoId startRegister len bytes asynchronous s
  = (count =? len + 7, mkDriver LOW (rxbuf s ++ answer) (txlog s ++ [buf]) e).
Proof.
  intros Hlen cmd len buf.
  assert (Hbuf : buf = frame servoId
                   (if asynchronous then instruction.REGWRITE else instruction.WRITE)
                   (startRegister :: bytes)).
  { unfold buf, frame, cmd, len. cbn [length].
    change (sum_bytes (startRegister :: bytes)) with (startRegister + sum_bytes bytes).
    replace (Z.of_nat (S (length bytes)) + 2) with (Z.of_nat (length bytes) + 3) by lia.
    set (c := if asynchronous then instruction.REGWRITE else instruction.WRITE).
    replace (if asynchronous then 4 else 3) with c by (by destruct asynchronous).
    replace (servoId + Z.of_nat (S (length bytes)) + 2 + c
             + (startRegister + sum_bytes bytes))
      with (servoId + (Z.of_nat (length bytes) + 3) + c
            + (startRegister + sum_bytes bytes)) by lia.
    reflexivity. }
  pose proof (writeRegisters_run link servoId startRegister bytes [] asynchronous s Hlen)
    as Hrun.
  rewrite app_nil_r in Hrun. fold len in Hrun. rewrite Hrun, <- Hbuf.
  unfold transmit.
  by destruct (link (bus s) buf) as [[count answer] e].
Qed.

Lemma writeRegisters_single_frame_witness :
  (length [0x10; 0x27] <= 254)%nat
  /\ writeRegisters (servo_bus [1] (fun _ => 0)) 1 0x2A 2 [0x10; 0x27] true (fresh tt)
     = (true, mkDriver LOW [] [[0xFF; 0xFF; 0x01; 0x05; 0x04; 0x2A; 0x10; 0x27; 0x94]] tt).
Proof.
  split; [simpl; lia|].
  apply (writeRegisters_single_frame (servo_bus [1] (fun _ => 0)) 1 0x2A [0x10; 0x27]
           true (fresh tt)).
  simpl; lia.
Defined.

(** With 255 bytes the parameter count handed to [sendMessage] wraps to 0: the
    frame put on the wire has no parameter at all, and the call reports
    failure although the transport sent every byte it was given. *)
Lemma writeRegisters_255_bytes :
  writeRegisters (servo_bus [1] (fun _ => 0)) 1 0x2A 255 (replicate 255 0x07) false
    (fresh tt)
  = (false, mkDriver LOW [] [[0xFF; 0xFF; 0x01; 0x02; 0x03; 0xF9]] tt)
  /\ [[0xFF; 0xFF; 0x01; 0x02; 0x03; 0xF9]]
     <> [spec_frame 1 instruction.WRITE (0x2A :: replicate 255 0x07)].
Proof.
  split.
  - vm_compute. reflexivity.
  - intros H. vm_compute in H. discriminate H.
Qed.

(** ** C5: the broadcast synchronised write *)

(** C5 (as amended).  Given n device IDs with n positions and n speeds,
    1 <= n <= 35, [setTargetPositions] puts on the wire exactly one broadcast
    frame: FF FF FE, the length byte n*7+4, the SYNCWRITE code 0x83, the
    target-position start register, the block width 6, then for each device in
    input order the block id, posLo, posHi, 00, 00, spdLo, spdHi, and last the
    bitwise NOT of the byte-truncated sum of every byte after the two sync
    bytes. *)
Theorem setTargetPositions_frame {E : Type} (link : Link E) (R : STSRegisters)
    (ids positions speeds : list Z) (s : Driver E) :
  (1 <= length ids <= 35)%nat ->
  length positions = length ids ->
  length speeds = length ids ->
  wire (snd (setTargetPositions link R (Z.of_nat (length ids)) ids positions speeds s))
  = wire s ++ spec_sync_frame (TARGET_POSITION R) ids positions speeds.
Proof.
  intros Hn Hp Hv. rewrite setTargetPositions_wire by done.
  rewrite (to_byte_small (Z.of_nat (length ids) * 7 + 4)) by (unfold is_byte; lia).
  reflexivity.
Qed.

Lemma setTargetPositions_frame_witness :
  wire (snd (setTargetPositions (servo_bus [1] (fun _ => 0)) sts_registers 2 [1; 2] [100; 200] [50; 50]
               (fresh tt)))
  = [0xFF; 0xFF; 0xFE; 18; 0x83; 0x2A; 6;
     1; 100; 0; 0; 0; 50; 0;
     2; 200; 0; 0; 0; 50; 0;
     0xA9].
Proof.
  apply (setTargetPositions_frame (servo_bus [1] (fun _ => 0)) sts_registers [1; 2] [100; 200] [50; 50]
           (fresh tt)); simpl; lia.
Defined.

(** With 36 devices the length byte 36*7+4 = 256 does not fit: the byte put on
    the wire is 0. *)
Lemma setTargetPositions_36_devices :
  let s1 := snd (setTargetPositions (servo_bus [1] (fun _ => 0)) sts_registers 36 (replicate 36 1)
                   (replicate 36 100) (replicate 36 50) (fresh tt)) in
  wire s1 <> spec_sync_frame 0x2A (replicate 36 1) (replicate 36 100) (replicate 36 50)
  /\ get (wire s1) 3 = 0
  /\ get (spec_sync_frame 0x2A (replicate 36 1) (replicate 36 100) (replicate 36 50)) 3
     = 36 * 7 + 4.
Proof.
  cbv zeta. split; [| split].
  - intros H. vm_compute in H. discriminate H.
  - vm_compute. reflexivity.
  - vm_compute. reflexivity.
Qed.

(** ** C6: the sign-bit encoding of velocities *)

(** C6.  For every velocity v in [-32767, 32767], [setTargetVelocity] writes
    the magnitude of v with bit 15 set exactly when v < 0, as a two-byte
    little-endian register value, and [getCurrentSpeed], reading that 16-bit
    raw value back (magnitude = raw with bit 15 cleared, negated when bit 15
    was set), returns v exactly. *)
Theorem velocity_sign_bit_round_trip (R : STSRegisters) (servoId velocity : Z)
    (s : Driver (Z * Z)) :
  -32767 <= velocity <= 32767 ->
  Forall is_byte (rxbuf s) ->
  let raw := if velocity <? 0 then Z.abs velocity + 0x8000 else velocity in
  let s1 := snd (setTargetVelocity (speed_servo R servoId) R servoId velocity false s) in
  sent_since s s1
  = [frame servoId instruction.WRITE [RUNNING_SPEED R; low_byte raw; high_byte raw]]
  /\ bus s1 = (low_byte raw, high_byte raw)
  /\ fst (getCurrentSpeed (speed_servo R servoId) R servoId s1) = velocity.
Proof.
  intros Hv Hrx raw s1.
  assert (Hs1 : s1 = mkDriver LOW (rxbuf s)
                       (txlog s ++ [frame servoId instruction.WRITE
                                      [RUNNING_SPEED R; low_byte raw; high_byte raw]])
                       (low_byte raw, high_byte raw)).
  { unfold s1. rewrite setTargetVelocity_run. cbv zeta.
    rewrite low_byte_to_int16, high_byte_to_int16, sign_bit_encode_value by done.
    fold raw. unfold transmit. rewrite speed_servo_write. cbn [snd].
    by rewrite app_nil_r. }
  rewrite Hs1. cbn [bus]. split; [by apply sent_since_app|]. split; [done|].
  rewrite getCurrentSpeed_run, readTwoBytesRegister_run, readRegisters_run.
  set (s0 := mkDriver LOW (rxbuf s) _ _).
  assert (Hflush : snd (flush s0)
                   = mkDriver LOW [] (txlog s0) (low_byte raw, high_byte raw)).
  { pose proof (flush_empties s0 Hrx) as Hempty.
    destruct (flush_loop_keeps (S (length (rxbuf s0))) s0) as (Htx & Hbus & Hdir).
    fold (flush s0) in Htx, Hbus, Hdir.
    destruct (snd (flush s0)) as [d r t b]. cbn in Hempty, Htx, Hbus, Hdir.
    by subst. }
  rewrite Hflush. unfold transmit. cbn [bus rxbuf txlog].
  rewrite speed_servo_read. cbn [fst snd app]. cbn [Z.eqb Pos.eqb negb].
  change (to_byte (2 + 1)) with (Z.of_nat (length [0; low_byte raw; high_byte raw])).
  change (array (2 + 1)) with ([0; 0; 0] ++ @nil Z).
  rewrite (receiveMessage_ok servoId [0; low_byte raw; high_byte raw] [] [0; 0; 0] []);
    [| cbn [rxbuf]; apply status_packet_rx | reflexivity].
  change (0 <? 0) with false. cbv iota.
  change (for_loop 0 2 _ [0; 0]) with [low_byte raw; high_byte raw].
  cbn [fst]. rewrite get_0, get_1, bytes_recombine.
  unfold raw. rewrite <- sign_bit_encode_value by done.
  by apply sign_bit_round_trip.
Qed.

Lemma velocity_sign_bit_round_trip_witness :
  let raw := if -100 <? 0 then Z.abs (-100) + 0x8000 else -100 in
  let s1 := snd (setTargetVelocity (speed_servo sts_registers 1) sts_registers 1 (-100)
                   false (fresh (0, 0))) in
  sent_since (fresh (0, 0)) s1
  = [frame 1 instruction.WRITE [RUNNING_SPEED sts_registers; low_byte raw; high_byte raw]]
  /\ bus s1 = (low_byte raw, high_byte raw)
  /\ fst (getCurrentSpeed (speed_servo sts_registers 1) sts_registers 1 s1) = -100.
Proof.
  apply (velocity_sign_bit_round_trip sts_registers 1 (-100) (fresh (0, 0)));
    [lia | simpl; constructor].
Defined.

(** Velocity -100 goes out as 0x8064, low byte first, and is read back as
    -100; the velocity -32768 is outside the encodable domain: its magnitude
    takes bit 15 itself and it is read back as 0. *)
Example velocity_examples :
  txlog (snd (setTargetVelocity (speed_servo sts_registers 1) sts_registers 1 (-100)
                false (fresh (0, 0))))
  = [[0xFF; 0xFF; 0x01; 0x05; 0x03; 0x2E; 0x64; 0x80; 0xE4]]
  /\ sign_bit_decode (to_int16 (sign_bit_encode (-32768))) = 0.
Proof. split; vm_compute; reflexivity. Qed.

(** ** C7: the guards of [setId] *)

(** C7.  [setId] returns false without transmitting any write frame whenever
    either ID is at least 0xFE (nothing at all is transmitted then) or the new
    ID already answers a ping (only that PING frame is transmitted). *)
Theorem setId_refuses {E : Type} (link : Link E) (R : STSRegisters)
    (asynchronous_default : bool) (oldServoId newServoId : Z) (s : Driver E) :
  0xFE <= oldServoId \/ 0xFE <= newServoId \/ fst (ping link newServoId s) = true ->
  let r := setId link R asynchronous_default oldServoId newServoId s in
  fst r = false
  /\ filter is_write_frame (sent_since s (snd r)) = []
  /\ (sent_since s (snd r) = []
      \/ sent_since s (snd r) = [frame newServoId instruction.PING []]).
Proof.
  intros Hpre. cbv zeta. unfold setId.
  rewrite !Z.geb_leb.
  destruct (Z.leb_spec 254 oldServoId) as [Hold|Hold];
    [| destruct (Z.leb_spec 254 newServoId) as [Hnew|Hnew]]; cbn [orb].
  - unfold mret, M_ret. cbn [fst snd]. rewrite sent_since_refl. auto.
  - unfold mret, M_ret. cbn [fst snd]. rewrite sent_since_refl. auto.
  - destruct Hpre as [Hpre|[Hpre|Hping]]; [lia | lia |].
    rewrite bind_run, Hping. unfold mret, M_ret. cbn [fst snd].
    rewrite (sent_since_app s _ _ (ping_txlog link newServoId s)).
    split; [done | split; [reflexivity | by right]].
Qed.

Lemma setId_refuses_witness :
  let r := setId (servo_bus [10] (fun _ => 0)) sts_registers false 5 10 (fresh tt) in
  fst r = false
  /\ filter is_write_frame (sent_since (fresh tt) (snd r)) = []
  /\ (sent_since (fresh tt) (snd r) = []
      \/ sent_since (fresh tt) (snd r) = [frame 10 instruction.PING []]).
Proof.
  apply (setId_refuses (servo_bus [10] (fun _ => 0)) sts_registers false 5 10 (fresh tt)).
  right; right. vm_compute. reflexivity.
Defined.

(** SetId(old=5, new=10) on a bus where servo 10 answers: refused, and the
    only frame on the wire is the PING to 10. *)
Example setId_5_10_taken :
  setId (servo_bus [10] (fun _ => 0)) sts_registers false 5 10 (fresh tt)
  = (false, mkDriver LOW [] [[0xFF; 0xFF; 0x0A; 0x02; 0x01; 0xF2]] tt).
Proof. vm_compute. reflexivity. Qed.

(** ** C8: discovery *)

(** C8 (as amended).  [init] pings the candidate IDs 0x00 to 0xFD in ascending
    order and stops at the first one that answers (with status 0x00, see
    [ping_answered]); it returns true then, a bare presence indication that
    does not carry the ID, and false when none of the 254 candidates answers. *)
Theorem init_sweeps_in_order {E : Type} (link : Link E) (s : Driver E) :
  (exists k, (k < 254)%nat
     /\ (forall j, (j < k)%nat -> fst (ping link (Z.of_nat j) (sweep link j s)) = false)
     /\ fst (ping link (Z.of_nat k) (sweep link k s)) = true
     /\ init link s = (true, sweep link (S k) s)
     /\ sent_since s (snd (init link s)) = ping_frames (S k))
  \/ ((forall j, (j < 254)%nat -> fst (ping link (Z.of_nat j) (sweep link j s)) = false)
      /\ init link s = (false, sweep link 254 s)
      /\ sent_since s (snd (init link s)) = ping_frames 254).
Proof.
  unfold init. change (Z.to_nat (254 - 0)) with 254%nat.
  destruct (init_loop_run link 254 0 s) as [(k & Hk & Hbefore & Hat & Hrun)|[Hall Hrun]];
    change (sweep link 0 s) with s in Hrun; change (Z.of_nat 0) with 0 in Hrun.
  - left. exists k. split; [lia|]. split; [intros j Hj; apply Hbefore; lia|].
    split; [done|]. split; [done|].
    rewrite Hrun. cbn [snd]. apply sent_since_app, sweep_txlog.
  - right. split; [intros j Hj; apply Hall; lia|]. split; [done|].
    rewrite Hrun. cbn [snd]. apply sent_since_app, sweep_txlog.
Qed.

(** With only servo 3 on the bus and with only servo 5 on the bus [init]
    returns the same value, after four and after six pings: the result does
    not tell which ID answered. *)
Lemma init_result_hides_id :
  let r3 := init (servo_bus [3] (fun _ => 0)) (fresh tt) in
  let r5 := init (servo_bus [5] (fun _ => 0)) (fresh tt) in
  fst r3 = true /\ fst r5 = true
  /\ last (txlog (snd r3)) = Some (frame 3 instruction.PING [])
  /\ last (txlog (snd r5)) = Some (frame 5 instruction.PING [])
  /\ ~ (exists decode : bool -> Z, decode (fst r3) = 3 /\ decode (fst r5) = 5).
Proof.
  cbv zeta.
  assert (H3 : fst (init (servo_bus [3] (fun _ => 0)) (fresh tt)) = true)
    by (vm_compute; reflexivity).
  assert (H5 : fst (init (servo_bus [5] (fun _ => 0)) (fresh tt)) = true)
    by (vm_compute; reflexivity).
  split; [done|]. split; [done|].
  split; [vm_compute; reflexivity|]. split; [vm_compute; reflexivity|].
  intros (decode & Hd3 & Hd5). rewrite H3 in Hd3. rewrite H5 in Hd5. lia.
Qed.

(** ** C9: the broadcast address as a device ID *)

(** C9 (as amended).  [setId] rejects the broadcast address 0xFE, as old or
    as new ID and without any transmission, and [init] never pings it: it
    sends the PING frames of the IDs 0, 1, ... up to 253 at most.  [ping],
    the register read and write primitives, the status getters and the
    motion setters test nothing: given 0xFE they transmit the frame they
    transmit for any ID, addressed to 0xFE, and the writes report success
    when the transport reports every byte of it as sent. *)
Theorem broadcast_id_unchecked {E : Type} (link : Link E) (R : STSRegisters)
    (asynchronous_default asynchronous : bool)
    (other registerId readLength value position speed velocity acceleration : Z)
    (bytes out : list Z) (s : Driver E) :
  setId link R asynchronous_default 0xFE other s = (false, s)
  /\ setId link R asynchronous_default other 0xFE s = (false, s)
  /\ (exists k, (k <= 254)%nat /\ sent_since s (snd (init link s)) = ping_frames k)
  /\ (frame 0xFE instruction.PING [] ∉ sent_since s (snd (init link s)))
  /\ txlog (snd (ping link 0xFE s)) = txlog s ++ [[0xFF; 0xFF; 0xFE; 0x02; 0x01; 0xFE]]
  /\ txlog (snd (readRegisters link 0xFE registerId readLength out s))
     = txlog s ++ [frame 0xFE instruction.READ [registerId; readLength]]
  /\ txlog (snd (readRegister link 0xFE registerId s))
     = txlog s ++ [frame 0xFE instruction.READ [registerId; 1]]
  /\ txlog (snd (readTwoBytesRegister link 0xFE registerId s))
     = txlog s ++ [frame 0xFE instruction.READ [registerId; 2]]
  /\ ((length bytes <= 254)%nat ->
      writeRegisters link 0xFE registerId (Z.of_nat (length bytes)) bytes asynchronous s
      = let '(rc, s1) :=
          transmit link
            (frame 0xFE (if asynchronous then instruction.REGWRITE else instruction.WRITE)
               (registerId :: bytes)) s in
        (rc =? Z.of_nat (length bytes) + 7, s1))
  /\ writeRegister link 0xFE registerId value asynchronous s
     = (let '(rc, s1) :=
          transmit link
            (frame 0xFE (if asynchronous then instruction.REGWRITE else instruction.WRITE)
               [registerId; value]) s in
        (rc =? 8, s1))
  /\ writeTwoBytesRegister link 0xFE registerId value asynchronous s
     = (let '(rc, s1) :=
          transmit link
            (frame 0xFE (if asynchronous then instruction.REGWRITE else instruction.WRITE)
               [registerId; low_byte value; high_byte value]) s in
        (rc =? 9, s1))
  /\ txlog (snd (getCurrentPosition link R 0xFE s))
     = txlog s ++ [frame 0xFE instruction.READ [CURRENT_POSITION R; 2]]
  /\ txlog (snd (getCurrentSpeed link R 0xFE s))
     = txlog s ++ [frame 0xFE instruction.READ [CURRENT_SPEED R; 2]]
  /\ txlog (snd (getCurrentTemperature link R 0xFE s))
     = txlog s ++ [frame 0xFE instruction.READ [CURRENT_TEMPERATURE R; 2]]
  /\ txlog (snd (getCurrentCurrent link R 0xFE s))
     = txlog s ++ [frame 0xFE instruction.READ [CURRENT_CURRENT R; 2]]
  /\ txlog (snd (isMoving link R 0xFE s))
     = txlog s ++ [frame 0xFE instruction.READ [MOVING_STATUS R; 1]]
  /\ setTargetPosition link R 0xFE position speed asynchronous s
     = (let '(rc, s1) :=
         transmit link
           (frame 0xFE (if asynchronous then instruction.REGWRITE else instruction.WRITE)
              [TARGET_POSITION R; low_byte position; high_byte position; 0; 0;
               low_byte speed; high_byte speed]) s in
       (rc =? 13, s1))
  /\ setTargetVelocity link R 0xFE velocity asynchronous s
     = (let encoded := to_int16 (sign_bit_encode velocity) in
        let '(rc, s1) :=
          transmit link
            (frame 0xFE (if asynchronous then instruction.REGWRITE else instruction.WRITE)
               [RUNNING_SPEED R; low_byte encoded; high_byte encoded]) s in
        (rc =? 9, s1))
  /\ setTargetAcceleration link R 0xFE acceleration asynchronous s
     = (let '(rc, s1) :=
          transmit link
            (frame 0xFE (if asynchronous then instruction.REGWRITE else instruction.WRITE)
               [TARGET_ACCELERATION R; acceleration]) s in
        (rc =? 8, s1)).
Proof.
  destruct (init_txlog link s) as (k & Hk & Hinit).
  apply sent_since_app in Hinit.
  split; [reflexivity|].
  split; [unfold setId; by rewrite orb_true_r|].
  split; [by exists k|].
  split.
  { rewrite Hinit. intros Hin.
    apply ping_frames_ids in Hin as (j & Hj & Heq).
    unfold frame in Heq. cbn [app] in Heq. injection Heq as Hid _. lia. }
  split; [by rewrite ping_txlog|].
  split; [apply readRegisters_txlog|].
  split; [apply readRegister_txlog|].
  split; [apply readTwoBytesRegister_txlog|].
  split.
  { intros Hlen.
    pose proof (writeRegisters_run link 0xFE registerId bytes [] asynchronous s Hlen)
      as Hrun.
    by rewrite app_nil_r in Hrun. }
  split; [apply writeRegister_run|].
  split; [apply writeTwoBytesRegister_run|].
  split.
  { unfold getCurrentPosition. rewrite bind_run. unfold mret, M_ret. cbn [snd].
    apply readTwoBytesRegister_txlog. }
  split.
  { rewrite getCurrentSpeed_run.
    pose proof (readTwoBytesRegister_txlog link 0xFE (CURRENT_SPEED R) s) as Htx.
    by destruct (readTwoBytesRegister link 254 (CURRENT_SPEED R) s) as [vel s1]. }
  split; [apply readTwoBytesRegister_txlog|].
  split.
  { unfold getCurrentCurrent. rewrite bind_run. unfold mret, M_ret. cbn [snd].
    apply readTwoBytesRegister_txlog. }
  split.
  { unfold isMoving. rewrite bind_run. unfold mret, M_ret. cbn [snd].
    apply readRegister_txlog. }
  split; [apply setTargetPosition_run|].
  split; [apply setTargetVelocity_run|].
  apply writeRegister_run.
Qed.

(** A write of one byte to register 0x29 of "servo" 0xFE: the frame goes out
    and the call reports success. *)
Lemma broadcast_id_unchecked_witness :
  writeRegisters (servo_bus [1] (fun _ => 0)) 0xFE 0x29 (Z.of_nat (length [0x05])) [0x05]
    false (fresh tt)
  = (true, mkDriver LOW [] [[0xFF; 0xFF; 0xFE; 0x04; 0x03; 0x29; 0x05; 0xCC]] tt).
Proof.
  destruct (broadcast_id_unchecked (servo_bus [1] (fun _ => 0)) sts_registers false false
              0 0x29 0 0 0 0 0 0 [0x05] [] (fresh tt))
    as (_ & _ & _ & _ & _ & _ & _ & _ & Hwrite & _).
  rewrite Hwrite; [vm_compute; reflexivity | simpl; lia].
Defined.

(** SetTargetPosition with the broadcast address as device ID is neither
    refused nor treated apart: the ordinary WRITE frame goes out, addressed to
    0xFE, and the call reports success; Ping(0xFE) transmits as well. *)
Lemma broadcast_id_accepted :
  setTargetPosition (servo_bus [1] (fun _ => 0)) sts_registers 0xFE 100 50 false (fresh tt)
  = (true, mkDriver LOW []
             [[0xFF; 0xFF; 0xFE; 0x09; 0x03; 0x2A; 100; 0; 0; 0; 50; 0; 0x35]] tt)
  /\ [[0xFF; 0xFF; 0xFE; 0x09; 0x03; 0x2A; 100; 0; 0; 0; 50; 0; 0x35]]
     = [frame 0xFE instruction.WRITE [0x2A; 100; 0; 0; 0; 50; 0]]
  /\ txlog (snd (ping (servo_bus [1] (fun _ => 0)) 0xFE (fresh tt)))
     = [[0xFF; 0xFF; 0xFE; 0x02; 0x01; 0xFE]].
Proof. repeat split; vm_compute; reflexivity. Qed.

(** ** C10: failed reads come back as zero *)

(** C10.  Whenever the underlying [readRegisters] fails (negative status code:
    send count mismatch, short read, header, ID or length mismatch, checksum
    mismatch, see [readRegisters_failure_causes]), [readRegister] and
    [readTwoBytesRegister] return 0 and give no other sign of the failure, so
    every status getter built on them (position, speed, temperature, moving,
    current) returns 0 (false for [isMoving]) as it would for a register that
    holds zero. *)
Theorem typed_reads_hide_failure {E : Type} (link : Link E) (R : STSRegisters)
    (servoId registerId : Z) (s : Driver E) :
  (fst (fst (readRegisters link servoId registerId 1 [0] s)) < 0 ->
   fst (readRegister link servoId registerId s) = 0)
  /\ (fst (fst (readRegisters link servoId registerId 2 [0; 0] s)) < 0 ->
      fst (readTwoBytesRegister link servoId registerId s) = 0)
  /\ (fst (fst (readRegisters link servoId (CURRENT_POSITION R) 2 [0; 0] s)) < 0 ->
      fst (getCurrentPosition link R servoId s) = 0)
  /\ (fst (fst (readRegisters link servoId (CURRENT_SPEED R) 2 [0; 0] s)) < 0 ->
      fst (getCurrentSpeed link R servoId s) = 0)
  /\ (fst (fst (readRegisters link servoId (CURRENT_TEMPERATURE R) 2 [0; 0] s)) < 0 ->
      fst (getCurrentTemperature link R servoId s) = 0)
  /\ (fst (fst (readRegisters link servoId (MOVING_STATUS R) 1 [0] s)) < 0 ->
      fst (isMoving link R servoId s) = false)
  /\ (fst (fst (readRegisters link servoId (CURRENT_CURRENT R) 2 [0; 0] s)) < 0 ->
      fst (getCurrentCurrent link R servoId s) = 0).
Proof.
  split; [apply readRegister_failure|].
  split; [apply readTwoBytesRegister_failure|].
  split; [| split; [| split; [| split]]].
  - intros Hrc. unfold getCurrentPosition. rewrite bind_run.
    by rewrite (readTwoBytesRegister_failure link _ _ s Hrc).
  - intros Hrc. unfold getCurrentSpeed. rewrite bind_run.
    by rewrite (readTwoBytesRegister_failure link _ _ s Hrc).
  - intros Hrc. unfold getCurrentTemperature.
    by rewrite (readTwoBytesRegister_failure link _ _ s Hrc).
  - intros Hrc. unfold isMoving. rewrite bind_run.
    by rewrite (readRegister_failure link _ _ s Hrc).
  - intros Hrc. unfold getCurrentCurrent. rewrite bind_run.
    by rewrite (readTwoBytesRegister_failure link _ _ s Hrc).
Qed.

(** No servo 3 on the bus: the read times out with code -1 and the position
    getter returns 0. *)
Lemma typed_reads_hide_failure_witness :
  fst (readRegisters (servo_bus [1] (fun _ => 0x11)) 3 0x38 2 [0; 0] (fresh tt))
  = (-1, [0; 0])
  /\ fst (getCurrentPosition (servo_bus [1] (fun _ => 0x11)) sts_registers 3 (fresh tt)) = 0.
Proof.
  split; [vm_compute; reflexivity|].
  apply (typed_reads_hide_failure (servo_bus [1] (fun _ => 0x11)) sts_registers 3 0
           (fresh tt)).
  vm_compute. reflexivity.
Defined.

(** The four causes, one by one: nothing can be sent; no answer; an answer
    from another ID; an answer with a wrong checksum.  The getter returns 0
    each time. *)
Example read_failures_by_cause :
  let other_id := canned_link [0xFF; 0xFF; 0x02; 0x04; 0x00; 0x34; 0x12; 0xB3] in
  let bad_checksum := canned_link [0xFF; 0xFF; 0x03; 0x04; 0x00; 0x34; 0x12; 0x00] in
  fst (readRegisters dead_link 3 0x38 2 [0; 0] (fresh tt)) = (-1, [0; 0])
  /\ fst (getCurrentPosition dead_link sts_registers 3 (fresh tt)) = 0
  /\ fst (readRegisters (canned_link []) 3 0x38 2 [0; 0] (fresh tt)) = (-1, [0; 0])
  /\ fst (getCurrentPosition (canned_link []) sts_registers 3 (fresh tt)) = 0
  /\ fst (readRegisters other_id 3 0x38 2 [0; 0] (fresh tt)) = (-2, [0; 0])
  /\ fst (getCurrentPosition other_id sts_registers 3 (fresh tt)) = 0
  /\ fst (readRegisters bad_checksum 3 0x38 2 [0; 0] (fresh tt)) = (-3, [0; 0])
  /\ fst (getCurrentPosition bad_checksum sts_registers 3 (fresh tt)) = 0.
Proof. cbv zeta. repeat split; vm_compute; reflexivity. Qed.

(** A good answer is read as it is: 0x1234 here. *)
Example read_success :
  fst (getCurrentPosition
         (canned_link [0xFF; 0xFF; 0x03; 0x04; 0x00; 0x34; 0x12; 0xB2])
         sts_registers 3 (fresh tt)) = 0x1234.
Proof. vm_compute. reflexivity. Qed.

(** The current getter scales a good reading by 0.0065 and drops the
    fraction (0x0101 = 257 gives 1, 0xFC18 = -1000 gives -6); an absent servo
    reads as 0, like a servo that draws no current. *)
Example current_readings :
  fst (getCurrentCurrent (servo_bus [3] (fun _ => 0x01)) sts_registers 3 (fresh tt)) = 1
  /\ fst (getCurrentCurrent
            (servo_bus [3] (fun a => if a =? 0x45 then 0x18 else 0xFC))
            sts_registers 3 (fresh tt)) = -6
  /\ fst (getCurrentCurrent (servo_bus [3] (fun _ => 0)) sts_registers 3 (fresh tt)) = 0
  /\ fst (getCurrentCurrent (servo_bus [] (fun _ => 0x01)) sts_registers 3 (fresh tt)) = 0.
Proof. repeat split; vm_compute; reflexivity. Qed.

(** A servo whose position register holds zero gives the same answer as an
    absent one. *)
Example zero_reading_is_ambiguous :
  fst (readRegisters (servo_bus [3] (fun _ => 0)) 3 0x38 2 [0; 0] (fresh tt)) = (0, [0; 0])
  /\ fst (getCurrentPosition (servo_bus [3] (fun _ => 0)) sts_registers 3 (fresh tt)) = 0
  /\ fst (readRegisters (servo_bus [] (fun _ => 0)) 3 0x38 2 [0; 0] (fresh tt)) = (-1, [0; 0])
  /\ fst (getCurrentPosition (servo_bus [] (fun _ => 0)) sts_registers 3 (fresh tt)) = 0.
Proof. repeat split; vm_compute; reflexivity. Qed.

(** * Further properties *)

(** ** The decoder *)

Section DecoderMore.
Context {E : Type}.

Lemma packet_take (servoId n c : Z) (data rest : list Z) :
  n = Z.of_nat (length data) ->
  take (Z.to_nat (n + 5)) ([0xFF; 0xFF; servoId; n + 1] ++ data ++ [c] ++ rest)
  = [0xFF; 0xFF; servoId; n + 1] ++ data ++ [c].
Proof.
  intros ->.
  replace (Z.to_nat (Z.of_nat (length data) + 5)) with (4 + (length data + 1))%nat by lia.
  cbn [take app Nat.add]. do 4 f_equal.
  rewrite cons_middle, (assoc_L (++) data). rewrite take_app_length'; [done|].
  rewrite length_app. simpl. lia.
Qed.

(** On a packet with a good header, [receiveMessage] is decided by the
    checksum byte [c]. *)
Lemma receiveMessage_packet (servoId c : Z) (data rest out : list Z) (s : Driver E) :
  rxbuf s = [0xFF; 0xFF; servoId; Z.of_nat (length data) + 1] ++ data ++ [c] ++ rest ->
  fst (receiveMessage servoId (Z.of_nat (length data)) out s)
  = if c =? packet_checksum servoId data
    then (0, for_loop 0 (Z.of_nat (length data))
               (fun i o => set o i (get ([0xFF; 0xFF; servoId; Z.of_nat (length data) + 1]
                                         ++ data ++ [c]) (i + 4))) out)
    else (-3, out).
Proof.
  intros Hrx.
  set (n := length data) in *.
  assert (Hlen : length (rxbuf s) = (n + 5 + length rest)%nat).
  { rewrite Hrx. simpl. rewrite length_app. simpl. unfold n. lia. }
  rewrite receiveMessage_full by lia.
  assert (Hhdr : header_ok servoId (Z.of_nat n) (rxbuf s) = true).
  { unfold header_ok. rewrite Hrx. unfold get. simpl. by rewrite !Z.eqb_refl. }
  rewrite Hhdr. cbn [negb]. cbv zeta.
  rewrite Hrx, (packet_take servoId (Z.of_nat n) c data rest eq_refl).
  unfold for_loop at 1.
  replace (Z.to_nat (Z.of_nat n + 4 - 2)) with (length (servoId :: Z.of_nat n + 1 :: data))
    by (simpl; unfold n; lia).
  rewrite (for_iter_ext _ (fun i k => to_byte (k + get ([255; 255; servoId; Z.of_nat n + 1]
              ++ data ++ [c]) (i + 0))))
    by (intros j k; rewrite Z.add_0_r; reflexivity).
  rewrite (sum_loop_byte 0 _ (servoId :: Z.of_nat n + 1 :: data) [c] [255; 255] 2 0);
    [| done | done | done].
  replace (0 + sum_bytes (servoId :: Z.of_nat n + 1 :: data))
    with (servoId + (Z.of_nat n + 1) + sum_bytes data)
    by (unfold sum_bytes; simpl; lia).
  rewrite (assoc_L (++) _ data).
  rewrite (get_middle _ []); [| rewrite length_app; simpl; unfold n; lia].
  rewrite <- (assoc_L (++) _ data).
  unfold packet_checksum. fold n.
  by destruct (c =? _).
Qed.

(** Any receive buffer long enough splits into a four-byte header, [n] data
    bytes, a checksum byte and what follows. *)
Lemma split_packet (n : nat) (l : list Z) :
  (n + 5 <= length l)%nat ->
  exists a b c d data k rest,
    l = [a; b; c; d] ++ data ++ [k] ++ rest /\ length data = n.
Proof.
  intros Hlen.
  destruct l as [|a [|b [|c [|d l]]]]; simpl in Hlen; try lia.
  destruct (drop n l) as [|k rest] eqn:Hdrop.
  { apply (f_equal length) in Hdrop. rewrite length_drop in Hdrop. simpl in Hdrop. lia. }
  exists a, b, c, d, (take n l), k, rest. split.
  - cbn [app]. do 4 f_equal. rewrite <- Hdrop. symmetry. apply take_drop.
  - rewrite length_take. lia.
Qed.

End DecoderMore.

Lemma packet_drop (servoId n c : Z) (data rest : list Z) :
  n = Z.of_nat (length data) ->
  drop (Z.to_nat (n + 5)) ([0xFF; 0xFF; servoId; n + 1] ++ data ++ [c] ++ rest) = rest.
Proof.
  intros ->.
  replace (Z.to_nat (Z.of_nat (length data) + 5)) with (4 + (length data + 1))%nat by lia.
  cbn [drop app Nat.add].
  rewrite cons_middle, (assoc_L (++) data). rewrite drop_app_length'; [done|].
  rewrite length_app. simpl. lia.
Qed.

Lemma copy_out (hdr data tail oold otail : list Z) :
  length hdr = 4%nat ->
  length oold = length data ->
  for_loop 0 (Z.of_nat (length data))
    (fun i o => set o i (get (hdr ++ data ++ tail) (i + 4))) (oold ++ otail)
  = data ++ otail.
Proof.
  intros Hhdr Hlen. unfold for_loop. rewrite Z.sub_0_r, Nat2Z.id.
  rewrite (for_iter_ext _ (fun i o => set o (i + 0) (get (hdr ++ data ++ tail) (i + 4))))
    by (intros j o; rewrite Z.add_0_r; reflexivity).
  apply (copy_loop 0 4 _ data tail hdr [] oold otail 0); [done | done | done |].
  rewrite Hhdr. done.
Qed.

Lemma checksum_separates (k x x' : Z) :
  is_byte x -> is_byte x' ->
  to_byte (Z.lnot (to_byte (k + x))) = to_byte (Z.lnot (to_byte (k + x'))) ->
  x = x'.
Proof.
  intros Hx Hx' Heq.
  rewrite !bitwise_not_byte in Heq by apply to_byte_range.
  unfold is_byte, to_byte in *.
  Z.to_euclidean_division_equations. lia.
Qed.

(** X1.  A packet whose header is good but whose last byte is not the
    checksum of its ID, length and data is refused with code -3: the output
    buffer is left as it was and the whole packet has left the receive
    buffer. *)
Theorem receiveMessage_rejects_bad_checksum {E : Type} (servoId c : Z)
    (data rest out : list Z) (s : Driver E) :
  rxbuf s = [0xFF; 0xFF; servoId; Z.of_nat (length data) + 1] ++ data ++ [c] ++ rest ->
  c <> packet_checksum servoId data ->
  receiveMessage servoId (Z.of_nat (length data)) out s
  = ((-3, out), mkDriver LOW rest (txlog s) (bus s)).
Proof.
  intros Hrx Hc.
  rewrite (surjective_pairing (receiveMessage _ _ _ _)).
  rewrite receiveMessage_state, (receiveMessage_packet servoId c data rest out s Hrx).
  rewrite Hrx, (packet_drop servoId _ c data rest eq_refl).
  by destruct (Z.eqb_spec c (packet_checksum servoId data)).
Qed.

Lemma receiveMessage_rejects_bad_checksum_witness :
  receiveMessage 1 2 [0x09; 0x09]
    (mkDriver HIGH [0xFF; 0xFF; 0x01; 0x03; 0x00; 0x2A; 0xD0; 0x77] [] tt)
  = ((-3, [0x09; 0x09]), mkDriver LOW [0x77] [] tt).
Proof.
  apply (receiveMessage_rejects_bad_checksum 1 0xD0 [0x00; 0x2A] [0x77] [0x09; 0x09]
           (mkDriver HIGH [0xFF; 0xFF; 0x01; 0x03; 0x00; 0x2A; 0xD0; 0x77] [] tt));
    [reflexivity | vm_compute; discriminate].
Defined.

(** X2.  The one-byte checksum catches every change of a single data byte: a
    valid packet in which one data byte has been replaced by another byte is
    refused with code -3. *)
Theorem receiveMessage_detects_altered_byte {E : Type} (servoId x x' : Z)
    (d1 d2 rest out : list Z) (s : Driver E) :
  is_byte x -> is_byte x' -> x <> x' ->
  rxbuf s = [0xFF; 0xFF; servoId; Z.of_nat (length (d1 ++ x :: d2)) + 1]
            ++ (d1 ++ x' :: d2) ++ [packet_checksum servoId (d1 ++ x :: d2)] ++ rest ->
  fst (receiveMessage servoId (Z.of_nat (length (d1 ++ x :: d2))) out s) = (-3, out).
Proof.
  intros Hx Hx' Hne Hrx.
  assert (Hlen : length (d1 ++ x :: d2) = length (d1 ++ x' :: d2))
    by (rewrite !length_app; done).
  rewrite Hlen in Hrx |- *.
  rewrite (receiveMessage_packet servoId _ (d1 ++ x' :: d2) rest out s Hrx).
  destruct (Z.eqb_spec (packet_checksum servoId (d1 ++ x :: d2))
              (packet_checksum servoId (d1 ++ x' :: d2))) as [Heq|_]; [|done].
  exfalso. apply Hne. unfold packet_checksum in Heq. rewrite Hlen in Heq.
  rewrite !sum_bytes_app in Heq.
  change (sum_bytes (x :: d2)) with (x + sum_bytes d2) in Heq.
  change (sum_bytes (x' :: d2)) with (x' + sum_bytes d2) in Heq.
  apply (checksum_separates
           (servoId + (Z.of_nat (length (d1 ++ x' :: d2)) + 1) + sum_bytes d1 + sum_bytes d2));
    [done | done |].
  etrans; [etrans; [|exact Heq]|]; do 3 f_equal; lia.
Qed.

Lemma receiveMessage_detects_altered_byte_witness :
  fst (receiveMessage 1 3 [0; 0; 0]
         (mkDriver LOW [0xFF; 0xFF; 0x01; 0x04; 0x00; 0x35; 0x12; 0xB4] [] tt))
  = (-3, [0; 0; 0]).
Proof.
  apply (receiveMessage_detects_altered_byte 1 0x34 0x35 [0x00] [0x12] [] [0; 0; 0]
           (mkDriver LOW [0xFF; 0xFF; 0x01; 0x04; 0x00; 0x35; 0x12; 0xB4] [] tt));
    [unfold is_byte; lia | unfold is_byte; lia | lia | vm_compute; reflexivity].
Defined.

(** Code 0 comes from a well-formed packet only. *)
Lemma receiveMessage_sound {E : Type} (servoId readLength : Z)
    (out : list Z) (s : Driver E) :
  0 <= readLength ->
  fst (fst (receiveMessage servoId readLength out s)) = 0 ->
  exists data rest,
    Z.of_nat (length data) = readLength
    /\ rxbuf s = [0xFF; 0xFF; servoId; readLength + 1] ++ data
                 ++ [packet_checksum servoId data] ++ rest
    /\ snd (receiveMessage servoId readLength out s)
       = mkDriver LOW rest (txlog s) (bus s)
    /\ forall oold otail,
         out = oold ++ otail -> length oold = length data ->
         snd (fst (receiveMessage servoId readLength out s)) = data ++ otail.
Proof.
  intros Hn Hzero.
  destruct (Z.lt_ge_cases (Z.of_nat (length (rxbuf s))) (readLength + 5)) as [Hshort|Hfull].
  { rewrite (receiveMessage_short servoId readLength out s Hn Hshort) in Hzero.
    discriminate. }
  destruct (split_packet (Z.to_nat readLength) (rxbuf s)) as
    (a & b & c & d & data & k & rest & Hrx & Hlen); [lia|].
  assert (Hnat : Z.of_nat (length data) = readLength) by lia.
  pose proof (receiveMessage_full servoId readLength out s Hn Hfull) as Hfullrun.
  destruct (header_ok servoId readLength (rxbuf s)) eqn:Hhdr;
    [| rewrite Hfullrun in Hzero; discriminate].
  unfold header_ok in Hhdr. rewrite Hrx in Hhdr. unfold get in Hhdr. simpl in Hhdr.
  apply andb_prop in Hhdr as [Hhdr Hd]. apply andb_prop in Hhdr as [Hhdr Hc].
  apply andb_prop in Hhdr as [Ha Hb].
  apply Z.eqb_eq in Ha, Hb, Hc, Hd. subst a b c d.
  rewrite <- Hnat in Hrx, Hzero |- *.
  pose proof (receiveMessage_packet servoId k data rest out s Hrx) as Hrun.
  destruct (Z.eqb_spec k (packet_checksum servoId data)) as [->|Hne];
    [| rewrite Hrun in Hzero; discriminate].
  exists data, rest. split; [done|]. split; [done|]. split.
  - rewrite receiveMessage_state, Hrx.
    by rewrite (packet_drop servoId _ (packet_checksum servoId data) data rest eq_refl).
  - intros oold otail -> Holen. rewrite Hrun. cbn [snd].
    rewrite (assoc_L (++) [255; 255; servoId; Z.of_nat (length data) + 1] data).
    rewrite <- (assoc_L (++) _ data).
    by apply (copy_out [255; 255; servoId; Z.of_nat (length data) + 1] data).
Qed.

(** X3.  [receiveMessage] returns 0 only on a well-formed packet: the receive
    buffer then starts with FF FF, the requested ID, the length byte
    readLength+1, readLength data bytes and their checksum; exactly these
    bytes are consumed and the data bytes are what the output buffer
    receives. *)
Theorem receiveMessage_accepts_only_valid {E : Type} (servoId readLength : Z)
    (out : list Z) (s : Driver E) :
  0 <= readLength ->
  fst (fst (receiveMessage servoId readLength out s)) = 0 ->
  exists data rest,
    Z.of_nat (length data) = readLength
    /\ rxbuf s = [0xFF; 0xFF; servoId; readLength + 1] ++ data
                 ++ [packet_checksum servoId data] ++ rest
    /\ snd (receiveMessage servoId readLength out s)
       = mkDriver LOW rest (txlog s) (bus s)
    /\ forall oold otail,
         out = oold ++ otail -> length oold = length data ->
         snd (fst (receiveMessage servoId readLength out s)) = data ++ otail.
Proof. apply receiveMessage_sound. Qed.

Lemma receiveMessage_accepts_only_valid_witness :
  exists data rest,
    Z.of_nat (length data) = 3
    /\ [0xFF; 0xFF; 0x01; 0x04; 0x00; 0x34; 0x12; 0xB4; 0x55]
       = [0xFF; 0xFF; 1; 3 + 1] ++ data ++ [packet_checksum 1 data] ++ rest
    /\ snd (receiveMessage 1 3 [0; 0; 0]
              (mkDriver LOW [0xFF; 0xFF; 0x01; 0x04; 0x00; 0x34; 0x12; 0xB4; 0x55] [] tt))
       = mkDriver LOW rest [] tt
    /\ forall oold otail,
         [0; 0; 0] = oold ++ otail -> length oold = length data ->
         snd (fst (receiveMessage 1 3 [0; 0; 0]
                     (mkDriver LOW [0xFF; 0xFF; 0x01; 0x04; 0x00; 0x34; 0x12; 0xB4; 0x55]
                        [] tt)))
         = data ++ otail.
Proof.
  apply (receiveMessage_accepts_only_valid 1 3 [0; 0; 0]
           (mkDriver LOW [0xFF; 0xFF; 0x01; 0x04; 0x00; 0x34; 0x12; 0xB4; 0x55] [] tt));
    [lia | vm_compute; reflexivity].
Defined.

(** X4.  When fewer than readLength+5 bytes arrive before the timeout,
    [receiveMessage] returns -1, leaves the output buffer as it was, and the
    bytes that did arrive are gone from the receive buffer. *)
Theorem receiveMessage_timeout {E : Type} (servoId readLength : Z) (out : list Z)
    (s : Driver E) :
  0 <= readLength ->
  Z.of_nat (length (rxbuf s)) < readLength + 5 ->
  receiveMessage servoId readLength out s
  = ((-1, out), mkDriver LOW [] (txlog s) (bus s)).
Proof.
  intros Hn Hshort.
  rewrite (surjective_pairing (receiveMessage _ _ _ _)).
  rewrite receiveMessage_state, (receiveMessage_short servoId readLength out s Hn Hshort).
  by rewrite drop_ge by lia.
Qed.

Lemma receiveMessage_timeout_witness :
  receiveMessage 1 1 [0xFF] (mkDriver LOW [0xFF; 0xFF; 0x01] [] tt)
  = ((-1, [0xFF]), mkDriver LOW [] [] tt).
Proof.
  apply (receiveMessage_timeout 1 1 [0xFF] (mkDriver LOW [0xFF; 0xFF; 0x01] [] tt));
    simpl; lia.
Defined.

(** ** Checksums of the frames sent *)

Lemma checksum_closes (a b : Z) :
  to_byte a = to_byte b -> to_byte (a + to_byte (Z.lnot (to_byte b))) = 0xFF.
Proof.
  intros Hab. rewrite bitwise_not_byte by apply to_byte_range. rewrite <- Hab.
  unfold to_byte. Z.to_euclidean_division_equations. lia.
Qed.

Lemma sum_bytes_snoc (l : list Z) (x : Z) : sum_bytes (l ++ [x]) = sum_bytes l + x.
Proof. rewrite sum_bytes_app. unfold sum_bytes at 2. simpl. lia. Qed.

Lemma sum_bytes_cons (x : Z) (l : list Z) : sum_bytes (x :: l) = x + sum_bytes l.
Proof. reflexivity. Qed.

Lemma to_byte_congr_add (a a' b : Z) : to_byte a = to_byte a' -> to_byte (a + b) = to_byte (a' + b).
Proof. intros H. by rewrite <- to_byte_add_l, H, to_byte_add_l. Qed.

Lemma frame_checksum (id cmd : Z) (params : list Z) :
  to_byte (sum_bytes (drop 2 (frame id cmd params))) = 0xFF.
Proof.
  unfold frame. cbv zeta. cbn [app drop].
  rewrite !sum_bytes_cons, sum_bytes_snoc, !Z.add_assoc.
  apply checksum_closes.
  apply to_byte_congr_add, to_byte_congr_add.
  rewrite (Z.add_comm id), to_byte_add_l. f_equal. lia.
Qed.

(** X5.  Whatever the ID, the command and the parameters (up to the 255 a
    byte-wide count allows), [sendMessage] hands the transport one buffer of
    6 + paramLength bytes that starts with FF FF and whose remaining bytes,
    checksum included, add up to 0xFF modulo 256. *)
Theorem sendMessage_frame_checksum {E : Type} (link : Link E) (id cmd : Z)
    (params : list Z) (s : Driver E) :
  (length params <= 255)%nat ->
  exists buf,
    sent_since s (snd (sendMessage link id cmd (Z.of_nat (length params)) params s)) = [buf]
    /\ length buf = (6 + length params)%nat
    /\ take 2 buf = [0xFF; 0xFF]
    /\ to_byte (sum_bytes (drop 2 buf)) = 0xFF.
Proof.
  intros _. exists (frame id cmd params).
  split; [| split; [apply frame_length | split; [reflexivity | apply frame_checksum]]].
  apply sent_since_app.
  rewrite <- (app_nil_r params) at 2. rewrite sendMessage_run. unfold transmit.
  by destruct (link (bus s) (frame id cmd params)) as [[n answer] e].
Qed.

Lemma sendMessage_frame_checksum_witness :
  exists buf,
    sent_since (fresh tt)
      (snd (sendMessage (servo_bus [1] (fun _ => 0)) 1 instruction.READ 2 [0x38; 0x02]
              (fresh tt))) = [buf]
    /\ length buf = (6 + 2)%nat
    /\ take 2 buf = [0xFF; 0xFF]
    /\ to_byte (sum_bytes (drop 2 buf)) = 0xFF.
Proof.
  apply (sendMessage_frame_checksum (servo_bus [1] (fun _ => 0)) 1 instruction.READ
           [0x38; 0x02] (fresh tt)).
  simpl; lia.
Defined.

Lemma blocks_length (ids positions speeds : list Z) :
  length positions = length ids ->
  length speeds = length ids ->
  length (blocks ids positions speeds) = (7 * length ids)%nat.
Proof.
  revert positions speeds.
  induction ids as [|i ids IH]; intros [|p positions] [|v speeds] Hp Hv;
    try discriminate; [done|].
  cbn [blocks length app]. rewrite IH by (simpl in *; lia). lia.
Qed.

(** X6.  For any number of devices a byte can count, with as many positions
    and speeds, the 8 + 7n bytes [setTargetPositions] puts on the wire start
    with FF FF FE and the bytes after the two sync bytes, checksum included,
    add up to 0xFF modulo 256, also when the length byte has wrapped. *)
Theorem setTargetPositions_checksum {E : Type} (link : Link E) (R : STSRegisters)
    (ids positions speeds : list Z) (s : Driver E) :
  (length ids <= 255)%nat ->
  length positions = length ids ->
  length speeds = length ids ->
  exists buf,
    wire (snd (setTargetPositions link R (Z.of_nat (length ids)) ids positions speeds s))
    = wire s ++ buf
    /\ length buf = (8 + 7 * length ids)%nat
    /\ take 3 buf = [0xFF; 0xFF; 0xFE]
    /\ to_byte (sum_bytes (drop 2 buf)) = 0xFF.
Proof.
  intros _ Hp Hv. eexists. split; [by apply setTargetPositions_wire|].
  split; [| split; [reflexivity|]].
  - cbn [app length]. rewrite length_app, blocks_length by done. simpl. lia.
  - cbn [app drop].
    change (254 :: to_byte (Z.of_nat (length ids) * 7 + 4) :: 131 :: TARGET_POSITION R :: 6
            :: blocks ids positions speeds ++ ?c)
      with ([254; to_byte (Z.of_nat (length ids) * 7 + 4); 131; TARGET_POSITION R; 6]
            ++ blocks ids positions speeds ++ c).
    rewrite (assoc_L (++)), sum_bytes_snoc. apply checksum_closes.
    cbn [app]. rewrite !sum_bytes_cons.
    generalize (sum_bytes (blocks ids positions speeds)). intros x.
    unfold to_byte. Z.to_euclidean_division_equations. lia.
Qed.

Lemma setTargetPositions_checksum_witness :
  exists buf,
    wire (snd (setTargetPositions (servo_bus [1] (fun _ => 0)) sts_registers
                 (Z.of_nat (length (replicate 40 7))) (replicate 40 7)
                 (replicate 40 (-1)) (replicate 40 300) (fresh tt)))
    = wire (fresh tt) ++ buf
    /\ length buf = (8 + 7 * length (replicate 40 7))%nat
    /\ take 3 buf = [0xFF; 0xFF; 0xFE]
    /\ to_byte (sum_bytes (drop 2 buf)) = 0xFF.
Proof.
  apply (setTargetPositions_checksum (servo_bus [1] (fun _ => 0)) sts_registers
           (replicate 40 7) (replicate 40 (-1)) (replicate 40 300) (fresh tt));
    [rewrite length_replicate; lia | reflexivity | reflexivity].
Defined.

(** ** Writes built on [writeRegisters] *)

Lemma low_byte_wrap (v k : Z) : low_byte (v + 65536 * k) = low_byte v.
Proof.
  unfold low_byte. replace (v + 65536 * k) with (v + (256 * k) * 256) by lia.
  apply Z.mod_add. lia.
Qed.

Lemma high_byte_wrap (v k : Z) : high_byte (v + 65536 * k) = high_byte v.
Proof.
  unfold high_byte. replace (v + 65536 * k) with (v + (256 * k) * 256) by lia.
  rewrite Z.div_add by lia.
  replace (v `div` 256 + 256 * k) with (v `div` 256 + k * 256) by lia.
  apply Z.mod_add. lia.
Qed.

(** X7.  [trigerAction] hands the transport the six bytes FF FF FE 02 05 FA,
    the zero-parameter ACTION frame to the broadcast address, reads nothing
    back, and returns true exactly when the transport reports 6 bytes sent. *)
Theorem trigerAction_frame {E : Type} (link : Link E) (s : Driver E) :
  trigerAction link s
  = let '(count, answer, e) := link (bus s) [0xFF; 0xFF; 0xFE; 0x02; 0x05; 0xFA] in
    (count =? 6,
     mkDriver LOW (rxbuf s ++ answer) (txlog s ++ [[0xFF; 0xFF; 0xFE; 0x02; 0x05; 0xFA]]) e).
Proof.
  unfold trigerAction. cbv zeta. rewrite bind_run.
  pose proof (sendMessage_run link 0xFE instruction.ACTION [] [0] s) as Hsend.
  change (Z.of_nat (length (@nil Z))) with 0 in Hsend.
  change ([] ++ [0]) with [0] in Hsend.
  rewrite Hsend. unfold transmit.
  change (frame 254 instruction.ACTION []) with [255; 255; 254; 2; 5; 250].
  by destruct (link (bus s) [255; 255; 254; 2; 5; 250]) as [[count answer] e].
Qed.

(** X8.  [setTargetPosition] sends one 13-byte frame to the given ID, WRITE or
    REGWRITE by [asynchronous], whose parameters are the target-position
    register, the position low byte first, two zero bytes and the speed low
    byte first, and returns true exactly when the transport reports 13 bytes.
    Only the low 16 bits of position and speed reach the wire: adding a
    multiple of 65536 to either changes nothing. *)
Theorem setTargetPosition_frame {E : Type} (link : Link E) (R : STSRegisters)
    (servoId position speed k j : Z) (asynchronous : bool) (s : Driver E) :
  (let buf := frame servoId
                (if asynchronous then instruction.REGWRITE else instruction.WRITE)
                [TARGET_POSITION R; position `mod` 256; (position `div` 256) `mod` 256;
                 0; 0; speed `mod` 256; (speed `div` 256) `mod` 256] in
   let '(count, answer, e) := link (bus s) buf in
   setTargetPosition link R servoId position speed asynchronous s
   = (count =? 13, mkDriver LOW (rxbuf s ++ answer) (txlog s ++ [buf]) e)
     /\ length buf = 13%nat)
  /\ setTargetPosition link R servoId (position + 65536 * k) (speed + 65536 * j)
       asynchronous s
     = setTargetPosition link R servoId position speed asynchronous s.
Proof.
  split.
  - cbv zeta. rewrite setTargetPosition_run. unfold transmit.
    fold (low_byte position) (high_byte position) (low_byte speed) (high_byte speed).
    destruct (link (bus s) _) as [[count answer] e]. by destruct asynchronous.
  - rewrite !setTargetPosition_run.
    by rewrite !low_byte_wrap, !high_byte_wrap.
Qed.

(** ** The direction pin *)

Section Pin.
Context {E : Type}.
Variable link : Link E.

Lemma sendMessage_pin (servoId commandID paramLength : Z) (parameters : list Z)
    (s : Driver E) :
  dirPin_level (snd (sendMessage link servoId commandID paramLength parameters s)) = LOW.
Proof.
  unfold sendMessage. cbv zeta. run_monad.
  by destruct (link (bus s) _) as [[n answer] e].
Qed.

Lemma only_writes_refl (s : Driver E) : only_writes 0 s s.
Proof.
  split; [done|]. split; [lia|]. exists []. by rewrite app_nil_r.
Qed.

Lemma only_writes_trans (j k : nat) (s s' s'' : Driver E) :
  only_writes j s s' -> only_writes k s' s'' -> only_writes (j + k) s s''.
Proof.
  intros (Hp & Hl & a & Hr) (Hp' & Hl' & a' & Hr').
  split; [congruence|]. split; [lia|].
  exists (a ++ a'). by rewrite Hr', Hr, (assoc_L (++)).
Qed.

Lemma port_write_only (buf : list Z) (s : Driver E) :
  only_writes 1 s (snd (port_write link buf s)).
Proof.
  unfold port_write. destruct (link (bus s) buf) as [[n answer] e]. cbn [snd].
  split; [done|]. split; [cbn [txlog]; rewrite length_app; simpl; lia|].
  by exists answer.
Qed.

Lemma only_writes_snoc (j : nat) (buf : list Z) (s s' : Driver E) :
  only_writes j s s' -> only_writes (S j) s (snd (port_write link buf s')).
Proof.
  intros H. replace (S j) with (j + 1)%nat by lia.
  eapply only_writes_trans; [exact H | apply port_write_only].
Qed.

Lemma sync_body_only (servoIds positions speeds : list Z) (index checksum : Z)
    (s : Driver E) :
  only_writes 5 s (snd (sync_body link servoIds positions speeds index checksum s)).
Proof.
  unfold sync_body, sendAndUpdateChecksum. cbv zeta.
  rewrite !bind_run. unfold mret, M_ret. cbn [snd].
  repeat apply only_writes_snoc. apply only_writes_refl.
Qed.

Lemma sync_loop_only (servoIds positions speeds : list Z) (n : nat) :
  forall (i c : Z) (s : Driver E),
    only_writes (5 * n) s
      (snd (for_iterM n i (sync_body link servoIds positions speeds) c s)).
Proof.
  induction n as [|n IH]; intros i c s.
  - apply only_writes_refl.
  - cbn [for_iterM]. rewrite bind_run.
    replace (5 * S n)%nat with (5 + 5 * n)%nat by lia.
    eapply only_writes_trans; [apply sync_body_only | apply IH].
Qed.

End Pin.

Lemma setTargetPositions_only {E : Type} (link : Link E) (R : STSRegisters)
    (n : nat) (servoIds positions speeds : list Z) (s : Driver E) :
  only_writes (8 + 5 * n) s
    (snd (setTargetPositions link R (Z.of_nat n) servoIds positions speeds s)).
Proof.
  unfold setTargetPositions. cbv zeta.
  change (fun index checksum : Z => _) with (sync_body link servoIds positions speeds).
  rewrite !bind_run. unfold mret at 1, M_ret at 1. cbn [snd].
  unfold for_loopM. rewrite Z.sub_0_r, Nat2Z.id.
  replace (8 + 5 * n)%nat with (S (7 + 5 * n)) by lia.
  apply only_writes_snoc.
  eapply only_writes_trans; [| apply sync_loop_only].
  repeat apply only_writes_snoc. apply only_writes_refl.
Qed.

(** X9.  [setTargetPositions] never touches the direction pin and never reads:
    whatever the arrays, after the call the pin is at the level it had
    before, the receive buffer has lost nothing, and the frame has gone to
    the transport in 8 + 5n separate calls of [port_->write] (n the number of
    servos). *)
Theorem setTargetPositions_only_writes {E : Type} (link : Link E) (R : STSRegisters)
    (n : nat) (servoIds positions speeds : list Z) (s : Driver E) :
  let s' := snd (setTargetPositions link R (Z.of_nat n) servoIds positions speeds s) in
  dirPin_level s' = dirPin_level s
  /\ length (txlog s') = (length (txlog s) + (8 + 5 * n))%nat
  /\ exists answers, rxbuf s' = rxbuf s ++ answers.
Proof. exact (setTargetPositions_only link R n servoIds positions speeds s). Qed.

(** X10.  Every operation built on [sendMessage] and [receiveMessage] leaves
    the direction pin low, whatever it finds and whatever the transport and
    the bus do: the line is never left in transmit direction. *)
Theorem pin_low_after {E : Type} (link : Link E) (servoId reg len : Z)
    (buffer : list Z) (asynchronous : bool) (s : Driver E) :
  dirPin_level (snd (ping link servoId s)) = LOW
  /\ dirPin_level (snd (writeRegisters link servoId reg len buffer asynchronous s)) = LOW
  /\ dirPin_level (snd (readRegisters link servoId reg len buffer s)) = LOW
  /\ dirPin_level (snd (trigerAction link s)) = LOW.
Proof.
  split; [| split; [| split]].
  - rewrite ping_run. unfold transmit.
    destruct (link (bus s) _) as [[send answer] e].
    destruct (negb (send =? 6)); [done|].
    match goal with |- context [receiveMessage ?i ?n ?o ?s1] =>
      pose proof (receiveMessage_state i n o s1) as Hst;
      destruct (receiveMessage i n o s1) as [[rd response] s2] end.
    simpl in Hst. subst s2. by destruct (rd <? 0).
  - unfold writeRegisters. cbv zeta. rewrite bind_run. unfold mret, M_ret. cbn [snd].
    apply sendMessage_pin.
  - rewrite readRegisters_run. unfold transmit.
    destruct (link (bus (snd (flush s))) _) as [[send answer] e].
    destruct (negb (send =? 8)); [done|].
    match goal with |- context [receiveMessage ?i ?n ?o ?s1] =>
      pose proof (receiveMessage_state i n o s1) as Hst;
      destruct (receiveMessage i n o s1) as [[rd result] s2] end.
    simpl in Hst. subst s2. by destruct (rd <? 0).
  - unfold trigerAction. cbv zeta. rewrite bind_run. unfold mret, M_ret. cbn [snd].
    apply sendMessage_pin.
Qed.

(** ** Registers written and read back *)

Lemma answer_packet_rx (id status : Z) (data : list Z) :
  answer_packet id status data
  = [0xFF; 0xFF; id; Z.of_nat (length (status :: data)) + 1] ++ (status :: data)
    ++ [to_byte (Z.lnot (to_byte (id + (Z.of_nat (length (status :: data)) + 1)
                                  + sum_bytes (status :: data))))] ++ [].
Proof.
  unfold answer_packet. cbn [length app].
  rewrite sum_bytes_cons.
  replace (Z.of_nat (S (length data)) + 1) with (Z.of_nat (length data) + 2) by lia.
  replace (id + (Z.of_nat (length data) + 2) + (status + sum_bytes data))
    with (id + (Z.of_nat (length data) + 2) + status + sum_bytes data) by lia.
  reflexivity.
Qed.

Section ReadsMore.
Context {E : Type}.
Variable link : Link E.

Lemma flush_state (s : Driver E) :
  Forall is_byte (rxbuf s) ->
  snd (flush s) = mkDriver (dirPin_level s) [] (txlog s) (bus s).
Proof.
  intros Hrx. pose proof (flush_empties s Hrx) as Hempty.
  destruct (flush_loop_keeps (S (length (rxbuf s))) s) as (Htx & Hbus & Hdir).
  fold (flush s) in Htx, Hbus, Hdir.
  destruct (snd (flush s)) as [d r t b]. cbn in Hempty, Htx, Hbus, Hdir.
  by subst.
Qed.

(** A register read answered by a packet with [data]: the register bytes land
    in the output buffer, whatever the status byte.  With 253 register bytes
    the length byte of the answer is 0xFF, the largest a byte can hold. *)
Lemma readRegisters_answered (servoId reg status : Z) (data oold otail : list Z)
    (e : E) (s : Driver E) :
  Forall is_byte (rxbuf s) ->
  (length data <= 253)%nat ->
  link (bus s) (frame servoId instruction.READ [reg; Z.of_nat (length data)])
  = (8, answer_packet servoId status data, e) ->
  length oold = length data ->
  readRegisters link servoId reg (Z.of_nat (length data)) (oold ++ otail) s
  = ((0, data ++ otail),
     mkDriver LOW []
       (txlog s ++ [frame servoId instruction.READ [reg; Z.of_nat (length data)]]) e).
Proof.
  intros Hrx Hlen Hlink Hout.
  rewrite readRegisters_run, (flush_state s Hrx). unfold transmit. cbn [bus rxbuf txlog].
  rewrite Hlink. cbn [Z.eqb Pos.eqb negb app].
  rewrite to_byte_small by (unfold is_byte; lia).
  replace (Z.of_nat (length data) + 1) with (Z.of_nat (length (status :: data)))
    by (simpl; lia).
  rewrite array_nat. rewrite <- (app_nil_r (replicate _ 0)).
  rewrite (receiveMessage_ok servoId (status :: data) [] _ []);
    [| cbn [rxbuf]; apply answer_packet_rx | by rewrite length_replicate].
  change (0 <? 0) with false. cbv iota. do 2 f_equal.
  unfold for_loop. rewrite Z.sub_0_r, Nat2Z.id.
  rewrite (for_iter_ext _ (fun i o => set o (i + 0) (get ((status :: data) ++ []) (i + 1))))
    by (intros j o; rewrite Z.add_0_r; reflexivity).
  apply (copy_loop 0 1 _ data [] [status] [] oold otail 0); done.
Qed.

End ReadsMore.

(** ** The register servo *)

Lemma frame_cons (id cmd reg : Z) (bytes : list Z) :
  exists chk,
    frame id cmd (reg :: bytes)
    = 0xFF :: 0xFF :: id :: to_byte (Z.of_nat (length (reg :: bytes)) + 2) :: cmd :: reg
      :: (bytes ++ [chk]).
Proof. eexists. reflexivity. Qed.

Lemma register_servo_write (id reg : Z) (bytes : list Z) (mem : Z -> Z) :
  register_servo id mem (frame id instruction.WRITE (reg :: bytes))
  = (Z.of_nat (length bytes) + 7, [], store mem reg bytes).
Proof.
  destruct (frame_cons id instruction.WRITE reg bytes) as [chk Hframe].
  assert (Hgen : forall buf,
             buf = 0xFF :: 0xFF :: id :: to_byte (Z.of_nat (length (reg :: bytes)) + 2)
                   :: instruction.WRITE :: reg :: (bytes ++ [chk]) ->
             register_servo id mem buf
             = (Z.of_nat (length buf), [], store mem reg bytes)).
  { intros buf ->. unfold register_servo. cbv zeta iota beta.
    rewrite removelast_last, <- Hframe.
    by rewrite bool_decide_eq_true_2 by reflexivity. }
  rewrite (Hgen _ Hframe), frame_length. do 2 f_equal. simpl. lia.
Qed.

Lemma register_servo_read (id reg n : Z) (mem : Z -> Z) :
  register_servo id mem (frame id instruction.READ [reg; n])
  = (8, status_packet id (load mem reg (Z.to_nat n)), mem).
Proof.
  destruct (frame_cons id instruction.READ reg [n]) as [chk Hframe].
  assert (Hgen : forall buf,
             buf = 0xFF :: 0xFF :: id :: to_byte (Z.of_nat (length [reg; n]) + 2)
                   :: instruction.READ :: reg :: ([n] ++ [chk]) ->
             register_servo id mem buf
             = (Z.of_nat (length buf), status_packet id (load mem reg (Z.to_nat n)), mem)).
  { intros buf ->. unfold register_servo. cbv zeta iota beta. cbn [app removelast].
    rewrite bool_decide_eq_false_2.
    2:{ intros Heq. destruct (frame_cons id instruction.WRITE reg [n]) as [chk' Hw].
        rewrite Hw in Heq. discriminate Heq. }
    rewrite get_0. change (n :: [chk]) with ([n] ++ [chk]). rewrite <- Hframe.
    by rewrite bool_decide_eq_true_2 by reflexivity. }
  rewrite (Hgen _ Hframe). reflexivity.
Qed.

Lemma load_store (mem : Z -> Z) (reg : Z) (bytes : list Z) :
  load (store mem reg bytes) reg (length bytes) = bytes.
Proof.
  unfold load. apply list_eq. intros i.
  rewrite list_lookup_fmap.
  destruct (decide (i < length bytes)%nat) as [Hi|Hi].
  - rewrite lookup_seq_lt by done. cbn [fmap option_fmap option_map Nat.add].
    unfold store.
    destruct (Z.leb_spec reg (reg + Z.of_nat i)); [|lia].
    destruct (Z.ltb_spec (reg + Z.of_nat i) (reg + Z.of_nat (length bytes))); [|lia].
    cbn [andb]. unfold get.
    replace (Z.to_nat (reg + Z.of_nat i - reg)) with i by lia.
    destruct (lookup_lt_is_Some_2 bytes i Hi) as [x Hx]. by rewrite Hx.
  - rewrite lookup_seq_ge by lia. cbn. symmetry. apply lookup_ge_None. lia.
Qed.

(** Write then read on the register servo. *)
Lemma servo_write_read (id reg : Z) (bytes oold otail : list Z) (s : Driver (Z -> Z)) :
  Forall is_byte (rxbuf s) ->
  (length bytes <= 252)%nat ->
  length oold = length bytes ->
  let w := writeRegisters (register_servo id) id reg (Z.of_nat (length bytes)) bytes
             false s in
  w = (true, mkDriver LOW (rxbuf s)
               (txlog s ++ [frame id instruction.WRITE (reg :: bytes)])
               (store (bus s) reg bytes))
  /\ fst (readRegisters (register_servo id) id reg (Z.of_nat (length bytes))
            (oold ++ otail) (snd w))
     = (0, bytes ++ otail).
Proof.
  intros Hrx Hlen Hout w.
  assert (Hw : w = (true, mkDriver LOW (rxbuf s)
                            (txlog s ++ [frame id instruction.WRITE (reg :: bytes)])
                            (store (bus s) reg bytes))).
  { unfold w. pose proof (writeRegisters_run (register_servo id) id reg bytes [] false s
                            ltac:(lia)) as Hrun.
    rewrite app_nil_r in Hrun. rewrite Hrun. unfold transmit.
    rewrite register_servo_write, Z.eqb_refl, app_nil_r. reflexivity. }
  split; [done|]. rewrite Hw. cbn [snd].
  rewrite (readRegisters_answered (register_servo id) id reg 0 bytes oold otail
             (store (bus s) reg bytes)); [done | done | lia | | done].
  cbn [bus]. rewrite register_servo_read, Nat2Z.id, load_store. reflexivity.
Qed.

Lemma load_length (mem : Z -> Z) (reg : Z) (n : nat) : length (load mem reg n) = n.
Proof. unfold load. by rewrite length_map, length_seq. Qed.

(** A read on the register servo returns the table's bytes. *)
Lemma servo_read (id reg : Z) (n : nat) (oold otail : list Z) (s : Driver (Z -> Z)) :
  Forall is_byte (rxbuf s) ->
  (n <= 253)%nat ->
  length oold = n ->
  readRegisters (register_servo id) id reg (Z.of_nat n) (oold ++ otail) s
  = ((0, load (bus s) reg n ++ otail),
     mkDriver LOW [] (txlog s ++ [frame id instruction.READ [reg; Z.of_nat n]]) (bus s)).
Proof.
  intros Hrx Hn Hout.
  pose proof (readRegisters_answered (register_servo id) id reg 0 (load (bus s) reg n)
                oold otail (bus s) s Hrx) as Hread.
  rewrite load_length in Hread. apply Hread; [done | | done].
  by rewrite register_servo_read, Nat2Z.id.
Qed.

Lemma sign_bit_decode_range (vel : Z) : -32767 <= sign_bit_decode vel <= 32767.
Proof.
  unfold sign_bit_decode. cbv zeta. rewrite clear_bit_15.
  pose proof (Z.mod_pos_bound vel 32768 ltac:(lia)) as Hm.
  destruct (negb _); [rewrite to_int16_small by lia|]; lia.
Qed.

(** X11.  Writing up to 252 bytes to a servo's registers and reading as many
    back from the same start register returns the bytes written: the write
    reports success and puts one WRITE frame on the wire, the read returns
    status 0 and the bytes, in order, in the output buffer. *)
Theorem register_write_read_round_trip (id reg : Z) (bytes oold otail : list Z)
    (s : Driver (Z -> Z)) :
  Forall is_byte (rxbuf s) ->
  (length bytes <= 252)%nat ->
  length oold = length bytes ->
  let w := writeRegisters (register_servo id) id reg (Z.of_nat (length bytes)) bytes
             false s in
  fst w = true
  /\ sent_since s (snd w) = [spec_frame id instruction.WRITE (reg :: bytes)]
  /\ fst (readRegisters (register_servo id) id reg (Z.of_nat (length bytes))
            (oold ++ otail) (snd w))
     = (0, bytes ++ otail).
Proof.
  intros Hrx Hlen Hout.
  destruct (servo_write_read id reg bytes oold otail s Hrx ltac:(lia) Hout) as [Hw Hr].
  cbv zeta in *. split; [by rewrite Hw|]. split; [|done].
  rewrite Hw. cbn [snd]. apply sent_since_app. cbn [txlog].
  by rewrite frame_is_spec_frame by (simpl; lia).
Qed.

Lemma register_write_read_round_trip_witness :
  let s := mkDriver LOW [0x55] [] (fun _ : Z => 0) in
  let w := writeRegisters (register_servo 1) 1 0x2A (Z.of_nat (length [0x10; 0x27; 0x00]))
             [0x10; 0x27; 0x00] false s in
  fst w = true
  /\ sent_since s (snd w) = [spec_frame 1 instruction.WRITE (0x2A :: [0x10; 0x27; 0x00])]
  /\ fst (readRegisters (register_servo 1) 1 0x2A (Z.of_nat (length [0x10; 0x27; 0x00]))
            ([0; 0; 0] ++ [0x09]) (snd w))
     = (0, [0x10; 0x27; 0x00] ++ [0x09]).
Proof.
  apply (register_write_read_round_trip 1 0x2A [0x10; 0x27; 0x00] [0; 0; 0] [0x09]
           (mkDriver LOW [0x55] [] (fun _ : Z => 0)));
    [repeat constructor; unfold is_byte; lia | simpl; lia | reflexivity].
Defined.

(** X12.  The typed helpers agree with each other: a byte written with
    [writeRegister] (or with [setTargetAcceleration], to the acceleration
    register) is read back by [readRegister], and a 16-bit signed value written
    with [writeTwoBytesRegister] is read back by [readTwoBytesRegister], sign
    included. *)
Theorem typed_register_round_trip (R : STSRegisters) (id reg b v : Z)
    (s : Driver (Z -> Z)) :
  Forall is_byte (rxbuf s) ->
  is_byte b ->
  -32768 <= v <= 32767 ->
  let link := register_servo id in
  fst (readRegister link id reg (snd (writeRegister link id reg b false s))) = b
  /\ fst (readRegister link id (TARGET_ACCELERATION R)
            (snd (setTargetAcceleration link R id b false s))) = b
  /\ fst (readTwoBytesRegister link id reg (snd (writeTwoBytesRegister link id reg v false s)))
     = v.
Proof.
  intros Hrx Hb Hv link.
  assert (Hone : forall r, fst (readRegister link id r (snd (writeRegister link id r b false s)))
                           = b).
  { intros r.
    destruct (servo_write_read id r [b] [0] [] s Hrx ltac:(simpl; lia) eq_refl) as [_ Hr].
    cbv zeta in Hr. rewrite readRegister_run.
    change (writeRegister link id r b false s)
      with (writeRegisters (register_servo id) id r (Z.of_nat (length [b])) [b] false s).
    change (readRegisters link id r 1 [0])
      with (readRegisters (register_servo id) id r (Z.of_nat (length [b])) ([0] ++ [])).
    destruct (readRegisters _ _ _ _ _ _) as [[rc result] s1]. cbn [fst] in Hr.
    by injection Hr as -> ->. }
  split; [apply Hone|]. split; [apply Hone|].
  destruct (servo_write_read id reg [low_byte v; high_byte v] [0; 0] [] s Hrx
              ltac:(simpl; lia) eq_refl) as [_ Hr].
  cbv zeta in Hr. rewrite readTwoBytesRegister_run.
  assert (Hw : writeTwoBytesRegister link id reg v false s
               = writeRegisters (register_servo id) id reg
                   (Z.of_nat (length [low_byte v; high_byte v]))
                   [low_byte v; high_byte v] false s).
  { unfold writeTwoBytesRegister. cbv zeta.
    rewrite shiftr_8_land_255, land_255.
    by rewrite (to_byte_small _ (low_byte_range _)), (to_byte_small _ (high_byte_range _)). }
  rewrite Hw.
  change (readRegisters link id reg 2 [0; 0])
    with (readRegisters (register_servo id) id reg
            (Z.of_nat (length [low_byte v; high_byte v])) ([0; 0] ++ [])).
  destruct (readRegisters _ _ _ _ _ _) as [[rc result] s1]. cbn [fst] in Hr.
  injection Hr as -> ->. cbn [fst app].
  change (0 <? 0) with false. cbv iota.
  rewrite get_0, get_1, bytes_recombine. by apply to_int16_small; lia.
Qed.

Lemma typed_register_round_trip_witness :
  let link := register_servo 1 in
  let s := fresh (fun _ : Z => 0) in
  fst (readRegister link 1 0x1F (snd (writeRegister link 1 0x1F 1 false s))) = 1
  /\ fst (readRegister link 1 (TARGET_ACCELERATION sts_registers)
            (snd (setTargetAcceleration link sts_registers 1 1 false s))) = 1
  /\ fst (readTwoBytesRegister link 1 0x1F
            (snd (writeTwoBytesRegister link 1 0x1F (-300) false s)))
     = -300.
Proof.
  apply (typed_register_round_trip sts_registers 1 0x1F 1 (-300) (fresh (fun _ : Z => 0)));
    [constructor | unfold is_byte; lia | lia].
Defined.

(** X13.  [readRegisters] does not look at the status byte of the answer: a
    well-formed answer of up to 253 register bytes (the most for which the
    length field of the answer fits in a byte) is accepted with code 0 and
    its register bytes copied to the output buffer whatever status the servo
    reports, an error status included. *)
Theorem readRegisters_discards_status {E : Type} (link : Link E)
    (servoId reg status : Z) (data oold otail : list Z) (e : E) (s : Driver E) :
  Forall is_byte (rxbuf s) ->
  (length data <= 253)%nat ->
  link (bus s) (frame servoId instruction.READ [reg; Z.of_nat (length data)])
  = (8, answer_packet servoId status data, e) ->
  length oold = length data ->
  readRegisters link servoId reg (Z.of_nat (length data)) (oold ++ otail) s
  = ((0, data ++ otail),
     mkDriver LOW []
       (txlog s ++ [frame servoId instruction.READ [reg; Z.of_nat (length data)]]) e).
Proof. apply readRegisters_answered. Qed.

(** 253 register bytes under the error status 0x20: the answer's length
    field is 0xFF. *)
Lemma readRegisters_discards_status_witness :
  get (answer_packet 3 0x20 (replicate 253 0x11)) 3 = 0xFF
  /\ readRegisters (canned_link (answer_packet 3 0x20 (replicate 253 0x11))) 3 0x38
       (Z.of_nat (length (replicate 253 0x11))) (replicate 253 0 ++ []) (fresh tt)
     = ((0, replicate 253 0x11 ++ []),
        mkDriver LOW []
          (txlog (fresh tt)
           ++ [frame 3 instruction.READ [0x38; Z.of_nat (length (replicate 253 0x11))]]) tt).
Proof.
  split; [vm_compute; reflexivity|].
  apply (readRegisters_discards_status
           (canned_link (answer_packet 3 0x20 (replicate 253 0x11)))
           3 0x38 0x20 (replicate 253 0x11) (replicate 253 0) [] tt (fresh tt));
    [constructor | simpl; lia | reflexivity | reflexivity].
Defined.

Lemma get_is_byte (l : list Z) (i : Z) : Forall is_byte l -> is_byte (get l i).
Proof.
  intros Hl. unfold get.
  destruct (l !! Z.to_nat i) as [x|] eqn:Hx; cbn [default]; [|unfold is_byte; lia].
  by apply (Forall_lookup_1 _ _ _ _ Hl Hx).
Qed.

(** X25.  A read of 254 registers cannot succeed: [readRegisters] asks
    [receiveMessage] for 255 bytes, and [receiveMessage] compares the length
    byte of the answer with 256, which no byte equals.  Whatever bytes the
    bus delivers, the read fails with code -1 or -2 and the output buffer is
    left as it was. *)
Theorem readRegisters_254_fails {E : Type} (link : Link E) (servoId reg : Z)
    (out : list Z) (s : Driver E) :
  Forall is_byte (rxbuf s) ->
  (forall e buf, Forall is_byte (snd (fst (link e buf)))) ->
  fst (readRegisters link servoId reg 254 out s) = (-1, out)
  \/ fst (readRegisters link servoId reg 254 out s) = (-2, out).
Proof.
  intros Hrx Hlink.
  rewrite readRegisters_run, (flush_state s Hrx). unfold transmit. cbn [bus rxbuf txlog].
  pose proof (Hlink (bus s) (frame servoId instruction.READ [reg; 254])) as Hans.
  destruct (link (bus s) _) as [[send answer] e]. cbn [fst snd] in Hans.
  destruct (negb (send =? 8)); [by left|].
  change (to_byte (254 + 1)) with 255. cbn [app].
  match goal with |- context [receiveMessage ?i ?n ?o ?s1] =>
    pose proof (receiveMessage_short i n o s1 ltac:(lia)) as Hshort;
    pose proof (receiveMessage_full i n o s1 ltac:(lia)) as Hfull;
    destruct (receiveMessage i n o s1) as [[rd result] s2] end.
  cbn [fst rxbuf] in Hshort, Hfull.
  destruct (Z_lt_le_dec (Z.of_nat (length answer)) (255 + 5)) as [Hlt|Hge].
  - injection (Hshort Hlt) as -> _. by left.
  - specialize (Hfull Hge).
    assert (Hhead : header_ok servoId 255 answer = false).
    { unfold header_ok. pose proof (get_is_byte answer 3 Hans) as Hb.
      destruct (Z.eqb_spec (get answer 3) (255 + 1)) as [Heq|_];
        [unfold is_byte in Hb; lia | by rewrite !andb_false_r]. }
    rewrite Hhead in Hfull. injection Hfull as -> _. by right.
Qed.

(** A servo that answers the request in full, 254 register bytes under a
    length byte wrapped to 0: the read is refused with code -2. *)
Lemma readRegisters_254_fails_witness :
  let answer := [0xFF; 0xFF; 3; 0x00; 0x00] ++ replicate 254 0x11 ++ [0x1E] in
  fst (readRegisters (canned_link answer) 3 0x38 254 (replicate 254 0) (fresh tt))
  = (-2, replicate 254 0).
Proof.
  cbv zeta.
  destruct (readRegisters_254_fails
              (canned_link ([0xFF; 0xFF; 3; 0x00; 0x00] ++ replicate 254 0x11 ++ [0x1E]))
              3 0x38 (replicate 254 0) (fresh tt)) as [Hfail|Hfail].
  - constructor.
  - intros e buf. unfold canned_link, is_byte. cbn [fst snd].
    refine (bool_decide_unpack _ _). vm_compute. exact I.
  - exfalso. vm_compute in Hfail. discriminate.
  - exact Hfail.
Defined.

(** X14.  [readRegisters] starts by emptying the receive buffer: bytes left
    over from an earlier exchange have no influence on the read, which runs
    as it would from an empty buffer. *)
Theorem readRegisters_flushes_stale_input {E : Type} (link : Link E)
    (servoId reg readLength : Z) (out : list Z) (s : Driver E) :
  Forall is_byte (rxbuf s) ->
  readRegisters link servoId reg readLength out s
  = readRegisters link servoId reg readLength out
      (mkDriver (dirPin_level s) [] (txlog s) (bus s)).
Proof.
  intros Hrx. rewrite !readRegisters_run.
  rewrite (flush_state s Hrx).
  by rewrite (flush_state (mkDriver (dirPin_level s) [] (txlog s) (bus s)))
    by constructor.
Qed.

Lemma readRegisters_flushes_stale_input_witness :
  readRegisters (servo_bus [3] (fun _ => 0x11)) 3 0x38 2 [0; 0]
    (mkDriver LOW [0x01; 0xFF; 0x7F] [] tt)
  = readRegisters (servo_bus [3] (fun _ => 0x11)) 3 0x38 2 [0; 0]
      (mkDriver LOW [] [] tt).
Proof.
  apply (readRegisters_flushes_stale_input (servo_bus [3] (fun _ => 0x11)) 3 0x38 2 [0; 0]
           (mkDriver LOW [0x01; 0xFF; 0x7F] [] tt)).
  repeat constructor; unfold is_byte; lia.
Defined.

(** X15.  [ping] does not empty the receive buffer first: when a byte other
    than 0xFF is waiting there, the ping reports no servo, whatever the servo
    answers. *)
Theorem ping_fails_on_stale_input {E : Type} (link : Link E) (servoId b : Z)
    (rest : list Z) (s : Driver E) :
  rxbuf s = b :: rest ->
  b <> 0xFF ->
  fst (ping link servoId s) = false.
Proof.
  intros Hrx Hb. rewrite ping_run. unfold transmit.
  destruct (link (bus s) _) as [[send answer] e].
  destruct (negb (send =? 6)); [done|].
  set (s1 := mkDriver LOW (rxbuf s ++ answer) _ e).
  destruct (Z.lt_ge_cases (Z.of_nat (length (rxbuf s1))) (1 + 5)) as [Hshort|Hfull].
  - pose proof (receiveMessage_short servoId 1 [255] s1 ltac:(lia) Hshort) as Hrun.
    destruct (receiveMessage servoId 1 [255] s1) as [[rd response] s2].
    cbn [fst] in Hrun. by injection Hrun as -> _.
  - pose proof (receiveMessage_full servoId 1 [255] s1 ltac:(lia) Hfull) as Hrun.
    assert (Hhdr : header_ok servoId 1 (rxbuf s1) = false).
    { unfold header_ok, s1. cbn [rxbuf]. rewrite Hrx. cbn [app]. rewrite get_0.
      by destruct (Z.eqb_spec b 255). }
    rewrite Hhdr in Hrun. cbn [negb] in Hrun.
    destruct (receiveMessage servoId 1 [255] s1) as [[rd response] s2].
    cbn [fst] in Hrun. by injection Hrun as -> _.
Qed.

Lemma ping_fails_on_stale_input_witness :
  fst (ping (servo_bus [3] (fun _ => 0)) 3 (mkDriver LOW [0x00] [] tt)) = false.
Proof.
  apply (ping_fails_on_stale_input (servo_bus [3] (fun _ => 0)) 3 0x00 []
           (mkDriver LOW [0x00] [] tt)); [reflexivity | lia].
Defined.

(** X16.  What the status getters return for a servo whose register table is
    [mem]: the position is the little-endian 16-bit two's-complement value of
    the two position registers; the temperature getter reads two registers
    as well, so its high byte is the register after the temperature; [isMoving]
    tells whether the moving-status register is non-zero; the speed is the
    sign-bit decoding of the two speed registers. *)
Theorem status_getters_decode (R : STSRegisters) (id : Z) (s : Driver (Z -> Z)) :
  Forall is_byte (rxbuf s) ->
  let link := register_servo id in
  let mem := bus s in
  let word reg := to_int16 (mem reg + Z.shiftl (mem (reg + 1)) 8) in
  fst (getCurrentPosition link R id s) = word (CURRENT_POSITION R)
  /\ fst (getCurrentTemperature link R id s) = word (CURRENT_TEMPERATURE R)
  /\ fst (isMoving link R id s) = (mem (MOVING_STATUS R) >? 0)
  /\ fst (getCurrentSpeed link R id s) = sign_bit_decode (word (CURRENT_SPEED R)).
Proof.
  intros Hrx link mem word.
  assert (Htwo : forall reg, fst (readTwoBytesRegister link id reg s) = word reg).
  { intros reg. rewrite readTwoBytesRegister_run.
    pose proof (servo_read id reg 2 [0; 0] [] s Hrx ltac:(lia) eq_refl) as Hread.
    cbn [app] in Hread. change (Z.of_nat 2) with 2 in Hread.
    unfold link. rewrite Hread. cbn [fst]. change (0 <? 0) with false. cbv iota.
    unfold load. cbn [seq map app]. rewrite get_0, get_1.
    change (Z.of_nat 0) with 0. change (Z.of_nat 1) with 1. by rewrite Z.add_0_r. }
  split; [| split; [| split]].
  - unfold getCurrentPosition. rewrite bind_run. apply Htwo.
  - unfold getCurrentTemperature. apply Htwo.
  - unfold isMoving. rewrite bind_run. unfold mret, M_ret. cbn [fst].
    rewrite readRegister_run.
    pose proof (servo_read id (MOVING_STATUS R) 1 [0] [] s Hrx ltac:(lia) eq_refl) as Hread.
    cbn [app] in Hread. change (Z.of_nat 1) with 1 in Hread.
    unfold link. rewrite Hread. cbn [fst]. change (0 <? 0) with false. cbv iota.
    unfold load. cbn [seq map app]. rewrite get_0.
    change (Z.of_nat 0) with 0. by rewrite Z.add_0_r.
  - rewrite getCurrentSpeed_run.
    pose proof (Htwo (CURRENT_SPEED R)) as Hv.
    destruct (readTwoBytesRegister link id (CURRENT_SPEED R) s) as [vel s1].
    cbn [fst] in *. by rewrite Hv.
Qed.

Lemma status_getters_decode_witness :
  let s := fresh (fun a : Z => if a =? 0x38 then 0xFE else 0xFF) in
  let link := register_servo 1 in
  let mem := bus s in
  let word reg := to_int16 (mem reg + Z.shiftl (mem (reg + 1)) 8) in
  fst (getCurrentPosition link sts_registers 1 s) = word (CURRENT_POSITION sts_registers)
  /\ fst (getCurrentTemperature link sts_registers 1 s)
     = word (CURRENT_TEMPERATURE sts_registers)
  /\ fst (isMoving link sts_registers 1 s) = (mem (MOVING_STATUS sts_registers) >? 0)
  /\ fst (getCurrentSpeed link sts_registers 1 s)
     = sign_bit_decode (word (CURRENT_SPEED sts_registers)).
Proof.
  apply (status_getters_decode sts_registers 1
           (fresh (fun a : Z => if a =? 0x38 then 0xFE else 0xFF))).
  constructor.
Defined.

(** X17.  [getCurrentSpeed] never returns a value outside [-32767, 32767],
    whatever the bus delivers. *)
Theorem getCurrentSpeed_range {E : Type} (link : Link E) (R : STSRegisters)
    (servoId : Z) (s : Driver E) :
  -32767 <= fst (getCurrentSpeed link R servoId s) <= 32767.
Proof.
  rewrite getCurrentSpeed_run.
  destruct (readTwoBytesRegister link servoId (CURRENT_SPEED R) s) as [vel s1].
  cbn [fst]. apply sign_bit_decode_range.
Qed.

(** ** Multi-step sequences *)

Section Sequences.
Context {E : Type}.
Variable link : Link E.
Variable R : STSRegisters.
Variable asynchronous_default : bool.

Lemma transmit_txlog (buf : list Z) (s : Driver E) :
  txlog (snd (transmit link buf s)) = txlog s ++ [buf].
Proof. unfold transmit. by destruct (link (bus s) buf) as [[n answer] e]. Qed.

Lemma setPositionOffset_run (servoId positionOffset : Z) (s : Driver E) :
  let cmd := if asynchronous_default then instruction.REGWRITE else instruction.WRITE in
  setPositionOffset link R asynchronous_default servoId positionOffset s
  = let '(c1, s1) := transmit link (frame servoId cmd [WRITE_LOCK R; 0]) s in
    if negb (c1 =? 8) then (false, s1) else
    let '(c2, s2) :=
      transmit link (frame servoId cmd [POSITION_CORRECTION R; low_byte positionOffset;
                                        high_byte positionOffset]) s1 in
    if negb (c2 =? 9) then (false, s2) else
    let '(c3, s3) := transmit link (frame servoId cmd [WRITE_LOCK R; 1]) s2 in
    (c3 =? 8, s3).
Proof.
  cbv zeta. unfold setPositionOffset.
  rewrite bind_run, writeRegister_run.
  destruct (transmit link _ s) as [c1 s1]. cbn [fst snd].
  destruct (c1 =? 8); [|done]. cbn [negb].
  rewrite bind_run, writeTwoBytesRegister_run, low_byte_to_int16, high_byte_to_int16.
  destruct (transmit link _ s1) as [c2 s2]. cbn [fst snd].
  destruct (c2 =? 9); [|done]. cbn [negb].
  rewrite bind_run, writeRegister_run.
  destruct (transmit link _ s2) as [c3 s3]. cbn [fst snd].
  by destruct (c3 =? 8).
Qed.

Lemma setId_run (oldServoId newServoId : Z) (s : Driver E) :
  oldServoId < 0xFE -> newServoId < 0xFE ->
  let cmd := if asynchronous_default then instruction.REGWRITE else instruction.WRITE in
  setId link R asynchronous_default oldServoId newServoId s
  = let '(taken, s0) := ping link newServoId s in
    if taken then (false, s0) else
    let '(c1, s1) := transmit link (frame oldServoId cmd [WRITE_LOCK R; 0]) s0 in
    if negb (c1 =? 8) then (false, s1) else
    let '(c2, s2) := transmit link (frame oldServoId cmd [ID R; newServoId]) s1 in
    if negb (c2 =? 8) then (false, s2) else
    let '(c3, s3) := transmit link (frame newServoId cmd [WRITE_LOCK R; 1]) s2 in
    if negb (c3 =? 8) then (false, s3) else
    ping link newServoId s3.
Proof.
  intros Hold Hnew. cbv zeta. unfold setId.
  rewrite !Z.geb_leb.
  destruct (Z.leb_spec 254 oldServoId); [lia|].
  destruct (Z.leb_spec 254 newServoId); [lia|]. cbn [orb].
  rewrite bind_run.
  destruct (ping link newServoId s) as [taken s0]. cbn [fst snd].
  destruct taken; [done|].
  rewrite bind_run, writeRegister_run.
  destruct (transmit link _ s0) as [c1 s1]. cbn [fst snd].
  destruct (c1 =? 8); [|done]. cbn [negb].
  rewrite bind_run, writeRegister_run.
  destruct (transmit link _ s1) as [c2 s2]. cbn [fst snd].
  destruct (c2 =? 8); [|done]. cbn [negb].
  rewrite bind_run, writeRegister_run.
  destruct (transmit link _ s2) as [c3 s3]. cbn [fst snd].
  by destruct (c3 =? 8).
Qed.

End Sequences.

(** X18.  The frames [setPositionOffset] sends are a non-empty prefix of:
    an unlock write (lock register := 0), the offset as two bytes low byte
    first to the position-correction register, a lock write (lock register
    := 1).  It returns true only after all three; when it returns false no
    frame beyond this prefix is sent, so nothing undoes the unlock. *)
Theorem setPositionOffset_sequence {E : Type} (link : Link E) (R : STSRegisters)
    (asynchronous_default : bool) (servoId positionOffset : Z) (s : Driver E) :
  let cmd := if asynchronous_default then instruction.REGWRITE else instruction.WRITE in
  let unlock := frame servoId cmd [WRITE_LOCK R; 0] in
  let offset := frame servoId cmd [POSITION_CORRECTION R; positionOffset `mod` 256;
                                   (positionOffset `div` 256) `mod` 256] in
  let lock := frame servoId cmd [WRITE_LOCK R; 1] in
  let r := setPositionOffset link R asynchronous_default servoId positionOffset s in
  (fst r = true /\ sent_since s (snd r) = [unlock; offset; lock])
  \/ (fst r = false
      /\ (sent_since s (snd r) = [unlock]
          \/ sent_since s (snd r) = [unlock; offset]
          \/ sent_since s (snd r) = [unlock; offset; lock])).
Proof.
  cbv zeta.
  pose proof (setPositionOffset_run link R asynchronous_default servoId positionOffset s)
    as Hrun. cbv zeta in Hrun. rewrite Hrun. clear Hrun.
  fold (low_byte positionOffset) (high_byte positionOffset).
  set (cmd := if asynchronous_default then instruction.REGWRITE else instruction.WRITE).
  pose proof (transmit_txlog link (frame servoId cmd [WRITE_LOCK R; 0]) s) as H1.
  destruct (transmit link _ s) as [c1 s1]. cbn [snd] in H1.
  destruct (c1 =? 8); cbn [negb];
    [| right; split; [done|]; left; by apply sent_since_app].
  pose proof (transmit_txlog link
                (frame servoId cmd [POSITION_CORRECTION R; low_byte positionOffset;
                                    high_byte positionOffset]) s1) as H2.
  destruct (transmit link _ s1) as [c2 s2]. cbn [snd] in H2.
  rewrite H1, <- (assoc_L (++)) in H2.
  destruct (c2 =? 9); cbn [negb];
    [| right; split; [done|]; right; left; by apply sent_since_app].
  pose proof (transmit_txlog link (frame servoId cmd [WRITE_LOCK R; 1]) s2) as H3.
  destruct (transmit link _ s2) as [c3 s3]. cbn [snd] in H3.
  rewrite H2, <- (assoc_L (++)) in H3.
  destruct (c3 =? 8); [left | right]; (split; [done|]).
  - by apply sent_since_app.
  - right; right. by apply sent_since_app.
Qed.

(** X19.  For IDs below 0xFE, the frames [setId] sends are a non-empty prefix
    of: a PING to the new ID, an unlock write to the old ID, the new ID to
    the old ID's ID register, a lock write addressed to the new ID, a second
    PING to the new ID.  It returns true only after all five; no other frame
    is sent, so a failure part-way leaves the earlier writes in effect. *)
Theorem setId_sequence {E : Type} (link : Link E) (R : STSRegisters)
    (asynchronous_default : bool) (oldServoId newServoId : Z) (s : Driver E) :
  oldServoId < 0xFE -> newServoId < 0xFE ->
  let cmd := if asynchronous_default then instruction.REGWRITE else instruction.WRITE in
  let steps := [frame newServoId instruction.PING [];
                frame oldServoId cmd [WRITE_LOCK R; 0];
                frame oldServoId cmd [ID R; newServoId];
                frame newServoId cmd [WRITE_LOCK R; 1];
                frame newServoId instruction.PING []] in
  let r := setId link R asynchronous_default oldServoId newServoId s in
  (exists k, (1 <= k <= 5)%nat /\ sent_since s (snd r) = take k steps)
  /\ (fst r = true -> sent_since s (snd r) = steps).
Proof.
  intros Hold Hnew. cbv zeta.
  pose proof (setId_run link R asynchronous_default oldServoId newServoId s Hold Hnew)
    as Hrun. cbv zeta in Hrun. rewrite Hrun. clear Hrun.
  set (cmd := if asynchronous_default then instruction.REGWRITE else instruction.WRITE).
  pose proof (ping_txlog link newServoId s) as H0.
  destruct (ping link newServoId s) as [taken s0]. cbn [snd] in H0.
  destruct taken.
  { split; [exists 1%nat; split; [lia | by apply sent_since_app] | discriminate]. }
  pose proof (transmit_txlog link (frame oldServoId cmd [WRITE_LOCK R; 0]) s0) as H1.
  destruct (transmit link _ s0) as [c1 s1]. cbn [snd] in H1.
  rewrite H0, <- (assoc_L (++)) in H1.
  destruct (c1 =? 8); cbn [negb].
  2:{ split; [exists 2%nat; split; [lia | by apply sent_since_app] | discriminate]. }
  pose proof (transmit_txlog link (frame oldServoId cmd [ID R; newServoId]) s1) as H2.
  destruct (transmit link _ s1) as [c2 s2]. cbn [snd] in H2.
  rewrite H1, <- (assoc_L (++)) in H2.
  destruct (c2 =? 8); cbn [negb].
  2:{ split; [exists 3%nat; split; [lia | by apply sent_since_app] | discriminate]. }
  pose proof (transmit_txlog link (frame newServoId cmd [WRITE_LOCK R; 1]) s2) as H3.
  destruct (transmit link _ s2) as [c3 s3]. cbn [snd] in H3.
  rewrite H2, <- (assoc_L (++)) in H3.
  destruct (c3 =? 8); cbn [negb].
  2:{ split; [exists 4%nat; split; [lia | by apply sent_since_app] | discriminate]. }
  pose proof (ping_txlog link newServoId s3) as H4.
  rewrite H3, <- (assoc_L (++)) in H4.
  split; [exists 5%nat; split; [lia | by apply sent_since_app] | intros _; by apply sent_since_app].
Qed.

Lemma setId_sequence_witness :
  let link := servo_bus [10] (fun _ => 0) in
  let steps := [frame 11 instruction.PING [];
                frame 10 instruction.WRITE [WRITE_LOCK sts_registers; 0];
                frame 10 instruction.WRITE [ID sts_registers; 11];
                frame 11 instruction.WRITE [WRITE_LOCK sts_registers; 1];
                frame 11 instruction.PING []] in
  let r := setId link sts_registers false 10 11 (fresh tt) in
  (exists k, (1 <= k <= 5)%nat /\ sent_since (fresh tt) (snd r) = take k steps)
  /\ (fst r = true -> sent_since (fresh tt) (snd r) = steps).
Proof.
  apply (setId_sequence (servo_bus [10] (fun _ => 0)) sts_registers false 10 11 (fresh tt));
    lia.
Defined.

Lemma store_hit (mem : Z -> Z) (reg a : Z) (bytes : list Z) :
  reg <= a < reg + Z.of_nat (length bytes) ->
  store mem reg bytes a = get bytes (a - reg).
Proof.
  intros Ha. unfold store.
  destruct (Z.leb_spec reg a); [|lia].
  by destruct (Z.ltb_spec a (reg + Z.of_nat (length bytes))); [|lia].
Qed.

Lemma store_miss (mem : Z -> Z) (reg a : Z) (bytes : list Z) :
  a < reg \/ reg + Z.of_nat (length bytes) <= a ->
  store mem reg bytes a = mem a.
Proof.
  intros Ha. unfold store.
  destruct (Z.leb_spec reg a); [|done].
  by destruct (Z.ltb_spec a (reg + Z.of_nat (length bytes))); [lia|].
Qed.

(** X20.  On a servo with a register table, [setPositionOffset] with a 16-bit
    signed offset succeeds, the offset can be read back from the
    position-correction register, and the lock register is left at 1, provided
    the lock register is not one of the two position-correction bytes. *)
Theorem setPositionOffset_stores_offset (R : STSRegisters) (id positionOffset : Z)
    (s : Driver (Z -> Z)) :
  Forall is_byte (rxbuf s) ->
  -32768 <= positionOffset <= 32767 ->
  WRITE_LOCK R <> POSITION_CORRECTION R ->
  WRITE_LOCK R <> POSITION_CORRECTION R + 1 ->
  let link := register_servo id in
  let r := setPositionOffset link R false id positionOffset s in
  fst r = true
  /\ fst (readTwoBytesRegister link id (POSITION_CORRECTION R) (snd r)) = positionOffset
  /\ fst (readRegister link id (WRITE_LOCK R) (snd r)) = 1.
Proof.
  intros Hrx Hoff Hwl Hwl1 link r.
  set (mem3 := store (store (store (bus s) (WRITE_LOCK R) [0]) (POSITION_CORRECTION R)
                        [low_byte positionOffset; high_byte positionOffset])
                 (WRITE_LOCK R) [1]).
  assert (Hr : exists log, r = (true, mkDriver LOW (rxbuf s) log mem3)).
  { unfold r. pose proof (setPositionOffset_run link R false id positionOffset s) as Hrun.
    cbv zeta in Hrun. rewrite Hrun. unfold transmit, link. cbn [bus rxbuf txlog].
    rewrite register_servo_write. cbn [length]. change (Z.of_nat 1 + 7 =? 8) with true.
    cbn [negb bus rxbuf txlog].
    rewrite register_servo_write. cbn [length]. change (Z.of_nat 2 + 7 =? 9) with true.
    cbn [negb bus rxbuf txlog].
    rewrite register_servo_write. cbn [length]. change (Z.of_nat 1 + 7 =? 8) with true.
    rewrite !app_nil_r. by eexists. }
  destruct Hr as [log ->]. cbn [fst snd]. split; [done|].
  split.
  - rewrite readTwoBytesRegister_run.
    pose proof (servo_read id (POSITION_CORRECTION R) 2 [0; 0] []
                  (mkDriver LOW (rxbuf s) log mem3) Hrx ltac:(lia) eq_refl) as Hread.
    cbn [app bus] in Hread. change (Z.of_nat 2) with 2 in Hread.
    unfold link. rewrite Hread. cbn [fst]. change (0 <? 0) with false. cbv iota.
    unfold load. cbn [seq map app]. rewrite get_0, get_1.
    change (Z.of_nat 0) with 0. change (Z.of_nat 1) with 1. rewrite Z.add_0_r.
    unfold mem3.
    rewrite !(store_miss _ (WRITE_LOCK R)) by (simpl; lia).
    rewrite !store_hit by (simpl; lia).
    rewrite Z.sub_diag, get_0.
    replace (POSITION_CORRECTION R + 1 - POSITION_CORRECTION R) with 1 by lia.
    rewrite get_1, bytes_recombine. apply to_int16_small. lia.
  - rewrite readRegister_run.
    pose proof (servo_read id (WRITE_LOCK R) 1 [0] []
                  (mkDriver LOW (rxbuf s) log mem3) Hrx ltac:(lia) eq_refl) as Hread.
    cbn [app bus] in Hread. change (Z.of_nat 1) with 1 in Hread.
    unfold link. rewrite Hread. cbn [fst]. change (0 <? 0) with false. cbv iota.
    unfold load. cbn [seq map app]. rewrite get_0.
    change (Z.of_nat 0) with 0. rewrite Z.add_0_r.
    unfold mem3. rewrite store_hit by (simpl; lia).
    by rewrite Z.sub_diag.
Qed.

Lemma setPositionOffset_stores_offset_witness :
  let link := register_servo 1 in
  let r := setPositionOffset link sts_registers false 1 (-200) (fresh (fun _ : Z => 0x01)) in
  fst r = true
  /\ fst (readTwoBytesRegister link 1 (POSITION_CORRECTION sts_registers) (snd r)) = -200
  /\ fst (readRegister link 1 (WRITE_LOCK sts_registers) (snd r)) = 1.
Proof.
  apply (setPositionOffset_stores_offset sts_registers 1 (-200) (fresh (fun _ : Z => 0x01)));
    [constructor | lia | vm_compute; discriminate | vm_compute; discriminate].
Defined.

(** ** Renaming a servo *)

Lemma status_packet_nil (id : Z) :
  status_packet id [] = [0xFF; 0xFF; id; 2; 0; to_byte (Z.lnot (to_byte (id + 2 + 0)))].
Proof.
  unfold status_packet. cbn [length app]. change (Z.of_nat 0 + 2) with 2.
  change (sum_bytes []) with 0. by rewrite (Z.add_0_r (id + 2 + 0)).
Qed.

Lemma id_servo_ping_self (R : STSRegisters) (id lock : Z) :
  id_servo R (id, lock) (frame id instruction.PING [])
  = (6, [0xFF; 0xFF; id; 2; 0; to_byte (Z.lnot (to_byte (id + 2 + 0)))], (id, lock)).
Proof.
  unfold id_servo. cbv zeta. cbn [fst].
  rewrite bool_decide_eq_true_2 by reflexivity.
  by rewrite status_packet_nil.
Qed.

Lemma id_servo_ping_other (R : STSRegisters) (id lock i : Z) :
  i <> id ->
  id_servo R (id, lock) (frame i instruction.PING []) = (6, [], (id, lock)).
Proof.
  intros Hne. unfold id_servo. cbv zeta. cbn [fst].
  rewrite bool_decide_eq_false_2; [reflexivity|].
  intros Heq. injection Heq as Heq _. done.
Qed.

Lemma id_servo_write (R : STSRegisters) (id lock reg v : Z) :
  id_servo R (id, lock) (frame id instruction.WRITE [reg; v])
  = if reg =? WRITE_LOCK R then (8, [], (id, v))
    else if (reg =? ID R) && (lock =? 0) then (8, [], (v, lock))
    else (8, [], (id, lock)).
Proof.
  destruct (frame_cons id instruction.WRITE reg [v]) as [chk Hframe].
  assert (Hgen : forall buf,
             buf = 0xFF :: 0xFF :: id :: to_byte (Z.of_nat (length [reg; v]) + 2)
                   :: instruction.WRITE :: reg :: ([v] ++ [chk]) ->
             id_servo R (id, lock) buf
             = if reg =? WRITE_LOCK R then (8, [], (id, v))
               else if (reg =? ID R) && (lock =? 0) then (8, [], (v, lock))
               else (8, [], (id, lock))).
  { intros buf ->. unfold id_servo. cbv zeta. cbn [fst snd app].
    rewrite bool_decide_eq_false_2 by discriminate.
    change (v :: [chk]) with ([v] ++ [chk]). rewrite <- Hframe.
    rewrite bool_decide_eq_true_2 by reflexivity.
    rewrite frame_length. reflexivity. }
  apply Hgen, Hframe.
Qed.

(** X21.  Renaming works: on a bus with one servo, at the old ID, [setId] to
    another free ID below 0xFE returns true, the servo ends up at the new ID
    with its lock register at 1, and the five frames of the sequence are what
    went over the wire. *)
Theorem setId_renames (R : STSRegisters) (oldServoId newServoId lock : Z)
    (s : Driver (Z * Z)) :
  oldServoId < 0xFE -> newServoId < 0xFE ->
  newServoId <> oldServoId ->
  WRITE_LOCK R <> ID R ->
  rxbuf s = [] ->
  bus s = (oldServoId, lock) ->
  setId (id_servo R) R false oldServoId newServoId s
  = (true,
     mkDriver LOW []
       (txlog s ++ [frame newServoId instruction.PING [];
                    frame oldServoId instruction.WRITE [WRITE_LOCK R; 0];
                    frame oldServoId instruction.WRITE [ID R; newServoId];
                    frame newServoId instruction.WRITE [WRITE_LOCK R; 1];
                    frame newServoId instruction.PING []])
       (newServoId, 1)).
Proof.
  intros Hold Hnew Hne Hreg Hrx Hbus.
  pose proof (setId_run (id_servo R) R false oldServoId newServoId s Hold Hnew) as Hrun.
  cbv zeta in Hrun. rewrite Hrun. clear Hrun.
  rewrite (ping_unanswered (id_servo R) newServoId (oldServoId, lock) s Hrx)
    by (rewrite Hbus; by apply id_servo_ping_other).
  unfold transmit. cbn [bus rxbuf txlog].
  rewrite id_servo_write, Z.eqb_refl. cbn [Z.eqb Pos.eqb negb bus rxbuf txlog app].
  rewrite id_servo_write.
  destruct (Z.eqb_spec (ID R) (WRITE_LOCK R)) as [Heq|_]; [congruence|].
  rewrite Z.eqb_refl. cbn [andb Z.eqb Pos.eqb negb bus rxbuf txlog app].
  rewrite id_servo_write, Z.eqb_refl. cbn [Z.eqb Pos.eqb negb bus rxbuf txlog app].
  rewrite (ping_answered (id_servo R) newServoId 0 (newServoId, 1));
    [| reflexivity | apply id_servo_ping_self].
  cbn [txlog]. by rewrite <- !(assoc_L (++)).
Qed.

Lemma setId_renames_witness :
  setId (id_servo sts_registers) sts_registers false 1 7 (fresh (1, 1))
  = (true,
     mkDriver LOW []
       (txlog (fresh (1, 1))
        ++ [frame 7 instruction.PING [];
            frame 1 instruction.WRITE [WRITE_LOCK sts_registers; 0];
            frame 1 instruction.WRITE [ID sts_registers; 7];
            frame 7 instruction.WRITE [WRITE_LOCK sts_registers; 1];
            frame 7 instruction.PING []])
       (7, 1)).
Proof.
  apply (setId_renames sts_registers 1 7 1 (fresh (1, 1)));
    [lia | lia | lia | vm_compute; discriminate | reflexivity | reflexivity].
Defined.

(** X22.  [ping] returns true exactly when the transport reports the 6 bytes
    of the PING frame as sent and the receive buffer, with the answer in it,
    starts with the status packet FF FF id 02 00 and its checksum: a servo
    that answers with a non-zero status byte counts as absent. *)
Theorem ping_true_iff {E : Type} (link : Link E) (servoId : Z) (s : Driver E) :
  fst (ping link servoId s) = true
  <-> exists answer e rest,
        link (bus s) (frame servoId instruction.PING []) = (6, answer, e)
        /\ rxbuf s ++ answer
           = [0xFF; 0xFF; servoId; 0x02; 0x00; to_byte (Z.lnot (to_byte (servoId + 2)))]
             ++ rest.
Proof.
  rewrite ping_run. unfold transmit.
  destruct (link (bus s) (frame servoId instruction.PING [])) as [[send answer] e].
  set (s1 := mkDriver LOW (rxbuf s ++ answer) _ e).
  split.
  - destruct (Z.eqb_spec send 6) as [->|Hne]; cbn [negb]; [|discriminate].
    pose proof (receiveMessage_codes servoId 1 [255] s1) as Hcodes.
    pose proof (receiveMessage_sound servoId 1 [255] s1 ltac:(lia)) as Hsound.
    destruct (receiveMessage servoId 1 [255] s1) as [[rd response] s2].
    cbn [fst snd] in *.
    destruct (Z.ltb_spec rd 0) as [|Hrd]; [discriminate|]. intros Hget.
    assert (rd = 0) as ->.
    { rewrite !elem_of_cons in Hcodes.
      destruct Hcodes as [?|[?|[?|[?|Hnil]]]]; [lia | lia | lia | lia |].
      by apply elem_of_nil in Hnil. }
    destruct (Hsound eq_refl) as (data & rest & Hlen & Hrxs & _ & Hout).
    destruct data as [|d [|? ?]]; simpl in Hlen; try lia.
    specialize (Hout [255] [] eq_refl eq_refl). subst response.
    cbn [app] in Hget. rewrite get_0 in Hget. apply Z.eqb_eq in Hget. subst d.
    exists answer, e, rest. split; [done|].
    unfold s1 in Hrxs. cbn [rxbuf] in Hrxs. rewrite Hrxs.
    unfold packet_checksum. cbn [length app]. change (Z.of_nat 1 + 1) with 2.
    change (sum_bytes [0]) with (0 + 0). by rewrite !Z.add_0_r.
  - intros (answer' & e' & rest & Hlink & Hrxs). injection Hlink as -> -> ->.
    cbn [Z.eqb Pos.eqb negb].
    pose proof (receiveMessage_ok servoId [0] rest [255] [] s1) as Hok.
    cbn [length app] in Hok. change (Z.of_nat 1) with 1 in Hok.
    change (1 + 1) with 2 in Hok. change (sum_bytes [0]) with (0 + 0) in Hok.
    rewrite !Z.add_0_r in Hok.
    rewrite Hok; [reflexivity | | done].
    unfold s1. cbn [rxbuf]. by rewrite Hrxs.
Qed.

(** X23.  [convertIntToBytes] splits the low 16 bits of a C [int], negative or
    not, into two bytes, low byte first: both results are bytes and together
    they give the value modulo 65536. *)
Theorem convertIntToBytes_recombines (value a b : Z) :
  let result := convertIntToBytes value [a; b] in
  length result = 2%nat
  /\ is_byte (get result 0) /\ is_byte (get result 1)
  /\ get result 0 + 256 * get result 1 = value `mod` 65536.
Proof.
  cbv zeta. rewrite convertIntToBytes_2, get_0, get_1.
  split; [done|]. split; [apply low_byte_range|]. split; [apply high_byte_range|].
  unfold low_byte, high_byte. change 65536 with (256 * 256).
  rewrite Z.rem_mul_r by lia. lia.
Qed.

(** ** Discovery on the simulated bus *)

Lemma servo_bus_ping (present : list Z) (mem : Z -> Z) (id : Z) :
  servo_bus present mem tt (frame id instruction.PING [])
  = (6, if bool_decide (id ∈ present)
        then [0xFF; 0xFF; id; 2; 0; to_byte (Z.lnot (to_byte (id + 2 + 0)))] else [], tt).
Proof.
  unfold servo_bus. rewrite frame_length. f_equal. f_equal.
  unfold servo_answer, frame. cbv zeta. cbn [length app].
  change (to_byte (Z.of_nat 0 + 2)) with 2. change instruction.PING with 1.
  cbv iota beta.
  replace (id + Z.of_nat 0 + 2 + 1 + sum_bytes []) with (id + 2 + 1)
    by (change (sum_bytes []) with 0; lia).
  rewrite Z.eqb_refl, andb_true_r.
  destruct (bool_decide (id ∈ present)); [apply status_packet_nil | done].
Qed.

Lemma ping_on_bus (present : list Z) (mem : Z -> Z) (id : Z) (log : list (list Z)) :
  ping (servo_bus present mem) id (mkDriver LOW [] log tt)
  = (bool_decide (id ∈ present),
     mkDriver LOW [] (log ++ [frame id instruction.PING []]) tt).
Proof.
  destruct (bool_decide (id ∈ present)) eqn:Hin.
  - rewrite (ping_answered (servo_bus present mem) id 0 tt); [done | done |].
    cbn [bus]. by rewrite servo_bus_ping, Hin.
  - rewrite (ping_unanswered (servo_bus present mem) id tt); [done | done |].
    cbn [bus]. by rewrite servo_bus_ping, Hin.
Qed.

Lemma sweep_on_bus (present : list Z) (mem : Z -> Z) (k : nat) :
  sweep (servo_bus present mem) k (fresh tt) = mkDriver LOW [] (ping_frames k) tt.
Proof.
  induction k as [|k IH]; [done|].
  cbn [sweep]. rewrite IH, ping_on_bus. cbn [snd].
  unfold ping_frames. by rewrite seq_S, map_app.
Qed.

(** X24.  On a bus where every servo present answers its ping, [init] finds
    the lowest ID below 0xFE that is present: it returns true after pinging
    0, 1, ..., that ID, and nothing more; with no servo below 0xFE present it
    returns false after 254 pings.  Servos at 0xFE or above are never
    looked for. *)
Theorem init_on_bus (present : list Z) (mem : Z -> Z) (k : nat) :
  (forall j, (j < k)%nat -> Z.of_nat j ∉ present) ->
  ((k < 254)%nat -> Z.of_nat k ∈ present ->
   init (servo_bus present mem) (fresh tt)
   = (true, mkDriver LOW [] (ping_frames (S k)) tt))
  /\ ((254 <= k)%nat ->
      init (servo_bus present mem) (fresh tt)
      = (false, mkDriver LOW [] (ping_frames 254) tt)).
Proof.
  intros Hbefore.
  assert (Hping : forall j, fst (ping (servo_bus present mem) (Z.of_nat j)
                                   (sweep (servo_bus present mem) j (fresh tt)))
                            = bool_decide (Z.of_nat j ∈ present)).
  { intros j. by rewrite sweep_on_bus, ping_on_bus. }
  unfold init. change (Z.to_nat (254 - 0)) with 254%nat.
  destruct (init_loop_run (servo_bus present mem) 254 0 (fresh tt))
    as [(k' & Hk' & Hfalse & Htrue & Hrun)|[Hall Hrun]];
    change (sweep (servo_bus present mem) 0 (fresh tt)) with (fresh tt) in Hrun;
    change (Z.of_nat 0) with 0 in Hrun; rewrite Hrun, sweep_on_bus.
  - rewrite Hping in Htrue. apply bool_decide_eq_true_1 in Htrue.
    split.
    + intros Hk Hin.
      destruct (Nat.lt_trichotomy k k') as [Hlt|[->|Hgt]]; [| done |].
      * specialize (Hfalse k ltac:(lia)). rewrite Hping in Hfalse.
        by apply bool_decide_eq_false_1 in Hfalse.
      * by destruct (Hbefore k' Hgt).
    + intros Hk. by destruct (Hbefore k' ltac:(lia)).
  - split; [| done].
    intros Hk Hin. specialize (Hall k ltac:(lia)). rewrite Hping in Hall.
    by apply bool_decide_eq_false_1 in Hall.
Qed.

Lemma init_on_bus_witness :
  (3 < 254)%nat /\ Z.of_nat 3 ∈ [200; 3; 10]
  /\ init (servo_bus [200; 3; 10] (fun _ => 0)) (fresh tt)
     = (true, mkDriver LOW [] (ping_frames 4) tt).
Proof.
  split; [lia|]. split; [rewrite !elem_of_cons; auto|].
  apply (init_on_bus [200; 3; 10] (fun _ => 0) 3); [| lia | rewrite !elem_of_cons; auto].
  intros j Hj. rewrite !elem_of_cons, elem_of_nil. lia.
Defined.
